(** * The data-extraction pipeline of data-pipeline-cdk, embedded in Rocq

    The Lambda function under [src/lambdas/data_extractor] fetches records
    from an HTTP API ([api_client.py]), normalises them
    ([data_processor.py]), writes them to S3 ([s3_writer.py]) and reports
    the outcome ([handler.py]).  This development embeds those four modules
    as Rocq functions and proves properties of them.

    Python values are a tagged union [pyval]; dictionaries are association
    lists in insertion order with unique keys; everything that touches the
    outside world (the clock, the HTTP server, the random generator of the
    retry library, the S3 service) is explicit state that is threaded
    through the calls.  Strings are restricted to code points below 256, one
    [ascii] per code point. *)

From Stdlib Require Import ZArith Lia List String Ascii Bool.
From stdpp Require Import base option gmap strings sorting.
Import ListNotations.

#[local] Set Warnings "-register-all".

Local Open Scope string_scope.
Local Open Scope list_scope.
Local Open Scope Z_scope.

(** ** Text helpers *)

Module Text.

(** The double-quote character, and the newline. *)
Definition dq : string := String "034"%char EmptyString.
Definition nl : string := String "010"%char EmptyString.

Definition digit_char (d : Z) : ascii := ascii_of_nat (48 + Z.to_nat d).

Fixpoint digits_go (fuel : nat) (n : Z) (acc : string) : string :=
  match fuel with
  | O => acc
  | S fuel' =>
      let acc' := String (digit_char (n mod 10)) acc in
      if n <? 10 then acc' else digits_go fuel' (n / 10) acc'
  end.

(** Decimal digits of a natural number, most significant first. *)
Definition nat_digits (n : Z) : string :=
  digits_go (S (Z.to_nat (Z.log2 n))) n "".

(** [str(n)] for a Python int. *)
Definition int_str (z : Z) : string :=
  if z <? 0 then "-" +:+ nat_digits (- z) else nat_digits z.

Fixpoint zeros (n : nat) : string :=
  match n with O => "" | S n' => String "0"%char (zeros n') end.

(** [format(n, "0<w>d")] for a non-negative [n]: zero-padded on the left to
    at least [w] characters. *)
Definition zfill (w : nat) (n : Z) : string :=
  let s := int_str n in zeros (w - String.length s) +:+ s.

(** The two and the four digits of a number below 100 and below 10000. *)
Definition two_digits (n : Z) : string :=
  String (digit_char (n / 10)) (String (digit_char (n mod 10)) "").

Definition four_digits (n : Z) : string :=
  String (digit_char (n / 1000))
    (String (digit_char (n / 100 mod 10)) (two_digits (n mod 100))).

Definition hex_char (d : Z) : ascii :=
  if d <? 10 then ascii_of_nat (48 + Z.to_nat d)
  else ascii_of_nat (87 + Z.to_nat d).

(** Two lowercase hexadecimal digits of a byte. *)
Definition hex_byte (b : Z) : string :=
  String (hex_char (b / 16 mod 16)) (String (hex_char (b mod 16)) "").

Definition code (c : ascii) : Z := Z.of_nat (nat_of_ascii c).

Fixpoint contains_char (c : ascii) (s : string) : bool :=
  match s with
  | EmptyString => false
  | String c' s' => Ascii.eqb c c' || contains_char c s'
  end.

Fixpoint map_chars (f : ascii -> ascii) (s : string) : string :=
  match s with
  | EmptyString => ""
  | String c s' => String (f c) (map_chars f s')
  end.

(** [str.lower()] on code points below 256: A-Z and the accented capitals
    of Latin-1 (all of 0xC0-0xDE but the multiplication sign 0xD7). *)
Definition lower_char (c : ascii) : ascii :=
  let n := code c in
  if ((65 <=? n) && (n <=? 90))
     || ((192 <=? n) && (n <=? 222) && negb (n =? 215))
  then ascii_of_nat (Z.to_nat (n + 32)) else c.

Definition lower (s : string) : string := map_chars lower_char s.

(** [s.replace(" ", "_")]. *)
Definition spaces_to_underscores (s : string) : string :=
  map_chars (fun c => if Ascii.eqb c " "%char then "_"%char else c) s.

(** [sep.join(parts)]. *)
Definition join (sep : string) (parts : list string) : string :=
  String.concat sep parts.

(** [s.encode("utf-8")] on code points below 256. *)
Fixpoint utf8 (s : string) : list Z :=
  match s with
  | EmptyString => []
  | String c s' =>
      let n := code c in
      if n <? 128 then n :: utf8 s'
      else (192 + n / 64) :: (128 + n mod 64) :: utf8 s'
  end.

(** Insertion sort of keyed items by key, in code-point order; stable. *)
Fixpoint insert_by_key {A} (x : string * A) (l : list (string * A))
  : list (string * A) :=
  match l with
  | [] => [x]
  | y :: l' =>
      if String.ltb (fst y) (fst x) then y :: insert_by_key x l'
      else x :: y :: l'
  end.

Definition sort_by_key {A} (l : list (string * A)) : list (string * A) :=
  fold_right insert_by_key [] l.

End Text.

(** ** Python values *)

(** A binary64 float, kept as the shortest decimal that reads back as it
    (what [repr] prints): the double nearest to [digits * 10 ^ exp10], with
    no trailing zero in [digits].  Infinities, NaN and the negative zero
    are left out. *)
Record float64 := Float64 { digits : Z; exp10 : Z }.

Inductive pyval :=
| PNone
| PBool (b : bool)
| PInt (n : Z)
| PFloat (x : float64)
| PStr (s : string)
| PList (items : list pyval)
| PDict (entries : list (string * pyval)).

(** A [dict] with [str] keys: its items in insertion order. *)
Abbreviation pydict := (list (string * pyval)).

Inductive pyexn :=
| RequestsTimeout (msg : string)
| RequestsConnectionError (msg : string)
| RequestsHTTPError (status : Z) (msg : string)
| RequestsJSONDecodeError (msg : string)
| ValueError (msg : string)
| KeyError (key : string)
| AttributeError (msg : string)
| TypeError (msg : string)
| ClientError (msg : string).

Inductive result (A : Type) :=
| Ok (a : A)
| Raise (e : pyexn).
Arguments Ok {A} a.
Arguments Raise {A} e.

Module Py.
Import Text.

(** [bool(v)]. *)
Definition truthy (v : pyval) : bool :=
  match v with
  | PNone => false
  | PBool b => b
  | PInt n => negb (n =? 0)
  | PFloat x => negb (digits x =? 0)
  | PStr s => negb (String.eqb s "")
  | PList l => match l with [] => false | _ => true end
  | PDict d => match d with [] => false | _ => true end
  end.

(** [type(v).__name__]. *)
Definition type_name (v : pyval) : string :=
  match v with
  | PNone => "NoneType"
  | PBool _ => "bool"
  | PInt _ => "int"
  | PFloat _ => "float"
  | PStr _ => "str"
  | PList _ => "list"
  | PDict _ => "dict"
  end.

Definition is_none (v : pyval) : bool :=
  match v with PNone => true | _ => false end.

(** [isinstance(v, dict)], [isinstance(v, list)]. *)
Definition is_dict (v : pyval) : bool :=
  match v with PDict _ => true | _ => false end.
Definition is_list (v : pyval) : bool :=
  match v with PList _ => true | _ => false end.

(** [v == ""]: only the empty string equals it. *)
Definition eq_empty_str (v : pyval) : bool :=
  match v with PStr s => String.eqb s "" | _ => false end.

(** *** Dictionaries *)

(** [d.get(k)] as an option; [k in d] is [is_Some] of it. *)
Fixpoint dict_get {A} (d : list (string * A)) (k : string) : option A :=
  match d with
  | [] => None
  | (k', v) :: d' => if String.eqb k k' then Some v else dict_get d' k
  end.

Definition dict_has {A} (d : list (string * A)) (k : string) : bool :=
  match dict_get d k with Some _ => true | None => false end.

(** [d[k] = v]: an existing key keeps its place, a new one goes last. *)
Fixpoint dict_set {A} (d : list (string * A)) (k : string) (v : A)
  : list (string * A) :=
  match d with
  | [] => [(k, v)]
  | (k', v') :: d' =>
      if String.eqb k k' then (k, v) :: d' else (k', v') :: dict_set d' k v
  end.

(** [dict(items)], and the [**other] of a dict display: the items are
    stored left to right, a later one replacing an earlier one in place. *)
Definition dict_update {A} (d : list (string * A))
    (items : list (string * A)) : list (string * A) :=
  fold_left (fun acc kv => dict_set acc (fst kv) (snd kv)) items d.

Definition dict_of_items {A} (items : list (string * A))
  : list (string * A) :=
  dict_update [] items.

Definition dict_keys {A} (d : list (string * A)) : list string := map fst d.
Definition dict_values {A} (d : list (string * A)) : list A := map snd d.

(** Iterating a value ([for x in v], [list.extend(v)]): a list yields its
    items, a dict its keys, a string its characters; anything else is not
    iterable. *)
Fixpoint chars (s : string) : list pyval :=
  match s with
  | EmptyString => []
  | String c s' => PStr (String c "") :: chars s'
  end.

Definition iterate (v : pyval) : result (list pyval) :=
  match v with
  | PList l => Ok l
  | PDict d => Ok (map PStr (dict_keys d))
  | PStr s => Ok (chars s)
  | _ => Raise (TypeError ("'" +:+ type_name v +:+ "' object is not iterable"))
  end.

(** *** [repr] and [str] *)

(** [repr(x)] of a float: fixed notation while the decimal point lies
    within the digits' reach, exponent notation otherwise. *)
Definition float_repr (x : float64) : string :=
  let d := digits x in
  if d =? 0 then "0.0" else
  let sign := if d <? 0 then "-" else "" in
  let ds := nat_digits (Z.abs d) in
  let n := Z.of_nat (String.length ds) in
  let decpt := n + exp10 x in
  if (-4 <? decpt) && (decpt <=? 16) then
    if decpt <=? 0 then sign +:+ "0." +:+ zeros (Z.to_nat (- decpt)) +:+ ds
    else if n <=? decpt then sign +:+ ds +:+ zeros (Z.to_nat (decpt - n)) +:+ ".0"
    else sign +:+ substring 0 (Z.to_nat decpt) ds +:+ "."
              +:+ substring (Z.to_nat decpt) (Z.to_nat (n - decpt)) ds
  else
    let e := decpt - 1 in
    sign +:+ substring 0 1 ds
         +:+ (if 1 <? n then "." +:+ substring 1 (Z.to_nat (n - 1)) ds else "")
         +:+ "e" +:+ (if e <? 0 then "-" else "+") +:+ zfill 2 (Z.abs e).

(** A character is shown as it is by [repr] when it is printable: the
    ASCII ones from space to tilde, and those of Latin-1 from 0xA1 on but
    the soft hyphen. *)
Definition printable (c : ascii) : bool :=
  let n := code c in
  ((32 <=? n) && (n <=? 126)) || ((161 <=? n) && negb (n =? 173)).

Definition repr_char (quote : ascii) (c : ascii) : string :=
  if Ascii.eqb c quote || Ascii.eqb c "\"%char then String "\"%char (String c "")
  else if Ascii.eqb c "009"%char then "\t"
  else if Ascii.eqb c "010"%char then "\n"
  else if Ascii.eqb c "013"%char then "\r"
  else if printable c then String c ""
  else "\x" +:+ hex_byte (code c).

Fixpoint repr_chars (quote : ascii) (s : string) : string :=
  match s with
  | EmptyString => ""
  | String c s' => repr_char quote c +:+ repr_chars quote s'
  end.

(** [repr(s)] of a string: single quotes, unless the string has a single
    quote and no double quote. *)
Definition str_repr (s : string) : string :=
  let quote :=
    if contains_char "'"%char s && negb (contains_char "034"%char s)
    then "034"%char else "'"%char in
  String quote (repr_chars quote s +:+ String quote "").

Fixpoint repr (v : pyval) : string :=
  match v with
  | PNone => "None"
  | PBool true => "True"
  | PBool false => "False"
  | PInt n => int_str n
  | PFloat x => float_repr x
  | PStr s => str_repr s
  | PList l => "[" +:+ join ", " (map repr l) +:+ "]"
  | PDict d =>
      "{" +:+ join ", " (map (fun kv => str_repr (fst kv) +:+ ": " +:+ repr (snd kv)) d)
          +:+ "}"
  end.

(** [str(v)]. *)
Definition str (v : pyval) : string :=
  match v with
  | PStr s => s
  | _ => repr v
  end.

End Py.

(** ** [json.dumps] *)

Module Json.
Import Text.

(** One character inside a JSON string, with [ensure_ascii] on (the
    default): everything outside space..tilde is escaped. *)
Definition escape_char (c : ascii) : string :=
  let n := code c in
  if n =? 34 then "\" +:+ dq
  else if n =? 92 then "\\"
  else if n =? 8 then "\b"
  else if n =? 12 then "\f"
  else if n =? 10 then "\n"
  else if n =? 13 then "\r"
  else if n =? 9 then "\t"
  else if (32 <=? n) && (n <=? 126) then String c ""
  else "\u00" +:+ hex_byte n.

Fixpoint escape (s : string) : string :=
  match s with
  | EmptyString => ""
  | String c s' => escape_char c +:+ escape s'
  end.

Definition quoted (s : string) : string := dq +:+ escape s +:+ dq.

Fixpoint spaces (n : nat) : string :=
  match n with O => "" | S n' => String " "%char (spaces n') end.

(** The text between the items of a container at nesting depth [level],
    after its opening bracket and before its closing one. *)
Definition item_sep (indent : option nat) (level : nat) : string :=
  match indent with
  | None => ", "
  | Some n => "," +:+ nl +:+ spaces (n * S level)
  end.
Definition after_open (indent : option nat) (level : nat) : string :=
  match indent with
  | None => ""
  | Some n => nl +:+ spaces (n * S level)
  end.
Definition before_close (indent : option nat) (level : nat) : string :=
  match indent with
  | None => ""
  | Some n => nl +:+ spaces (n * level)
  end.

Definition container (indent : option nat) (level : nat)
    (opening closing : string) (items : list string) : string :=
  match items with
  | [] => opening +:+ closing
  | _ => opening +:+ after_open indent level
           +:+ join (item_sep indent level) items
           +:+ before_close indent level +:+ closing
  end.

Fixpoint dumps_at (sort_keys : bool) (indent : option nat) (level : nat)
    (v : pyval) : string :=
  match v with
  | PNone => "null"
  | PBool true => "true"
  | PBool false => "false"
  | PInt n => int_str n
  | PFloat x => Py.float_repr x
  | PStr s => quoted s
  | PList l =>
      container indent level "[" "]"
        (map (dumps_at sort_keys indent (S level)) l)
  | PDict d =>
      let rendered :=
        map (fun kv => (fst kv, dumps_at sort_keys indent (S level) (snd kv))) d in
      let ordered := if sort_keys then sort_by_key rendered else rendered in
      container indent level "{" "}"
        (map (fun kv => quoted (fst kv) +:+ ": " +:+ snd kv) ordered)
  end.

(** [json.dumps(v)], [json.dumps(v, sort_keys=True)] and
    [json.dumps(v, indent=2)]. *)
Definition dumps (v : pyval) : string := dumps_at false None 0 v.
Definition dumps_sorted (v : pyval) : string := dumps_at true None 0 v.
Definition dumps_indent (n : nat) (v : pyval) : string :=
  dumps_at false (Some n) 0 v.

End Json.

(** ** Float arithmetic: [int / int] and [round(x, ndigits)] *)

Module F64.

(** [n / d] rounded to the nearest integer, ties to the even one
    ([0 <= n], [0 < d]). *)
Definition round_half_even (n d : Z) : Z :=
  let q := n / d in
  let r := n mod d in
  if 2 * r <? d then q
  else if d <? 2 * r then q + 1
  else if Z.even q then q else q + 1.

(** The fraction [a / b] scaled by [2 ^ s], as a numerator and a
    denominator. *)
Definition scaled (a b s : Z) : Z * Z :=
  (a * 2 ^ Z.max s 0, b * 2 ^ Z.max (- s) 0).

(** [a / b] for Python ints ([0 <= a], [0 < b]): the binary64 nearest to
    the quotient, ties to even, returned as [(m, s)] standing for
    [m / 2 ^ s] with a 53-bit [m].  The quotient is taken to lie in the
    normal range of binary64. *)
Definition true_divide (a b : Z) : Z * Z :=
  if a =? 0 then (0, 0) else
  let s0 := 52 - (Z.log2 a - Z.log2 b) in
  let s := if fst (scaled a b s0) / snd (scaled a b s0) <? 2 ^ 52
           then s0 + 1 else s0 in
  (round_half_even (fst (scaled a b s)) (snd (scaled a b s)), s).

Fixpoint strip_zeros (fuel : nat) (k e : Z) : float64 :=
  match fuel with
  | O => Float64 k e
  | S fuel' =>
      if k =? 0 then Float64 0 0
      else if k mod 10 =? 0 then strip_zeros fuel' (k / 10) (e + 1)
      else Float64 k e
  end.

(** The float written [k * 10 ^ e]. *)
Definition decimal (k e : Z) : float64 :=
  strip_zeros (S (Z.to_nat (Z.log2 (Z.abs k)))) k e.

(** [round(x, ndigits)] for a non-negative float [x = m / 2 ^ s] and
    [0 <= ndigits]: the exact binary value is rounded to [ndigits]
    decimals, ties to even, and the result is the double nearest to that
    decimal (which prints as it, as long as it has at most 15 digits). *)
Definition round (x : Z * Z) (ndigits : Z) : float64 :=
  let '(m, s) := x in
  let k := round_half_even (m * 10 ^ ndigits * 2 ^ Z.max (- s) 0)
                           (2 ^ Z.max s 0) in
  decimal k (- ndigits).

End F64.

(** ** [hashlib.md5] *)

Module MD5.
Import Text.

Definition mask32 : Z := 2 ^ 32.

Definition shifts : list Z :=
  [7; 12; 17; 22; 7; 12; 17; 22; 7; 12; 17; 22; 7; 12; 17; 22;
   5; 9; 14; 20; 5; 9; 14; 20; 5; 9; 14; 20; 5; 9; 14; 20;
   4; 11; 16; 23; 4; 11; 16; 23; 4; 11; 16; 23; 4; 11; 16; 23;
   6; 10; 15; 21; 6; 10; 15; 21; 6; 10; 15; 21; 6; 10; 15; 21].

(** [floor(2^32 * abs(sin(i + 1)))] for [i] in 0..63. *)
Definition sines : list Z :=
  [0xd76aa478; 0xe8c7b756; 0x242070db; 0xc1bdceee;
   0xf57c0faf; 0x4787c62a; 0xa8304613; 0xfd469501;
   0x698098d8; 0x8b44f7af; 0xffff5bb1; 0x895cd7be;
   0x6b901122; 0xfd987193; 0xa679438e; 0x49b40821;
   0xf61e2562; 0xc040b340; 0x265e5a51; 0xe9b6c7aa;
   0xd62f105d; 0x02441453; 0xd8a1e681; 0xe7d3fbc8;
   0x21e1cde6; 0xc33707d6; 0xf4d50d87; 0x455a14ed;
   0xa9e3e905; 0xfcefa3f8; 0x676f02d9; 0x8d2a4c8a;
   0xfffa3942; 0x8771f681; 0x6d9d6122; 0xfde5380c;
   0xa4beea44; 0x4bdecfa9; 0xf6bb4b60; 0xbebfbc70;
   0x289b7ec6; 0xeaa127fa; 0xd4ef3085; 0x04881d05;
   0xd9d4d039; 0xe6db99e5; 0x1fa27cf8; 0xc4ac5665;
   0xf4292244; 0x432aff97; 0xab9423a7; 0xfc93a039;
   0x655b59c3; 0x8f0ccc92; 0xffeff47d; 0x85845dd1;
   0x6fa87e4f; 0xfe2ce6e0; 0xa3014314; 0x4e0811a1;
   0xf7537e82; 0xbd3af235; 0x2ad7d2bb; 0xeb86d391].

Definition rotl32 (x c : Z) : Z :=
  Z.lor (Z.shiftl x c) (Z.shiftr x (32 - c)) mod mask32.

Definition not32 (x : Z) : Z := Z.lxor x (mask32 - 1).

Definition nthZ (l : list Z) (i : Z) : Z := nth (Z.to_nat i) l 0.

Record state := State { sa : Z; sb : Z; sc : Z; sd : Z }.

Definition init : state :=
  State 0x67452301 0xefcdab89 0x98badcfe 0x10325476.

(** One of the 64 operations on a block of sixteen words [m]. *)
Definition step (m : list Z) (st : state) (i : Z) : state :=
  let '(State a b c d) := st in
  let '(f, g) :=
    if i <? 16 then (Z.lor (Z.land b c) (Z.land (not32 b) d), i)
    else if i <? 32 then
      (Z.lor (Z.land d b) (Z.land (not32 d) c), (5 * i + 1) mod 16)
    else if i <? 48 then (Z.lxor (Z.lxor b c) d, (3 * i + 5) mod 16)
    else (Z.lxor c (Z.lor b (not32 d)), (7 * i) mod 16) in
  let f' := (f + a + nthZ sines i + nthZ m g) mod mask32 in
  State d ((b + rotl32 f' (nthZ shifts i)) mod mask32) b c.

(** Four bytes, least significant first, as one word. *)
Fixpoint words (n : nat) (bytes : list Z) : list Z :=
  match n with
  | O => []
  | S n' =>
      match bytes with
      | b0 :: b1 :: b2 :: b3 :: rest =>
          (b0 + 256 * b1 + 65536 * b2 + 16777216 * b3) :: words n' rest
      | _ => []
      end
  end.

Definition block (st : state) (bytes : list Z) : state :=
  let m := words 16 bytes in
  let st' := fold_left (step m) (map Z.of_nat (seq 0 64)) st in
  State ((sa st + sa st') mod mask32) ((sb st + sb st') mod mask32)
        ((sc st + sc st') mod mask32) ((sd st + sd st') mod mask32).

Fixpoint blocks (n : nat) (st : state) (bytes : list Z) : state :=
  match n with
  | O => st
  | S n' => blocks n' (block st (firstn 64 bytes)) (skipn 64 bytes)
  end.

(** [n] as [w] bytes, least significant first. *)
Fixpoint le_bytes (w : nat) (n : Z) : list Z :=
  match w with
  | O => []
  | S w' => n mod 256 :: le_bytes w' (n / 256)
  end.

(** The message, a one bit, zeros up to 56 modulo 64, and the length in
    bits on eight bytes. *)
Definition padded (msg : list Z) : list Z :=
  let len := Z.of_nat (List.length msg) in
  let fill := (55 - len) mod 64 in
  msg ++ [128] ++ repeat 0 (Z.to_nat fill) ++ le_bytes 8 ((8 * len) mod 2 ^ 64).

Definition hex_word (x : Z) : string :=
  hex_byte (x mod 256) +:+ hex_byte (x / 256 mod 256)
    +:+ hex_byte (x / 65536 mod 256) +:+ hex_byte (x / 16777216 mod 256).

(** [hashlib.md5(msg).hexdigest()]. *)
Definition hexdigest (msg : list Z) : string :=
  let p := padded msg in
  let st := blocks (List.length p / 64) init p in
  hex_word (sa st) +:+ hex_word (sb st) +:+ hex_word (sc st) +:+ hex_word (sd st).

End MD5.

(** ** [datetime] and the clock *)

Record datetime := DateTime {
  year : Z; month : Z; day : Z;
  hour : Z; minute : Z; second : Z; microsecond : Z
}.

Module DT.
Import Text.

(** [dt.isoformat()] of an aware UTC datetime: the microseconds are left
    out when they are zero. *)
Definition isoformat (dt : datetime) : string :=
  zfill 4 (year dt) +:+ "-" +:+ zfill 2 (month dt) +:+ "-" +:+ zfill 2 (day dt)
    +:+ "T" +:+ zfill 2 (hour dt) +:+ ":" +:+ zfill 2 (minute dt)
    +:+ ":" +:+ zfill 2 (second dt)
    +:+ (if microsecond dt =? 0 then "" else "." +:+ zfill 6 (microsecond dt))
    +:+ "+00:00".

(** [dt.strftime("%Y%m%d_%H%M%S")]. *)
Definition strftime_Ymd_HMS (dt : datetime) : string :=
  zfill 4 (year dt) +:+ zfill 2 (month dt) +:+ zfill 2 (day dt) +:+ "_"
    +:+ zfill 2 (hour dt) +:+ zfill 2 (minute dt) +:+ zfill 2 (second dt).

(** The ranges [datetime] keeps its fields in. *)
Definition valid (dt : datetime) : Prop :=
  1 <= year dt <= 9999 /\ 1 <= month dt <= 12 /\ 1 <= day dt <= 31
  /\ 0 <= hour dt < 24 /\ 0 <= minute dt < 60 /\ 0 <= second dt < 60
  /\ 0 <= microsecond dt < 1000000.

(** The wall clock: what each successive [datetime.now(UTC)] returns, and
    how many readings were taken. *)
Record clock := Clock { reading : nat -> datetime; reads : nat }.

Definition now (c : clock) : datetime * clock :=
  (reading c (reads c), Clock (reading c) (S (reads c))).

(** The clock after [k] more readings. *)
Definition advanced (c : clock) (k : nat) : clock :=
  Clock (reading c) (k + reads c).

End DT.

(** ** data_processor.py *)

Module DataProcessor.
Import Text Py DT.

(** [_flatten_record], on the value [PDict record]: nested dicts are
    merged into the parent under [parent_sep_child] names, lists become
    their JSON text, and the collected items are made a dict again. *)
Fixpoint flatten_value (sep parent_key : string) (v : pyval) {struct v}
  : pydict :=
  match v with
  | PDict record =>
      dict_of_items
        ((fix items (r : pydict) : pydict :=
            match r with
            | [] => []
            | (key, value) :: rest =>
                let new_key :=
                  if negb (String.eqb parent_key "")
                  then parent_key +:+ sep +:+ key else key in
                (match value with
                 | PDict _ => flatten_value sep new_key value
                 | PList _ => [(new_key, PStr (Json.dumps value))]
                 | _ => [(new_key, value)]
                 end) ++ items rest
            end) record)
  | _ => []
  end.

Definition _flatten_record (record : pydict) (parent_key sep : string)
  : pydict :=
  flatten_value sep parent_key (PDict record).

(** The items one entry of a record contributes to its flattened form. *)
Definition flat_item (sep parent_key : string) (kv : string * pyval)
  : pydict :=
  let new_key :=
    if negb (String.eqb parent_key "")
    then parent_key +:+ sep +:+ fst kv else fst kv in
  match snd kv with
  | PDict _ => flatten_value sep new_key (snd kv)
  | PList _ => [(new_key, PStr (Json.dumps (snd kv)))]
  | _ => [(new_key, snd kv)]
  end.

(** [_generate_id]: the MD5 of the record's JSON text with sorted keys. *)
Definition _generate_id (record : pydict) : string :=
  MD5.hexdigest (utf8 (Json.dumps_sorted (PDict record))).

(** The values that count as filled: [v is not None and v != ""]. *)
Definition filled (v : pyval) : bool :=
  negb (is_none v) && negb (eq_empty_str v).

Definition _calculate_quality_score (record : pydict) : float64 :=
  let total_fields := Z.of_nat (List.length record) in
  if total_fields =? 0 then Float64 0 0
  else
    let filled_fields :=
      Z.of_nat (List.length (List.filter filled (dict_values record))) in
    F64.round (F64.true_divide filled_fields total_fields) 2.

(** [record.get(field)], [None] when the key is absent. *)
Definition get_or_none (record : pydict) (field : string) : pyval :=
  match dict_get record field with Some v => v | None => PNone end.

Definition required_fields : list string := ["id"].

Definition _check_completeness (record : pydict) : bool :=
  forallb (fun field => negb (is_none (get_or_none record field)))
          required_fields.

(** [_process_record]: [None] for a falsy record; a record that is not a
    dict has no [get] and raises.  The dict display stores its items left
    to right, so the flattened fields are written over the first three
    entries where their names coincide. *)
Definition _process_record (record : pyval) (c : clock)
  : result (option pydict) * clock :=
  if negb (truthy record) then (Ok None, c)
  else
    match record with
    | PDict r =>
        let id :=
          str (match dict_get r "id" with
               | Some v => v
               | None => PStr (_generate_id r)
               end) in
        let '(created, c1) := now c in
        let '(processed, c2) := now c1 in
        (Ok (Some
           (dict_of_items
              ([("id", PStr id);
                ("created_at", PStr (isoformat created));
                ("processed_at", PStr (isoformat processed))]
               ++ _flatten_record r "" "_"
               ++ [("data_quality_score", PFloat (_calculate_quality_score r));
                   ("is_complete", PBool (_check_completeness r))]))),
         c2)
    | _ =>
        (Raise (AttributeError
                  ("'" +:+ type_name record +:+ "' object has no attribute 'get'")),
         c)
    end.

(** [process]: a record whose processing raises is logged and skipped, a
    falsy result is not appended. *)
Fixpoint process (raw_data : list pyval) (c : clock)
  : list pydict * clock :=
  match raw_data with
  | [] => ([], c)
  | record :: rest =>
      match _process_record record c with
      | (Ok (Some processed_record), c1) =>
          let '(processed_data, c2) := process rest c1 in
          if truthy (PDict processed_record)
          then (processed_record :: processed_data, c2)
          else (processed_data, c2)
      | (Ok None, c1) => process rest c1
      | (Raise _, c1) => process rest c1
      end
  end.

Definition add_metadata (data : list pydict) (metadata : pydict) (c : clock)
  : pydict * clock :=
  let '(t, c1) := now c in
  (dict_of_items
     (metadata
      ++ [("record_count", PInt (Z.of_nat (List.length data)));
          ("processing_timestamp", PStr (isoformat t));
          ("schema_version", PStr "1.0.0")]),
   c1).

End DataProcessor.

(** ** The S3 service *)

Record s3_object := S3Object {
  body : list Z;
  content_type : string;
  user_metadata : list (string * string);
  server_side_encryption : option string
}.

(** The objects stored so far, by bucket and key, the number of
    [put_object] calls made, and for each call whether the service refuses
    it. *)
Record s3 := S3 {
  fault : nat -> option pyexn;
  puts : nat;
  objects : gmap (string * string) s3_object
}.

Definition put_object (bucket key : string) (obj : s3_object) (s : s3)
  : result unit * s3 :=
  match fault s (puts s) with
  | Some e => (Raise e, S3 (fault s) (S (puts s)) (objects s))
  | None =>
      (Ok tt, S3 (fault s) (S (puts s)) (<[(bucket, key) := obj]> (objects s)))
  end.

(** ** s3_writer.py *)

Module S3Writer.
Import Text Py DT.

Definition _to_json (data : list pydict) : list Z :=
  utf8 (Json.dumps_indent 2 (PList (map PDict data))).

Definition _to_csv_simple (data : list pydict) : list Z :=
  match data with
  | [] => []
  | first :: _ =>
      let headers := dict_keys first in
      let line (record : pydict) :=
        join ","
          (map (fun h => str (match dict_get record h with
                              | Some v => v
                              | None => PStr ""
                              end)) headers) in
      utf8 (join nl (join "," headers :: map line data))
  end.

Definition _infer_schema (data : list pydict) : pydict :=
  match data with
  | [] => []
  | sample :: _ =>
      dict_of_items (map (fun kv => (fst kv, PStr (type_name (snd kv)))) sample)
  end.

(** [metadata or {}]. *)
Definition or_empty (metadata : option pydict) : pydict :=
  match metadata with Some m => m | None => [] end.

(** [_write_metadata_file]: a refused put is logged as a warning and
    nothing more. *)
Definition _write_metadata_file (bucket_name data_key : string)
    (data : list pydict) (metadata : option pydict) (c : clock) (s : s3)
  : clock * s3 :=
  let metadata_key := data_key +:+ ".metadata.json" in
  let '(t, c1) := now c in
  let metadata_content :=
    PDict (dict_of_items
             [("data_file", PStr data_key);
              ("created_at", PStr (isoformat t));
              ("record_count", PInt (Z.of_nat (List.length data)));
              ("schema", PDict (_infer_schema data));
              ("custom_metadata", PDict (or_empty metadata))]) in
  let '(_, s1) :=
    put_object bucket_name metadata_key
      (S3Object (utf8 (Json.dumps_indent 2 metadata_content))
                "application/json" [] None) s in
  (c1, s1).

(** The user metadata of the data object: three computed entries, then the
    caller's, each kept only when key and value together stay under 1024
    characters. *)
Definition s3_metadata (data : list pydict) (format timestamp : string)
    (metadata : option pydict) : list (string * string) :=
  let base :=
    dict_of_items
      [("record_count", int_str (Z.of_nat (List.length data)));
       ("format", if String.eqb format "parquet" then "json" else format);
       ("timestamp", timestamp)] in
  match metadata with
  | Some m =>
      if truthy (PDict m) then
        fold_left
          (fun acc kv =>
             if Z.of_nat (String.length (fst kv))
                + Z.of_nat (String.length (str (snd kv))) <? 1024
             then dict_set acc (lower (spaces_to_underscores (fst kv)))
                               (str (snd kv))
             else acc)
          m base
      else base
  | None => base
  end.

Definition write_data (bucket_name : string) (data : list pydict)
    (prefix format : string) (metadata : option pydict)
    (c : clock) (s : s3) : result string * (clock * s3) :=
  let '(t, c1) := now c in
  let timestamp := strftime_Ymd_HMS t in
  let encoded :=
    if String.eqb format "parquet" || String.eqb format "json" then
      Ok (prefix +:+ "/data_" +:+ timestamp +:+ ".json",
          _to_json data, "application/json")
    else if String.eqb format "csv" then
      Ok (prefix +:+ "/data_" +:+ timestamp +:+ ".csv",
          _to_csv_simple data, "text/csv")
    else Raise (ValueError ("Unsupported format: " +:+ format)) in
  match encoded with
  | Raise e => (Raise e, (c1, s))
  | Ok (s3_key, content, ctype) =>
      let tags := s3_metadata data format timestamp metadata in
      match put_object bucket_name s3_key
              (S3Object content ctype tags (Some "AES256")) s with
      | (Raise e, s1) => (Raise e, (c1, s1))
      | (Ok _, s1) =>
          let '(c2, s2) :=
            _write_metadata_file bucket_name s3_key data metadata c1 s1 in
          (Ok s3_key, (c2, s2))
      end
  end.

End S3Writer.

(** ** utils.py *)

Module Utils.
Import Text DT.

Definition get_partition_path (c : clock) : string * clock :=
  let '(t, c1) := now c in
  ("year=" +:+ int_str (year t) +:+ "/month=" +:+ zfill 2 (month t)
     +:+ "/day=" +:+ zfill 2 (day t), c1).

Definition required_vars : list string := ["DATA_BUCKET_NAME"].

(** [validate_environment]: a variable that is unset or empty counts as
    missing. *)
Definition validate_environment (environ : gmap string string)
  : result (list (string * string)) :=
  let missing_vars :=
    List.filter
      (fun var => negb (Py.truthy (match environ !! var with
                                   | Some v => PStr v
                                   | None => PNone
                                   end)))
      required_vars in
  if Py.truthy (PList (map PStr missing_vars)) then
    Raise (ValueError ("Missing required environment variables: "
                         +:+ Py.str (PList (map PStr missing_vars))))
  else
    match environ !! "DATA_BUCKET_NAME" with
    | None => Raise (KeyError "DATA_BUCKET_NAME")
    | Some bucket =>
        Ok [("DATA_BUCKET_NAME", bucket);
            ("API_ENDPOINT",
             default "https://jsonplaceholder.typicode.com/users"
                     (environ !! "API_ENDPOINT"));
            ("OUTPUT_FORMAT", default "parquet" (environ !! "OUTPUT_FORMAT"));
            ("LOG_LEVEL", default "INFO" (environ !! "LOG_LEVEL"))]
    end.

End Utils.

(** ** The network, as the API client sees it *)

(** A URL is the client's base URL, or [urljoin(base, endpoint)]; the join
    is left to the server to read. *)
Inductive url :=
| BaseUrl (base : string)
| UrlJoin (base endpoint : string).

(** The body of a response as [response.json()] finds it: decoded, or not
    JSON, with the text of the decode error. *)
Inductive http_body :=
| Parsed (data : pyval)
| Unparseable (msg : string).

(** What [session.get] does: it raises a transport fault, or returns a
    response with a status, a reason phrase, its [url] (the URL it was
    fetched from in the end, query string included) and a body. *)
Inductive http_outcome :=
| TimedOut (msg : string)
| ConnectionFailed (msg : string)
| Responded (status : Z) (reason : string) (response_url : string)
            (payload : http_body).

(** The server's answer to each successive GET, the readings of the clock
    the retry decorator takes (microseconds), the draws of
    [random.random()] (numerators over [2 ^ 53]), and what was consumed of
    each so far; [slept] lists the [time.sleep] calls, latest first, in
    microseconds. *)
Record net := Net {
  server : nat -> url -> pyval -> http_outcome;
  requests_made : nat;
  timer : nat -> Z;
  timer_reads : nat;
  random53 : nat -> Z;
  draws : nat;
  slept : list Z
}.

Module Net.

Definition get (u : url) (params : pyval) (n : net) : http_outcome * net :=
  (server n (requests_made n) u params,
   Net (server n) (S (requests_made n)) (timer n) (timer_reads n)
       (random53 n) (draws n) (slept n)).

Definition read_timer (n : net) : Z * net :=
  (timer n (timer_reads n),
   Net (server n) (requests_made n) (timer n) (S (timer_reads n))
       (random53 n) (draws n) (slept n)).

(** [random.random()], as a numerator over [2 ^ 53]. *)
Definition random (n : net) : Z * net :=
  (random53 n (draws n) mod 2 ^ 53,
   Net (server n) (requests_made n) (timer n) (timer_reads n)
       (random53 n) (S (draws n)) (slept n)).

Definition sleep (us : Z) (n : net) : net :=
  Net (server n) (requests_made n) (timer n) (timer_reads n)
      (random53 n) (draws n) (us :: slept n).

End Net.

(** ** api_client.py *)

Module APIClient.
Import Text Py.

Record t := Client { base_url : string; timeout : Z; max_retries : Z }.

(** [APIClient(base_url)]. *)
Definition new (base_url : string) : t := Client base_url 30 3.

(** [response.raise_for_status()]; the text names [response.url]. *)
Definition raise_for_status (status : Z) (reason response_url : string)
  : result unit :=
  if (400 <=? status) && (status <? 500) then
    Raise (RequestsHTTPError status
             (int_str status +:+ " Client Error: " +:+ reason
                +:+ " for url: " +:+ response_url))
  else if (500 <=? status) && (status <? 600) then
    Raise (RequestsHTTPError status
             (int_str status +:+ " Server Error: " +:+ reason
                +:+ " for url: " +:+ response_url))
  else Ok tt.

(** The records of a decoded payload: a list as it is, a dict through its
    [data], [results] or [items] entry or else as a single record, and
    nothing for any other shape. *)
Definition records_of (data : pyval) : pyval :=
  match data with
  | PList _ => data
  | PDict d =>
      match dict_get d "data" with
      | Some v => v
      | None =>
          match dict_get d "results" with
          | Some v => v
          | None =>
              match dict_get d "items" with
              | Some v => v
              | None => PList [data]
              end
          end
      end
  | _ => PList []
  end.

(** The body of [fetch_data]: one request.  [response.json()] raises
    [requests.exceptions.JSONDecodeError] for a body that is not JSON;
    both [except] clauses log and raise again. *)
Definition fetch_data_once (self : t) (endpoint : string) (params : pyval)
    (n : net) : result pyval * net :=
  let u := if negb (String.eqb endpoint "")
           then UrlJoin (base_url self) endpoint
           else BaseUrl (base_url self) in
  match Net.get u params n with
  | (TimedOut msg, n1) => (Raise (RequestsTimeout msg), n1)
  | (ConnectionFailed msg, n1) => (Raise (RequestsConnectionError msg), n1)
  | (Responded status reason response_url payload, n1) =>
      match raise_for_status status reason response_url with
      | Raise e => (Raise e, n1)
      | Ok _ =>
          match payload with
          | Unparseable msg => (Raise (RequestsJSONDecodeError msg), n1)
          | Parsed data => (Ok (records_of data), n1)
          end
      end
  end.

(** [isinstance(e, (requests.RequestException, requests.Timeout))]: the
    transport faults, the HTTP error of [raise_for_status] and the decode
    error of [response.json()] are all [RequestException]s. *)
Definition is_request_exception (e : pyexn) : bool :=
  match e with
  | RequestsTimeout _ | RequestsConnectionError _ | RequestsHTTPError _ _
  | RequestsJSONDecodeError _ =>
      true
  | _ => false
  end.

Definition max_tries : nat := 3.
(** [max_time=60], in microseconds. *)
Definition max_time : Z := 60 * 1000000.

(** The wait before retry number [k] (from 0): [backoff.expo] yields
    [2 ^ k] seconds, the full jitter draws uniformly below it, and the
    result is cut to what remains of [max_time]. *)
Definition next_wait (k : nat) (elapsed : Z) (n : net) : Z * net :=
  let '(r, n1) := Net.random n in
  (Z.min (2 ^ Z.of_nat k * 1000000 * r / 2 ^ 53) (max_time - elapsed), n1).

(** The loop of [backoff.on_exception]: [remaining] is how many tries are
    left after the present one, [k] how many were made before it.  The
    elapsed time is read before the call; an exception that is not of the
    listed classes propagates at once. *)
Fixpoint retry {A} (target : net -> result A * net) (remaining k : nat)
    (start : Z) (n : net) : result A * net :=
  let '(now_, n1) := Net.read_timer n in
  let elapsed := now_ - start in
  match target n1 with
  | (Ok ret, n2) => (Ok ret, n2)
  | (Raise e, n2) =>
      if negb (is_request_exception e) then (Raise e, n2)
      else
        match remaining with
        | O => (Raise e, n2)
        | S remaining' =>
            if max_time <=? elapsed then (Raise e, n2)
            else
              let '(seconds, n3) := next_wait k elapsed n2 in
              retry target remaining' (S k) start (Net.sleep seconds n3)
        end
  end.

Definition on_exception {A} (target : net -> result A * net) (n : net)
  : result A * net :=
  let '(start, n1) := Net.read_timer n in
  retry target (pred max_tries) 0 start n1.

(** [fetch_data], with its decorator. *)
Definition fetch_data (self : t) (endpoint : string) (params : pyval)
    (n : net) : result pyval * net :=
  on_exception (fetch_data_once self endpoint params) n.

(** [max_pages and page > max_pages]. *)
Definition past_limit (max_pages : option Z) (page : Z) : bool :=
  match max_pages with
  | Some m => negb (m =? 0) && (m <? page)
  | None => false
  end.

(** The [while True] loop of [fetch_paginated_data]; [None] when [fuel]
    iterations did not reach a [break]. *)
Fixpoint paginate (self : t) (endpoint : string) (page_size : Z)
    (max_pages : option Z) (fuel : nat) (all_data : list pyval) (page : Z)
    (n : net) : option (result (list pyval) * net) :=
  match fuel with
  | O => None
  | S fuel' =>
      if past_limit max_pages page then Some (Ok all_data, n)
      else
        let params := PDict [("page", PInt page); ("per_page", PInt page_size)] in
        match fetch_data self endpoint params n with
        | (Raise e, n1) => Some (Raise e, n1)
        | (Ok data, n1) =>
            if negb (truthy data) then Some (Ok all_data, n1)
            else
              match iterate data with
              | Raise e => Some (Raise e, n1)
              | Ok items =>
                  paginate self endpoint page_size max_pages fuel'
                           (all_data ++ items) (page + 1)
                           (Net.sleep 500000 n1)
              end
        end
  end.

Definition fetch_paginated_data (self : t) (endpoint : string)
    (page_size : Z) (max_pages : option Z) (fuel : nat) (n : net)
  : option (result (list pyval) * net) :=
  paginate self endpoint page_size max_pages fuel [] 1 n.

End APIClient.

(** ** handler.py *)

Record context := Context {
  aws_request_id : option string;
  function_name : option string;
  function_version : option string
}.

Record response := Response { statusCode : Z; response_body : string }.

(** What an invocation runs in: the environment variables, the wall
    clock, the network and S3. *)
Record world := World {
  environ : gmap string string;
  wall : DT.clock;
  network : net;
  store : s3
}.

Module Handler.
Import Text Py DT.

(** [str(e)]. *)
Definition exn_str (e : pyexn) : string :=
  match e with
  | RequestsTimeout m | RequestsConnectionError m | RequestsHTTPError _ m
  | RequestsJSONDecodeError m
  | ValueError m | AttributeError m | TypeError m | ClientError m => m
  | KeyError k => str_repr k
  end.

(** [len(v)]. *)
Definition len (v : pyval) : result Z :=
  match v with
  | PList l => Ok (Z.of_nat (List.length l))
  | PDict d => Ok (Z.of_nat (List.length d))
  | PStr s => Ok (Z.of_nat (String.length s))
  | _ => Raise (TypeError ("object of type '" +:+ type_name v +:+ "' has no len()"))
  end.

(** The two [except] clauses. *)
Definition failed (e : pyexn) : response :=
  match e with
  | KeyError _ =>
      Response 500
        (Json.dumps (PDict [("error", PStr ("Configuration error: " +:+ exn_str e))]))
  | _ =>
      Response 500
        (Json.dumps (PDict [("error", PStr ("Processing failed: " +:+ exn_str e))]))
  end.

Definition default_endpoint : string :=
  "https://jsonplaceholder.typicode.com/users".

Definition lambda_handler (event : pydict) (ctx : context) (w : world)
  : response * world :=
  let request_id := default "local-test" (aws_request_id ctx) in
  let api_endpoint := default default_endpoint (environ w !! "API_ENDPOINT") in
  match environ w !! "DATA_BUCKET_NAME" with
  | None => (failed (KeyError "DATA_BUCKET_NAME"), w)
  | Some bucket_name =>
      let output_format := default "parquet" (environ w !! "OUTPUT_FORMAT") in
      let api_params := default (PDict []) (dict_get event "api_params") in
      let api_client := APIClient.new api_endpoint in
      match APIClient.fetch_data api_client "" api_params (network w) with
      | (Raise e, n1) => (failed e, World (environ w) (wall w) n1 (store w))
      | (Ok raw_data, n1) =>
          let w1 := World (environ w) (wall w) n1 (store w) in
          if negb (truthy raw_data) then
            (Response 204 (Json.dumps (PDict [("message", PStr "No data to process")])),
             w1)
          else
            match len raw_data, iterate raw_data with
            | Raise e, _ | Ok _, Raise e => (failed e, w1)
            | Ok _, Ok records =>
                let '(processed_data, c1) := DataProcessor.process records (wall w) in
                let '(extraction_time, c2) := now c1 in
                let '(metadata, c3) :=
                  DataProcessor.add_metadata processed_data
                    [("source", PStr api_endpoint);
                     ("extraction_time", PStr (isoformat extraction_time));
                     ("request_id", PStr request_id)] c2 in
                let '(partition_path, c4) := Utils.get_partition_path c3 in
                match S3Writer.write_data bucket_name processed_data
                        ("raw-data/" +:+ partition_path) output_format
                        (Some metadata) c4 (store w) with
                | (Raise e, (c5, s1)) => (failed e, World (environ w) c5 n1 s1)
                | (Ok s3_key, (c5, s1)) =>
                    (Response 200
                       (Json.dumps
                          (PDict
                             [("message", PStr "Data extraction completed successfully");
                              ("details",
                               PDict
                                 [("records_processed",
                                   PInt (Z.of_nat (List.length processed_data)));
                                  ("s3_location",
                                   PStr ("s3://" +:+ bucket_name +:+ "/" +:+ s3_key));
                                  ("format", PStr output_format);
                                  ("request_id", PStr request_id)])])),
                     World (environ w) c5 n1 s1)
                end
            end
  end
  end.

End Handler.

(** ** Induction on Python values *)

Section PyvalInduction.
  Variable P : pyval -> Prop.
  Hypothesis HNone : P PNone.
  Hypothesis HBool : forall b, P (PBool b).
  Hypothesis HInt : forall n, P (PInt n).
  Hypothesis HFloat : forall x, P (PFloat x).
  Hypothesis HStr : forall s, P (PStr s).
  Hypothesis HList : forall l, Forall P l -> P (PList l).
  Hypothesis HDict :
    forall d, Forall (fun kv => P (snd kv)) d -> P (PDict d).

Fixpoint pyval_nested_ind (v : pyval) : P v :=
  match v with
  | PNone => HNone
  | PBool b => HBool b
  | PInt n => HInt n
  | PFloat x => HFloat x
  | PStr s => HStr s
  | PList l =>
      HList l
        ((fix each (l : list pyval) : Forall P l :=
            match l with
            | [] => @List.Forall_nil _ P
            | x :: l' => @List.Forall_cons _ P x l' (pyval_nested_ind x) (each l')
            end) l)
  | PDict d =>
      HDict d
        ((fix each (d : pydict) : Forall (fun kv => P (snd kv)) d :=
            match d with
            | [] => @List.Forall_nil _ (fun kv => P (snd kv))
            | kv :: d' =>
                @List.Forall_cons _ (fun kv => P (snd kv)) kv d'
                  (pyval_nested_ind (snd kv)) (each d')
            end) d)
  end.

End PyvalInduction.

(** ** Sample inputs *)

Module Sample.
Import Py DT.

(** A clock that advances by a millisecond per reading, within one
    second. *)
Definition clock0 : clock :=
  Clock (fun n => DateTime 2024 1 1 12 0 0 (1 + 1000 * Z.of_nat n)) 0.

(** A clock one second later. *)
Definition clock1 : clock :=
  Clock (fun n => DateTime 2024 1 1 12 0 1 (1 + 1000 * Z.of_nat n)) 0.

Definition s3_empty : s3 := S3 (fun _ => None) 0 ∅.

Definition record1 : pydict := [("id", PInt 1)].
Definition record2 : pydict := [("id", PInt 2)].

Definition ana_luis : list pyval :=
  [PDict [("id", PInt 1); ("name", PStr "Ana")];
   PDict [("id", PInt 2); ("name", PStr "Luis")]].

(** A network whose server is [srv], with a timer that advances by a tenth
    of a second per reading and a random generator that always returns
    one half. *)
Definition net_of (srv : nat -> url -> pyval -> http_outcome) : net :=
  Net srv 0 (fun n => 100000 * Z.of_nat n) 0 (fun _ => 2 ^ 52) 0 [].

(** The URL the sample servers report for a response: the client's base
    URL (the samples are asked without endpoint), followed by the query
    that integer parameters make. *)
Definition asked (u : url) (params : pyval) : string :=
  let base := match u with BaseUrl base | UrlJoin base _ => base end in
  match params with
  | PDict (_ :: _ as items) =>
      base +:+ "?"
        +:+ Text.join "&"
              (map (fun kv => fst kv +:+ "="
                                +:+ match snd kv with
                                    | PInt z => Text.int_str z
                                    | _ => ""
                                    end) items)
  | _ => base
  end.

(** A server that has nothing to return. *)
Definition no_data : nat -> url -> pyval -> http_outcome :=
  fun _ u params => Responded 200 "OK" (asked u params) (Parsed (PList [])).

(** A server that answers 404 to the first request and a record to the
    next ones. *)
Definition not_found_once : nat -> url -> pyval -> http_outcome :=
  fun i u params =>
    match i with
    | O => Responded 404 "Not Found" (asked u params)
             (Parsed (PDict [("error", PStr "missing")]))
    | _ => Responded 200 "OK" (asked u params)
             (Parsed (PList [PDict [("id", PInt 1)]]))
    end.

(** A server with one page of one record: page 1 has it, the later pages
    are empty. *)
Definition one_page : nat -> url -> pyval -> http_outcome :=
  fun _ u params =>
    match params with
    | PDict (("page", PInt 1) :: _) =>
        Responded 200 "OK" (asked u params)
                  (Parsed (PList [PDict [("id", PInt 1)]]))
    | _ => Responded 200 "OK" (asked u params) (Parsed (PList []))
    end.

(** The pages of [one_page]. *)
Definition one_page_content (p : Z) : list pyval :=
  if p =? 1 then [PDict [("id", PInt 1)]] else [].

Definition world0 (srv : nat -> url -> pyval -> http_outcome) : world :=
  World {[ "DATA_BUCKET_NAME" := "bucket" ]} clock0 (net_of srv) s3_empty.

Definition no_context : context := Context None None None.

End Sample.

(** ** The claims' own notions *)

Module Claimed.
Import Py DT.

(** A mapping with zero fields. *)
Definition empty_mapping (record : pyval) : bool :=
  match record with PDict [] => true | _ => false end.

(** A value that is neither a mapping nor a sequence. *)
Definition scalar (v : pyval) : bool := negb (is_dict v) && negb (is_list v).

(** C2 as it is stated: a non-empty string [id], non-null timestamps, and
    no nested value. *)
Definition invariant_as_stated (r : pydict) : Prop :=
  (exists s, dict_get r "id" = Some (PStr s) /\ s <> "")
  /\ (exists v, dict_get r "created_at" = Some v /\ v <> PNone)
  /\ (exists v, dict_get r "processed_at" = Some v /\ v <> PNone)
  /\ Forall (fun v => scalar v = true) (dict_values r).

(** C2 as the code keeps it, for an output record [r] of [process raw c]:
    the three fields are there and no value is nested; [r] is what
    [_process_record] makes of a raw record [source] of the batch at a
    reading [k] of the clock; its [id] is a non-empty string where the
    flattened [source] has no field [id] or a non-empty string there; and
    where the flattened [source] has no field [created_at] or
    [processed_at], that field of [r] is the timestamp read from the clock
    while processing [source]. *)
Definition invariant_kept (raw : list pyval) (c : clock) (r : pydict) : Prop :=
  dict_has r "id" = true
  /\ dict_has r "created_at" = true
  /\ dict_has r "processed_at" = true
  /\ Forall (fun v => scalar v = true) (dict_values r)
  /\ exists source k,
      In (PDict source) raw /\ (reads c <= k)%nat
      /\ fst (DataProcessor._process_record (PDict source) (Clock (reading c) k))
         = Ok (Some r)
      /\ let flattened := DataProcessor._flatten_record source "" "_" in
         ((dict_has flattened "id" = false
           \/ exists s, dict_get flattened "id" = Some (PStr s) /\ s <> "") ->
          exists s, dict_get r "id" = Some (PStr s) /\ s <> "")
         /\ (dict_has flattened "created_at" = false ->
             dict_get r "created_at" = Some (PStr (isoformat (reading c k))))
         /\ (dict_has flattened "processed_at" = false ->
             dict_get r "processed_at"
             = Some (PStr (isoformat (reading c (S k))))).

(** The file extension the writer gives an encoding it supports. *)
Definition extension (format : string) : string :=
  if String.eqb format "csv" then "csv" else "json".

(** A caller's metadata entry that the writer stores as the tag [name]:
    key and value together stay under 1024 characters, and the key with
    underscores for spaces and in lower case is [name]. *)
Definition stored_as (name : string) (kv : string * pyval) : bool :=
  (Z.of_nat (String.length (fst kv))
   + Z.of_nat (String.length (str (snd kv))) <? 1024)
  && String.eqb (Text.lower (Text.spaces_to_underscores (fst kv))) name.

(** The value of the last entry of the caller's metadata that is stored as
    the tag [name], if there is one. *)
Definition caller_tag (metadata : option pydict) (name : string)
  : option pyval :=
  match metadata with
  | Some m => snd <$> find (stored_as name) (rev m)
  | None => None
  end.

(** Two timestamps that agree down to the second. *)
Definition same_second (t1 t2 : datetime) : Prop :=
  year t1 = year t2 /\ month t1 = month t2 /\ day t1 = day t2
  /\ hour t1 = hour t2 /\ minute t1 = minute t2 /\ second t1 = second t2.

(** The query of a page request, and [count] page numbers from [first]
    on. *)
Definition page_params (page page_size : Z) : pyval :=
  PDict [("page", PInt page); ("per_page", PInt page_size)].

Definition page_numbers (first : Z) (count : nat) : list Z :=
  map (fun i => first + Z.of_nat i) (seq 0 count).

(** The URL a client asks for an endpoint. *)
Definition url_of (self : APIClient.t) (endpoint : string) : url :=
  if negb (String.eqb endpoint "")
  then UrlJoin (APIClient.base_url self) endpoint
  else BaseUrl (APIClient.base_url self).

End Claimed.

(** ** Notions of the further properties *)

Module Noted.
Import Py DT.

(** A record [process] keeps: a mapping with at least one field. *)
Definition accepted (record : pyval) : bool :=
  match record with PDict (_ :: _) => true | _ => false end.

(** The fields [_process_record] computes after the flattened ones. *)
Definition computed_last : list string := ["data_quality_score"; "is_complete"].

(** The entries [add_metadata] computes. *)
Definition metadata_computed : list string :=
  ["record_count"; "processing_timestamp"; "schema_version"].

(** The order [sort_by_key] puts keyed items in. *)
Definition key_le {A} (x y : string * A) : Prop := String.le (fst x) (fst y).

(** The number a string of decimal digits writes. *)
Definition decimal_value (s : string) : Z :=
  (fix go (s : string) (acc : Z) : Z :=
     match s with
     | EmptyString => acc
     | String ch s' => go s' (10 * acc + (Text.code ch - 48))
     end) s 0.


End Noted.

(** ** Further servers and stores to run the code against *)

Module Scenario.
Import Py DT.

(** A server that is out of service. *)
Definition unavailable : nat -> url -> pyval -> http_outcome :=
  fun _ u params =>
    Responded 503 "Service Unavailable" (Sample.asked u params) (Unparseable "").

(** A server whose first page is a record and whose second page is not
    JSON. *)
Definition broken_second_page : nat -> url -> pyval -> http_outcome :=
  fun _ u params =>
    match params with
    | PDict (("page", PInt 1) :: _) =>
        Responded 200 "OK" (Sample.asked u params)
                  (Parsed (PList [PDict [("id", PInt 1)]]))
    | _ => Responded 200 "OK" (Sample.asked u params)
             (Unparseable "Expecting value: line 1 column 1 (char 0)")
    end.

(** The pages of [broken_second_page] that are data. *)
Definition first_page_content (p : Z) : list pyval := [PDict [("id", PInt 1)]].

(** A server that returns two records. *)
Definition two_records : nat -> url -> pyval -> http_outcome :=
  fun _ u params =>
    Responded 200 "OK" (Sample.asked u params) (Parsed (PList Sample.ana_luis)).


(** A store that refuses every write. *)
Definition s3_read_only : s3 :=
  S3 (fun _ => Some (ClientError "AccessDenied")) 0 ∅.

End Scenario.

(** * Properties *)

(** ** Dictionaries *)

Section DictFacts.
Import Py.
Context {A : Type}.
Implicit Types (d items : list (string * A)) (k : string) (v : A).

Lemma dict_set_values d k v (Q : A -> Prop) :
  Q v -> Forall Q (dict_values d) -> Forall Q (dict_values (dict_set d k v)).
Proof.
  intros Hv. induction d as [|[k0 v0] d IH]; simpl; intros Hd.
  - constructor; [exact Hv|constructor].
  - inversion Hd; subst. destruct (String.eqb k k0); simpl; constructor; auto.
Qed.

Lemma dict_update_cons d k v items :
  dict_update d ((k, v) :: items) = dict_update (dict_set d k v) items.
Proof. reflexivity. Qed.

Lemma dict_update_app d items1 items2 :
  dict_update d (items1 ++ items2) = dict_update (dict_update d items1) items2.
Proof. apply fold_left_app. Qed.

Lemma dict_update_values (Q : A -> Prop) items : forall d,
  Forall Q (dict_values d) -> Forall Q (dict_values items) ->
  Forall Q (dict_values (dict_update d items)).
Proof.
  induction items as [|[k0 v0] items IH]; intros d Hd Hi; [exact Hd|].
  rewrite dict_update_cons. inversion Hi; subst.
  apply IH; [apply dict_set_values|]; assumption.
Qed.

End DictFacts.

Section DictGetFacts.
Import Py.
Context {A : Type}.
Implicit Types (d items : list (string * A)) (k : string) (v : A).

Lemma dict_get_set_eq d k v : dict_get (dict_set d k v) k = Some v.
Proof.
  induction d as [|[k0 v0] d IH]; simpl.
  - now rewrite String.eqb_refl.
  - destruct (String.eqb_spec k k0) as [->|Hne]; simpl.
    + now rewrite String.eqb_refl.
    + destruct (String.eqb_spec k k0); [contradiction|exact IH].
Qed.

Lemma dict_get_set_ne d k v k' :
  k <> k' -> dict_get (dict_set d k v) k' = dict_get d k'.
Proof.
  intros Hne. induction d as [|[k0 v0] d IH]; simpl.
  - destruct (String.eqb_spec k' k); [congruence|reflexivity].
  - destruct (String.eqb_spec k k0) as [->|Hne0]; simpl.
    + destruct (String.eqb_spec k' k0); [congruence|reflexivity].
    + destruct (String.eqb_spec k' k0); [reflexivity|exact IH].
Qed.

Lemma dict_get_in_keys d k : dict_get d k <> None <-> In k (dict_keys d).
Proof.
  induction d as [|[k0 v0] d IH]; simpl; [tauto|].
  destruct (String.eqb_spec k k0) as [->|Hne].
  - split; [tauto|discriminate].
  - rewrite IH. split; [tauto|]. intros [H|H]; [congruence|exact H].
Qed.

(** Items that do not name [k] leave its entry as it was. *)
Lemma dict_get_update_other items : forall d k,
  ~ In k (dict_keys items) ->
  dict_get (dict_update d items) k = dict_get d k.
Proof.
  induction items as [|[k0 v0] items IH]; intros d k Hk; [reflexivity|].
  rewrite dict_update_cons, IH by (simpl in Hk; tauto).
  apply dict_get_set_ne. simpl in Hk. tauto.
Qed.

Lemma dict_set_keys d k v k' :
  In k' (dict_keys (dict_set d k v)) <-> In k' (dict_keys d) \/ k = k'.
Proof.
  induction d as [|[k1 v1] d IH]; simpl; [tauto|].
  destruct (String.eqb_spec k k1) as [->|Hne]; simpl; tauto.
Qed.

Lemma dict_update_keys items : forall d k,
  In k (dict_keys (dict_update d items)) <->
  In k (dict_keys d) \/ In k (dict_keys items).
Proof.
  induction items as [|[k0 v0] items IH]; intros d k; [simpl; tauto|].
  rewrite dict_update_cons, IH, dict_set_keys. simpl. tauto.
Qed.

Lemma dict_of_items_keys items k :
  In k (dict_keys (dict_of_items items)) <-> In k (dict_keys items).
Proof. unfold dict_of_items. rewrite dict_update_keys. simpl. tauto. Qed.

Lemma dict_set_nodup d k v :
  NoDup (dict_keys d) -> NoDup (dict_keys (dict_set d k v)).
Proof.
  induction d as [|[k0 v0] d IH]; cbn [dict_set dict_keys map fst].
  - intros _. apply NoDup_singleton.
  - intros [Hk0 Hd]%NoDup_cons.
    destruct (String.eqb_spec k k0) as [->|Hne]; cbn [map fst].
    + apply NoDup_cons. split; assumption.
    + apply NoDup_cons. split; [|apply IH, Hd].
      rewrite list_elem_of_In. intros Hin.
      apply (dict_set_keys d k v k0) in Hin as [Hin|Heq]; [|congruence].
      apply Hk0. rewrite list_elem_of_In. exact Hin.
Qed.

Lemma dict_update_nodup items : forall d,
  NoDup (dict_keys d) -> NoDup (dict_keys (dict_update d items)).
Proof.
  induction items as [|[k0 v0] items IH]; intros d Hd; [exact Hd|].
  rewrite dict_update_cons. apply IH, dict_set_nodup, Hd.
Qed.

Lemma dict_of_items_nodup items : NoDup (dict_keys (dict_of_items items)).
Proof. apply dict_update_nodup. apply NoDup_nil. exact I. Qed.

(** Updating with a dict stores each of its entries. *)
Lemma dict_get_update_in items : forall d k v,
  NoDup (dict_keys items) -> dict_get items k = Some v ->
  dict_get (dict_update d items) k = Some v.
Proof.
  induction items as [|[k0 v0] items IH]; intros d k v Hnd Hget;
    [discriminate Hget|].
  cbn [dict_keys map fst] in Hnd. apply NoDup_cons in Hnd as [Hk0 Hnd].
  rewrite dict_update_cons. cbn [dict_get] in Hget.
  destruct (String.eqb_spec k k0) as [->|Hne].
  - injection Hget as <-. rewrite dict_get_update_other.
    + apply dict_get_set_eq.
    + intros Hin. apply Hk0. rewrite list_elem_of_In. exact Hin.
  - now apply IH.
Qed.

End DictGetFacts.
(** ** Text *)

Section TextFacts.
Import Text.

Lemma app_cons (c : ascii) (a b : string) :
  String c a +:+ b = String c (a +:+ b).
Proof. reflexivity. Qed.

Lemma length_app (a b : string) :
  String.length (a +:+ b) = (String.length a + String.length b)%nat.
Proof.
  induction a as [|c a IH]; [reflexivity|].
  rewrite app_cons. simpl. now rewrite IH.
Qed.

(** Two concatenations that agree split alike when their heads have the
    same length. *)
Lemma app_inj_length (a a' b b' : string) :
  String.length a = String.length a' ->
  a +:+ b = a' +:+ b' -> a = a' /\ b = b'.
Proof.
  revert a'. induction a as [|c a IH]; intros [|c' a'] Hlen H;
    try discriminate Hlen.
  - now split.
  - rewrite !app_cons in H. injection H as -> H. injection Hlen as Hlen.
    destruct (IH a' Hlen H) as [-> ->]. now split.
Qed.

Lemma app_not_self (a b : string) : b <> "" -> a +:+ b <> a.
Proof.
  intros Hb H. apply (f_equal String.length) in H. rewrite length_app in H.
  destruct b; [congruence|simpl in H; lia].
Qed.

Lemma forallb_below (f : Z -> bool) (bound : nat) :
  forallb f (map Z.of_nat (seq 0 bound)) = true ->
  forall n, 0 <= n < Z.of_nat bound -> f n = true.
Proof.
  intros H n Hn. rewrite forallb_forall in H. apply H.
  apply in_map_iff. exists (Z.to_nat n). split; [lia|].
  apply in_seq. lia.
Qed.

Lemma zfill_2 n : 0 <= n < 100 -> zfill 2 n = two_digits n.
Proof.
  intros Hn. apply String.eqb_eq.
  apply (forallb_below (fun n => String.eqb (zfill 2 n) (two_digits n)) (Z.to_nat 100));
    [vm_compute; reflexivity|lia].
Qed.

Lemma zfill_4 n : 0 <= n < 10000 -> zfill 4 n = four_digits n.
Proof.
  intros Hn. apply String.eqb_eq.
  apply (forallb_below (fun n => String.eqb (zfill 4 n) (four_digits n)) (Z.to_nat 10000));
    [vm_compute; reflexivity|lia].
Qed.

Lemma digit_char_inj a b :
  0 <= a < 10 -> 0 <= b < 10 -> digit_char a = digit_char b -> a = b.
Proof.
  intros Ha Hb H. unfold digit_char in H.
  apply (f_equal nat_of_ascii) in H.
  rewrite !nat_ascii_embedding in H by lia. lia.
Qed.

Lemma two_digits_inj a b :
  0 <= a < 100 -> 0 <= b < 100 -> two_digits a = two_digits b -> a = b.
Proof.
  intros Ha Hb H. injection H as H1 H0.
  apply digit_char_inj in H1, H0; try (apply Z.mod_pos_bound; lia).
  2,3: split; [apply Z.div_pos; lia|apply Z.div_lt_upper_bound; lia].
  rewrite (Z.div_mod a 10), (Z.div_mod b 10) by lia. congruence.
Qed.

Lemma four_digits_inj a b :
  0 <= a < 10000 -> 0 <= b < 10000 -> four_digits a = four_digits b -> a = b.
Proof.
  intros Ha Hb H. injection H as H3 H2 H1 H0.
  assert (Hlow : a mod 100 = b mod 100).
  { apply two_digits_inj; try (apply Z.mod_pos_bound; lia).
    unfold two_digits. congruence. }
  apply digit_char_inj in H3, H2; try (apply Z.mod_pos_bound; lia).
  2,3: split; [apply Z.div_pos; lia|apply Z.div_lt_upper_bound; lia].
  assert (Ea : a = 1000 * (a / 1000) + 100 * (a / 100 mod 10) + a mod 100).
  { pose proof (Z.div_mod a 100 ltac:(lia)) as E1.
    pose proof (Z.div_mod (a / 100) 10 ltac:(lia)) as E2.
    assert (E3 : a / 100 / 10 = a / 1000)
      by (rewrite Z.div_div by lia; reflexivity).
    lia. }
  assert (Eb : b = 1000 * (b / 1000) + 100 * (b / 100 mod 10) + b mod 100).
  { pose proof (Z.div_mod b 100 ltac:(lia)) as E1.
    pose proof (Z.div_mod (b / 100) 10 ltac:(lia)) as E2.
    assert (E3 : b / 100 / 10 = b / 1000)
      by (rewrite Z.div_div by lia; reflexivity).
    lia. }
  rewrite Ea, Eb. congruence.
Qed.

End TextFacts.
(** ** Float arithmetic *)

Section FloatFacts.
Import F64.

(** Rounding to nearest misses the quotient by at most one half. *)
Lemma round_half_even_error n d :
  0 < d -> 2 * Z.abs (round_half_even n d * d - n) <= d.
Proof.
  intros Hd. unfold round_half_even.
  pose proof (Z.div_mod n d ltac:(lia)) as E.
  pose proof (Z.mod_pos_bound n d Hd) as Hr.
  destruct (Z.ltb_spec (2 * (n mod d)) d).
  - nia.
  - destruct (Z.ltb_spec d (2 * (n mod d))).
    + nia.
    + destruct (Z.even (n / d)); nia.
Qed.

(** A quotient of at most one is scaled by [2 ^ 52] at least. *)
Lemma true_divide_scale a b :
  0 < a <= b ->
  exists s, 52 <= s
            /\ true_divide a b = (round_half_even (a * 2 ^ s) b, s).
Proof.
  intros Hab. unfold true_divide.
  destruct (Z.eqb_spec a 0); [lia|].
  assert (Hlog : Z.log2 a <= Z.log2 b) by (apply Z.log2_le_mono; lia).
  set (s0 := 52 - (Z.log2 a - Z.log2 b)).
  set (s := if _ <? _ then s0 + 1 else s0).
  assert (Hs : 52 <= s) by (subst s; destruct (_ <? _); lia).
  exists s. split; [exact Hs|].
  unfold scaled. cbn [fst snd].
  rewrite (Z.max_l s 0), (Z.max_r (- s) 0) by lia.
  now rewrite Z.pow_0_r, Z.mul_1_r.
Qed.

Lemma strip_zeros_value fuel : forall k e,
  k <> 0 ->
  e <= exp10 (strip_zeros fuel k e)
  /\ digits (strip_zeros fuel k e) * 10 ^ (exp10 (strip_zeros fuel k e) - e) = k.
Proof.
  induction fuel as [|fuel IH]; intros k e Hk; cbn [strip_zeros].
  - cbn [digits exp10]. rewrite Z.sub_diag. simpl. lia.
  - destruct (Z.eqb_spec k 0); [contradiction|].
    destruct (Z.eqb_spec (k mod 10) 0) as [Hm|Hm].
    + pose proof (Z.div_mod k 10 ltac:(lia)) as E.
      destruct (IH (k / 10) (e + 1) ltac:(lia)) as [He Hv].
      split; [lia|].
      replace (exp10 (strip_zeros fuel (k / 10) (e + 1)) - e)
        with (Z.succ (exp10 (strip_zeros fuel (k / 10) (e + 1)) - (e + 1)))
        by lia.
      rewrite Z.pow_succ_r by lia. lia.
    + cbn [digits exp10]. rewrite Z.sub_diag. simpl. lia.
Qed.

(** The float written [k / 100] is worth [k] hundredths. *)
Lemma decimal_hundredths k :
  -2 <= exp10 (decimal k (-2))
  /\ digits (decimal k (-2)) * 10 ^ (exp10 (decimal k (-2)) + 2) = k.
Proof.
  unfold decimal. destruct (Z.eq_dec k 0) as [->|Hk]; [simpl; lia|].
  destruct (strip_zeros_value (S (Z.to_nat (Z.log2 (Z.abs k)))) k (-2) Hk)
    as [He Hv].
  split; [exact He|].
  now replace (exp10 (strip_zeros (S (Z.to_nat (Z.log2 (Z.abs k)))) k (-2)) + 2)
    with (exp10 (strip_zeros (S (Z.to_nat (Z.log2 (Z.abs k)))) k (-2)) - -2)
    by lia.
Qed.

(** [round(a / b, 2)] for [0 <= a <= b] and a [b] below [2 ^ 45]: the
    float written [k / 100], for a [k] nearest to [100 a / b]. *)
Lemma round_true_divide a b :
  0 <= a <= b -> 0 < b < 2 ^ 45 ->
  exists k, 0 <= k <= 100
            /\ 2 * Z.abs (100 * a - k * b) <= b
            /\ round (true_divide a b) 2 = decimal k (-2).
Proof.
  intros Ha Hb.
  destruct (Z.eq_dec a 0) as [->|Hne].
  - exists 0. split; [lia|]. split; [simpl; lia|reflexivity].
  - destruct (true_divide_scale a b ltac:(lia)) as (s & Hs & ->).
    unfold round. rewrite (Z.max_l s 0), (Z.max_r (- s) 0) by lia.
    rewrite Z.pow_0_r, Z.mul_1_r.
    set (m := round_half_even (a * 2 ^ s) b).
    set (k := round_half_even (m * 10 ^ 2) (2 ^ s)).
    assert (Hp : 2 ^ 52 <= 2 ^ s) by (apply Z.pow_le_mono_r; lia).
    pose proof (round_half_even_error (a * 2 ^ s) b ltac:(lia)) as Hm.
    pose proof (round_half_even_error (m * 10 ^ 2) (2 ^ s) ltac:(lia)) as Hk.
    fold m in Hm. fold k in Hk. change (10 ^ 2) with 100 in Hk.
    change (2 ^ 52) with 4503599627370496 in Hp.
    change (2 ^ 45) with 35184372088832 in Hb.
    assert (Hnear : 2 * Z.abs (100 * a - k * b) <= b).
    { set (P := 2 ^ s) in *.
      assert (Hbig : 2 * Z.abs (100 * a - k * b) * P <= b * P + 100 * b) by nia.
      assert (Hlt : 100 * b < P) by lia.
      nia. }
    exists k. split; [nia|]. split; [exact Hnear|reflexivity].
Qed.

End FloatFacts.
(** ** The library models on known values *)

Section KnownValues.
Import Text Py.

Example md5_of_empty : MD5.hexdigest [] = "d41d8cd98f00b204e9800998ecf8427e".
Proof. vm_compute. reflexivity. Qed.

Example md5_of_abc :
  MD5.hexdigest (utf8 "abc") = "900150983cd24fb0d6963f7d28e17f72".
Proof. vm_compute. reflexivity. Qed.

Example generate_id_of_name_only :
  DataProcessor._generate_id [("name", PStr "Ana")]
  = "f83bd328de59de0d6ee954f6fc25a50a".
Proof. vm_compute. reflexivity. Qed.

Example dumps_sorts_keys :
  Json.dumps_sorted
    (PDict [("b", PList [PInt 1; PNone; PBool true; PFloat (Float64 15 (-1))]);
            ("a", PDict [])])
  = "{" +:+ dq +:+ "a" +:+ dq +:+ ": {}, " +:+ dq +:+ "b" +:+ dq
        +:+ ": [1, null, true, 1.5]}".
Proof. vm_compute. reflexivity. Qed.

Example dumps_indents :
  Json.dumps_indent 2 (PList [PDict [("a", PInt 1)]; PList []])
  = "[" +:+ nl +:+ "  {" +:+ nl +:+ "    " +:+ dq +:+ "a" +:+ dq +:+ ": 1"
        +:+ nl +:+ "  }," +:+ nl +:+ "  []" +:+ nl +:+ "]".
Proof. vm_compute. reflexivity. Qed.

Example repr_of_floats :
  map float_repr
      [Float64 1 0; Float64 67 (-2); Float64 1 16; Float64 15 (-6);
       Float64 1 (-4); Float64 (-125) (-1)]
  = ["1.0"; "0.67"; "1e+16"; "1.5e-05"; "0.0001"; "-12.5"].
Proof. vm_compute. reflexivity. Qed.

Example str_of_values :
  map str [PNone; PBool true; PInt (-12); PStr "a b";
           PList [PInt 1; PStr "x"]; PDict [("k", PNone)]]
  = ["None"; "True"; "-12"; "a b"; "[1, 'x']"; "{'k': None}"].
Proof. vm_compute. reflexivity. Qed.

(** [round(1 / 3, 2)], [round(2 / 3, 2)], [round(1 / 8, 2)] (a tie, to the
    even digit), [round(3 / 200, 2)] (the double below 0.015) and
    [round(1 / 1, 2)]. *)
Example round_of_quotients :
  map (fun q => float_repr (F64.round (F64.true_divide (fst q) (snd q)) 2))
      [(1, 3); (2, 3); (1, 8); (3, 200); (1, 1)]
  = ["0.33"; "0.67"; "0.12"; "0.01"; "1.0"].
Proof. vm_compute. reflexivity. Qed.

Example timestamps_of_a_moment :
  (DT.isoformat (DateTime 2024 1 2 3 4 5 0),
   DT.isoformat (DateTime 2024 1 2 3 4 5 1234),
   DT.strftime_Ymd_HMS (DateTime 2024 1 2 3 4 5 1234))
  = ("2024-01-02T03:04:05+00:00", "2024-01-02T03:04:05.001234+00:00",
     "20240102_030405").
Proof. vm_compute. reflexivity. Qed.

End KnownValues.

(** ** The data processor *)

Section ProcessorFacts.
Import Py DT DataProcessor Claimed.

Lemma process_cons record rest c :
  process (record :: rest) c =
  match _process_record record c with
  | (Ok (Some processed_record), c1) =>
      let '(processed_data, c2) := process rest c1 in
      if truthy (PDict processed_record)
      then (processed_record :: processed_data, c2)
      else (processed_data, c2)
  | (Ok None, c1) => process rest c1
  | (Raise _, c1) => process rest c1
  end.
Proof. reflexivity. Qed.

Lemma process_record_empty c : _process_record (PDict []) c = (Ok None, c).
Proof. reflexivity. Qed.

(** C10. [process] drops every empty raw record without an error: the
    output, and the clock with it, is what it is for the list without its
    empty mappings, and a list of empty mappings alone gives the empty
    list. *)
Theorem process_drops_empty_records : forall raw n c,
  process raw c = process (List.filter (fun r => negb (empty_mapping r)) raw) c
  /\ process (repeat (PDict []) n) c = ([], c).
Proof.
  intros raw n c. split.
  - revert c. induction raw as [|r raw IH]; intros c; [reflexivity|].
    destruct (empty_mapping r) eqn:E.
    + destruct r as [| | | | | |[|]]; try discriminate E.
      cbn [List.filter empty_mapping negb].
      rewrite process_cons, process_record_empty. apply IH.
    + cbn [List.filter]. rewrite E. cbn [negb].
      rewrite !process_cons.
      destruct (_process_record r c) as [[[p|]|e] c1]; rewrite ?IH; reflexivity.
  - induction n as [|n IH]; [reflexivity|].
    cbn [repeat]. rewrite process_cons, process_record_empty. exact IH.
Qed.

(** C1, as the code has it.  On the two records of the example, [process]
    returns two records with [processed_at], a quality score of 1.0 and
    [is_complete] true, and [add_metadata] counts 2 records from source
    [test]; but the [id] of each output record is the integer of the raw
    record, not its string: the flattened fields are stored after the
    coerced [id] and replace it. *)
Theorem process_example_keeps_integer_id : forall c,
  let out := fst (process Sample.ana_luis c) in
  let md := fst (add_metadata out [("source", PStr "test")]
                   (snd (process Sample.ana_luis c))) in
  List.length out = 2%nat
  /\ map (fun r => dict_get r "id") out = [Some (PInt 1); Some (PInt 2)]
  /\ map (fun r => dict_get r "id") out <> [Some (PStr "1"); Some (PStr "2")]
  /\ Forall (fun r => dict_has r "processed_at" = true
                      /\ dict_get r "data_quality_score" = Some (PFloat (Float64 1 0))
                      /\ dict_get r "is_complete" = Some (PBool true)) out
  /\ dict_get md "record_count" = Some (PInt 2)
  /\ dict_get md "source" = Some (PStr "test").
Proof.
  intros c. cbv zeta.
  split; [reflexivity|]. split; [reflexivity|]. split; [discriminate|].
  split; [|split; reflexivity].
  repeat constructor.
Qed.

End ProcessorFacts.
(** ** Flattening, identifiers and scores *)

Section RecordFacts.
Import Text Py DT DataProcessor Claimed.

Lemma flatten_value_dict sep parent_key record :
  flatten_value sep parent_key (PDict record)
  = dict_of_items (flat_map (flat_item sep parent_key) record).
Proof.
  cbn [flatten_value]. f_equal.
  induction record as [|[key value] record IH]; [reflexivity|].
  cbn [flat_map]. rewrite <- IH. unfold flat_item. cbn [fst snd].
  destruct value; reflexivity.
Qed.

Lemma dict_of_items_values (Q : pyval -> Prop) (items : pydict) :
  Forall Q (dict_values items) -> Forall Q (dict_values (dict_of_items items)).
Proof. intros H. apply dict_update_values; [constructor|exact H]. Qed.

(** Flattening is total: no value of a flattened record is a mapping or a
    sequence. *)
Lemma flatten_value_scalar v : forall sep parent_key,
  Forall (fun x => scalar x = true) (dict_values (flatten_value sep parent_key v)).
Proof.
  induction v as [| | | | |l _|d IH] using pyval_nested_ind;
    intros sep parent_key; try (cbn; constructor).
  rewrite flatten_value_dict. apply dict_of_items_values.
  induction d as [|[key value] d IHd]; [constructor|].
  inversion IH as [|? ? Hvalue Hrest]; subst.
  cbn [flat_map]. unfold dict_values. rewrite map_app. apply Forall_app. split.
  - unfold flat_item. cbn [fst snd] in *.
    destruct value; try (repeat constructor); apply Hvalue.
  - apply IHd, Hrest.
Qed.

Lemma dict_get_In {A} (d : list (string * A)) k v :
  dict_get d k = Some v -> In (k, v) d.
Proof.
  induction d as [|[k0 v0] d IH]; cbn [dict_get]; [discriminate|].
  destruct (String.eqb_spec k k0) as [->|Hne].
  - intros [= ->]. now left.
  - intros H. right. now apply IH.
Qed.

Lemma dict_has_false {A} (d : list (string * A)) k :
  dict_has d k = false <-> ~ In k (dict_keys d).
Proof.
  rewrite <- dict_get_in_keys. unfold dict_has.
  destruct (dict_get d k); split; intros H.
  - discriminate H.
  - exfalso. apply H. discriminate.
  - intros H'. now apply H'.
  - reflexivity.
Qed.

Lemma dict_has_true {A} (d : list (string * A)) k :
  dict_has d k = true <-> In k (dict_keys d).
Proof.
  rewrite <- dict_get_in_keys. unfold dict_has.
  destruct (dict_get d k); split; intros H; congruence.
Qed.

(** A top-level field that is not a mapping keeps its name when the
    record is flattened. *)
Lemma flatten_keeps_top_level_key record sep k v :
  dict_get record k = Some v -> is_dict v = false ->
  In k (dict_keys (_flatten_record record "" sep)).
Proof.
  intros Hget Hv. unfold _flatten_record. rewrite flatten_value_dict.
  apply dict_of_items_keys. unfold dict_keys. apply in_map_iff.
  apply dict_get_In in Hget.
  assert (Hitem : exists x, flat_item sep "" (k, v) = [(k, x)]).
  { unfold flat_item. cbn [fst snd String.eqb negb].
    destruct v; try discriminate Hv; eauto. }
  destruct Hitem as [x Hx]. exists (k, x). split; [reflexivity|].
  apply in_flat_map. exists (k, v). split; [exact Hget|]. rewrite Hx. now left.
Qed.

Lemma hexdigest_not_empty msg : MD5.hexdigest msg <> "".
Proof. unfold MD5.hexdigest, MD5.hex_word, hex_byte. discriminate. Qed.

Lemma str_dict_not_empty d : str (PDict d) <> "".
Proof. cbn [str repr]. discriminate. Qed.

Lemma process_record_clock record c :
  exists k, snd (_process_record record c) = advanced c k.
Proof.
  unfold _process_record. destruct (negb (truthy record)).
  - exists 0%nat. now destruct c.
  - destruct record; try (exists 0%nat; now destruct c).
    exists 2%nat. reflexivity.
Qed.

(** What [_process_record] returns for a record it accepts. *)
Lemma process_record_some record c r c1 :
  _process_record record c = (Ok (Some r), c1) ->
  exists source,
    record = PDict source
    /\ r = dict_of_items
             ([("id", PStr (str (match dict_get source "id" with
                                 | Some v => v
                                 | None => PStr (_generate_id source)
                                 end)));
               ("created_at", PStr (isoformat (reading c (reads c))));
               ("processed_at", PStr (isoformat (reading c (S (reads c)))))]
              ++ _flatten_record source "" "_"
              ++ [("data_quality_score", PFloat (_calculate_quality_score source));
                  ("is_complete", PBool (_check_completeness source))]).
Proof.
  unfold _process_record. destruct (negb (truthy record)); [discriminate|].
  destruct record; try discriminate. cbn [now]. intros [= <- _]. eauto.
Qed.

Lemma processed_record_invariant source c :
  let r := dict_of_items
             ([("id", PStr (str (match dict_get source "id" with
                                 | Some v => v
                                 | None => PStr (_generate_id source)
                                 end)));
               ("created_at", PStr (isoformat (reading c (reads c))));
               ("processed_at", PStr (isoformat (reading c (S (reads c)))))]
              ++ _flatten_record source "" "_"
              ++ [("data_quality_score", PFloat (_calculate_quality_score source));
                  ("is_complete", PBool (_check_completeness source))]) in
  let flattened := _flatten_record source "" "_" in
  dict_has r "id" = true
  /\ dict_has r "created_at" = true
  /\ dict_has r "processed_at" = true
  /\ Forall (fun v => scalar v = true) (dict_values r)
  /\ ((dict_has flattened "id" = false
       \/ exists s, dict_get flattened "id" = Some (PStr s) /\ s <> "") ->
      exists s, dict_get r "id" = Some (PStr s) /\ s <> "")
  /\ (dict_has flattened "created_at" = false ->
      dict_get r "created_at" = Some (PStr (isoformat (reading c (reads c)))))
  /\ (dict_has flattened "processed_at" = false ->
      dict_get r "processed_at"
      = Some (PStr (isoformat (reading c (S (reads c)))))).
Proof.
  cbv zeta.
  set (head := [("id", _); ("created_at", _); ("processed_at", _)]).
  set (flattened := _flatten_record source "" "_").
  set (tail := [("data_quality_score", _); ("is_complete", _)]).
  assert (Hkeys : forall k, In k ["id"; "created_at"; "processed_at"] ->
                            dict_has (dict_of_items (head ++ flattened ++ tail)) k = true).
  { intros k Hk. apply dict_has_true, dict_of_items_keys.
    unfold dict_keys. rewrite map_app. apply in_or_app. left. exact Hk. }
  assert (Hget : forall k, ~ In k (dict_keys flattened) ->
                 k <> "data_quality_score" -> k <> "is_complete" ->
                 dict_get (dict_of_items (head ++ flattened ++ tail)) k
                 = dict_get (dict_of_items head) k).
  { intros k Hflat Hq Hc. unfold dict_of_items.
    rewrite !dict_update_app.
    rewrite dict_get_update_other by (cbn; intuition congruence).
    now rewrite dict_get_update_other by exact Hflat. }
  split; [apply Hkeys; cbn; tauto|].
  split; [apply Hkeys; cbn; tauto|].
  split; [apply Hkeys; cbn; tauto|].
  split.
  { apply dict_of_items_values. unfold dict_values. rewrite !map_app.
    apply Forall_app. split; [repeat constructor|].
    apply Forall_app. split; [|repeat constructor].
    apply flatten_value_scalar. }
  split; [|split].
  - intros [Hflat|(s & Hs & Hne)].
    + apply dict_has_false in Hflat.
      rewrite Hget by (try exact Hflat; discriminate).
      eexists. split; [reflexivity|].
      destruct (dict_get source "id") as [v|] eqn:Hid.
      * destruct v; try (exfalso; apply Hflat;
                         now apply (flatten_keeps_top_level_key _ _ _ _ Hid)).
        apply str_dict_not_empty.
      * apply hexdigest_not_empty.
    + exists s. split; [|exact Hne]. unfold dict_of_items.
      rewrite !dict_update_app.
      rewrite dict_get_update_other by (cbn; intuition congruence).
      apply dict_get_update_in; [|exact Hs].
      unfold flattened, _flatten_record. rewrite flatten_value_dict.
      apply dict_of_items_nodup.
  - intros Hflat. apply dict_has_false in Hflat.
    rewrite Hget by (try exact Hflat; discriminate). reflexivity.
  - intros Hflat. apply dict_has_false in Hflat.
    rewrite Hget by (try exact Hflat; discriminate). reflexivity.
Qed.

Lemma advanced_advanced c k k' :
  advanced (advanced c k) k' = advanced c (k' + k).
Proof. unfold advanced. cbn [reading reads]. f_equal. lia. Qed.

Lemma process_output_from c0 : forall raw k,
  Forall (fun r =>
            dict_has r "id" = true
            /\ dict_has r "created_at" = true
            /\ dict_has r "processed_at" = true
            /\ Forall (fun v => scalar v = true) (dict_values r)
            /\ exists source j,
                In (PDict source) raw /\ (k + reads c0 <= j)%nat
                /\ fst (_process_record (PDict source) (Clock (reading c0) j))
                   = Ok (Some r)
                /\ let flattened := _flatten_record source "" "_" in
                   ((dict_has flattened "id" = false
                     \/ exists s, dict_get flattened "id" = Some (PStr s)
                                  /\ s <> "") ->
                    exists s, dict_get r "id" = Some (PStr s) /\ s <> "")
                   /\ (dict_has flattened "created_at" = false ->
                       dict_get r "created_at"
                       = Some (PStr (isoformat (reading c0 j))))
                   /\ (dict_has flattened "processed_at" = false ->
                       dict_get r "processed_at"
                       = Some (PStr (isoformat (reading c0 (S j))))))
         (fst (process raw (advanced c0 k))).
Proof.
  induction raw as [|record rest IH]; intros k; [constructor|].
  rewrite process_cons.
  destruct (process_record_clock record (advanced c0 k)) as [k' Hclock].
  rewrite advanced_advanced in Hclock.
  match goal with |- Forall ?Q _ =>
    assert (Hrest : Forall Q (fst (process rest (advanced c0 (k' + k))))) end.
  { eapply List.Forall_impl; [|exact (IH (k' + k)%nat)].
    intros r (Hid & Hc & Hp & Hv & source & j & Hin & Hj & Hcond).
    refine (conj Hid (conj Hc (conj Hp (conj Hv _)))).
    exists source, j. split; [right; exact Hin|]. split; [lia|exact Hcond]. }
  destruct (_process_record record (advanced c0 k)) as [[[r|]|e] c1] eqn:E;
    cbn [snd] in Hclock; subst c1; try exact Hrest.
  destruct (process rest (advanced c0 (k' + k))) as [processed_data c2].
  cbn [fst] in Hrest.
  destruct (truthy (PDict r)); cbn [fst]; [|exact Hrest].
  constructor; [|exact Hrest].
  destruct (process_record_some _ _ _ _ E) as (source & -> & Hr).
  assert (Hown : fst (_process_record (PDict source)
                        (Clock (reading c0) (k + reads c0))) = Ok (Some r))
    by (change (Clock (reading c0) (k + reads c0)) with (advanced c0 k);
        now rewrite E).
  subst r.
  destruct (processed_record_invariant source (advanced c0 k))
    as (Hid & Hc & Hp & Hv & Hcond).
  refine (conj Hid (conj Hc (conj Hp (conj Hv _)))).
  exists source, (k + reads c0)%nat. split; [now left|]. split; [lia|].
  split; [exact Hown|exact Hcond].
Qed.

(** C2, amended.  Every record [process] returns has the fields [id],
    [created_at] and [processed_at] and no value that is a mapping or a
    sequence, and is the processed form of a raw record of the batch.
    Its [id] is a non-empty string whenever that raw record, flattened,
    has no field [id] or a non-empty string there, and its two timestamps
    are those read from the clock while that raw record was processed
    whenever it has, flattened, no field of that name. *)
Theorem process_output_invariant : forall raw c,
  Forall (invariant_kept raw c) (fst (process raw c)).
Proof.
  intros raw c. pose proof (process_output_from c raw 0) as H.
  replace (advanced c 0) with c in H by now destruct c.
  exact H.
Qed.

(** C2, as stated, fails.  A raw record whose [id] is the empty string
    is processed into a record whose [id] is the empty string. *)
Lemma empty_id_survives_processing :
  let out := fst (process [PDict [("id", PStr "")]] Sample.clock0) in
  map (fun r => dict_get r "id") out = [Some (PStr "")]
  /\ ~ Forall invariant_as_stated out.
Proof.
  cbv zeta. split; [reflexivity|].
  intros H. apply Forall_inv in H. destruct H as [(s & Hget & Hs) _].
  apply Hs. injection Hget as <-. reflexivity.
Qed.

(** The score of an output record is the one computed on the raw record
    as it came, before flattening. *)
Lemma process_record_score source c :
  source <> [] ->
  exists r,
    fst (_process_record (PDict source) c) = Ok (Some r)
    /\ dict_get r "data_quality_score"
       = Some (PFloat (_calculate_quality_score source)).
Proof.
  intros Hne. unfold _process_record.
  destruct source as [|kv source]; [contradiction|].
  cbn [truthy negb now fst]. eexists. split; [reflexivity|].
  unfold dict_of_items. rewrite !dict_update_app.
  cbn [dict_update fold_left fst snd].
  rewrite dict_get_set_ne by discriminate. apply dict_get_set_eq.
Qed.

(** C6. The quality score is [0.0] for a record with no field, and
    otherwise the float written [k / 100] for a [k] between 0 and 100
    nearest to a hundred times the fraction of filled fields: the fraction
    rounded to two decimals, between 0.0 and 1.0.  The score is worth [k]
    hundredths, it is always returned, and it is the
    [data_quality_score] of the processed record, computed on the raw
    record before flattening.  (The field count is taken below
    [2 ^ 45].) *)
Theorem quality_score_is_rounded_fraction : forall record c,
  let total := Z.of_nat (List.length record) in
  let filled_count :=
    Z.of_nat (List.length (List.filter filled (dict_values record))) in
  let score := _calculate_quality_score record in
  total < 2 ^ 45 ->
  (total = 0 -> score = Float64 0 0)
  /\ (exists k,
        0 <= k <= 100
        /\ 2 * Z.abs (100 * filled_count - k * total) <= total
        /\ score = F64.decimal k (-2)
        /\ -2 <= exp10 score
        /\ digits score * 10 ^ (exp10 score + 2) = k)
  /\ (record <> [] ->
      exists r,
        fst (_process_record (PDict record) c) = Ok (Some r)
        /\ dict_get r "data_quality_score" = Some (PFloat score)).
Proof.
  intros record c total filled_count score Hsmall.
  assert (Hfilled : 0 <= filled_count <= total).
  { subst filled_count total. split; [lia|]. apply inj_le.
    unfold dict_values. rewrite <- (length_map snd record).
    apply List.filter_length_le. }
  assert (Hscore : total <> 0 ->
                   score = F64.round (F64.true_divide filled_count total) 2).
  { intros Hne. subst score. unfold _calculate_quality_score.
    fold total. destruct (Z.eqb_spec total 0); [contradiction|reflexivity]. }
  assert (Hzero : total = 0 -> score = Float64 0 0).
  { intros Hzero. subst score. unfold _calculate_quality_score.
    fold total. rewrite Hzero. reflexivity. }
  split; [exact Hzero|]. split; [|apply process_record_score].
  destruct (Z.eq_dec total 0) as [Hz|Hne].
  - exists 0. rewrite (Hzero Hz). cbn. repeat split; lia.
  - destruct (round_true_divide filled_count total ltac:(lia) ltac:(lia))
      as (k & Hk & Hnear & Hround).
    exists k. rewrite (Hscore Hne), Hround.
    pose proof (decimal_hundredths k) as [He Hv].
    repeat split; try lia; assumption.
Qed.

Lemma quality_score_is_rounded_fraction_witness :
  let record := [("a", PInt 1); ("b", PNone); ("c", PStr "")] in
  let score := _calculate_quality_score record in
  (3 = 0 -> score = Float64 0 0)
  /\ (exists k,
        0 <= k <= 100
        /\ 2 * Z.abs (100 * 1 - k * 3) <= 3
        /\ score = F64.decimal k (-2)
        /\ -2 <= exp10 score
        /\ digits score * 10 ^ (exp10 score + 2) = k)
  /\ (record <> [] ->
      exists r,
        fst (_process_record (PDict record) Sample.clock0) = Ok (Some r)
        /\ dict_get r "data_quality_score" = Some (PFloat score)).
Proof.
  cbv zeta.
  apply (quality_score_is_rounded_fraction
           [("a", PInt 1); ("b", PNone); ("c", PStr "")] Sample.clock0).
  reflexivity.
Defined.

End RecordFacts.
(** ** The object writer *)

Section WriterFacts.
Import Text Py DT S3Writer Claimed.

Lemma strftime_length t :
  valid t -> String.length (strftime_Ymd_HMS t) = 15%nat.
Proof.
  intros (Hy & Hm & Hd & Hh & Hmi & Hs & _). unfold strftime_Ymd_HMS.
  rewrite zfill_4, !zfill_2 by lia. reflexivity.
Qed.

(** The rendered timestamp tells two moments apart exactly when they
    differ in a field down to the second. *)
Lemma strftime_inj t1 t2 :
  valid t1 -> valid t2 ->
  strftime_Ymd_HMS t1 = strftime_Ymd_HMS t2 -> same_second t1 t2.
Proof.
  intros (Hy1 & Hm1 & Hd1 & Hh1 & Hmi1 & Hs1 & _)
         (Hy2 & Hm2 & Hd2 & Hh2 & Hmi2 & Hs2 & _).
  unfold strftime_Ymd_HMS. rewrite !zfill_4, !zfill_2 by lia.
  intros H.
  apply app_inj_length in H as [Ey H]; [|reflexivity].
  apply app_inj_length in H as [Em H]; [|reflexivity].
  apply app_inj_length in H as [Ed H]; [|reflexivity].
  apply app_inj_length in H as [_ H]; [|reflexivity].
  apply app_inj_length in H as [Eh H]; [|reflexivity].
  apply app_inj_length in H as [Emi Es]; [|reflexivity].
  apply four_digits_inj in Ey; [|lia..].
  apply two_digits_inj in Em, Ed, Eh, Emi, Es; [|lia..].
  repeat split; assumption.
Qed.

Lemma strftime_same_second t1 t2 :
  same_second t1 t2 -> strftime_Ymd_HMS t1 = strftime_Ymd_HMS t2.
Proof.
  intros (Ey & Em & Ed & Eh & Emi & Es). unfold strftime_Ymd_HMS.
  now rewrite Ey, Em, Ed, Eh, Emi, Es.
Qed.

(** What [write_data] does for an encoding it supports. *)
Lemma write_data_supported bucket data prefix format metadata c s :
  format = "json" \/ format = "csv" \/ format = "parquet" ->
  let timestamp := strftime_Ymd_HMS (reading c (reads c)) in
  let s3_key := prefix +:+ "/data_" +:+ timestamp +:+ "." +:+ extension format in
  let content := if String.eqb format "csv" then _to_csv_simple data
                 else _to_json data in
  let ctype := if String.eqb format "csv" then "text/csv"
               else "application/json" in
  write_data bucket data prefix format metadata c s =
  match put_object bucket s3_key
          (S3Object content ctype
             (s3_metadata data format timestamp metadata) (Some "AES256")) s with
  | (Raise e, s1) => (Raise e, (snd (now c), s1))
  | (Ok _, s1) =>
      (Ok s3_key,
       _write_metadata_file bucket s3_key data metadata (snd (now c)) s1)
  end.
Proof.
  intros [->|[->| ->]]; cbv zeta; unfold write_data, extension;
    cbn [now fst snd]; simpl (String.eqb _ _); cbn [orb];
    change ("." +:+ "json") with ".json"; change ("." +:+ "csv") with ".csv";
    match goal with |- context [put_object ?b ?k ?o s] =>
      destruct (put_object b k o s) as [[[]|e] s1] end; try reflexivity;
    match goal with |- context [_write_metadata_file ?a ?b ?c ?d ?e ?f] =>
      destruct (_write_metadata_file a b c d e f) as [c2 s2] end; reflexivity.
Qed.

(** An encoding outside json, csv and parquet is refused once the clock
    has been read, before anything is put. *)
Lemma write_data_unsupported bucket data prefix format metadata c s :
  format <> "json" -> format <> "csv" -> format <> "parquet" ->
  write_data bucket data prefix format metadata c s
  = (Raise (ValueError ("Unsupported format: " +:+ format)), (snd (now c), s)).
Proof.
  intros Hj Hc Hp. unfold write_data. cbn [now snd].
  destruct (String.eqb_spec format "parquet"); [contradiction|].
  destruct (String.eqb_spec format "json"); [contradiction|].
  destruct (String.eqb_spec format "csv"); [contradiction|].
  reflexivity.
Qed.

(** C8. An encoding outside json, csv and parquet makes [write_data] raise
    the unsupported-format error, and S3 is left as it was: no call of
    [put_object] is made, so no data object and no metadata object is
    stored. *)
Theorem write_data_unsupported_format :
  forall bucket data prefix format metadata c s,
    format <> "json" -> format <> "csv" -> format <> "parquet" ->
    let out := write_data bucket data prefix format metadata c s in
    fst out = Raise (ValueError ("Unsupported format: " +:+ format))
    /\ snd (snd out) = s
    /\ puts (snd (snd out)) = puts s
    /\ objects (snd (snd out)) = objects s.
Proof.
  intros bucket data prefix format metadata c s Hj Hc Hp. cbv zeta.
  rewrite write_data_unsupported by assumption. now repeat split.
Qed.

Lemma write_data_unsupported_format_witness :
  let out := write_data "bucket" [Sample.record1] "raw-data" "xml" None
                        Sample.clock0 Sample.s3_empty in
  fst out = Raise (ValueError ("Unsupported format: " +:+ "xml"))
  /\ snd (snd out) = Sample.s3_empty
  /\ puts (snd (snd out)) = puts Sample.s3_empty
  /\ objects (snd (snd out)) = objects Sample.s3_empty.
Proof.
  cbv zeta.
  apply (write_data_unsupported_format "bucket" [Sample.record1] "raw-data"
           "xml" None Sample.clock0 Sample.s3_empty); discriminate.
Defined.

Lemma s3_metadata_parquet data timestamp metadata :
  s3_metadata data "parquet" timestamp metadata
  = s3_metadata data "json" timestamp metadata.
Proof. reflexivity. Qed.

Lemma put_object_other bucket key obj s other :
  other <> (bucket, key) ->
  objects (snd (put_object bucket key obj s)) !! other = objects s !! other.
Proof.
  intros Hne. unfold put_object. destruct (fault s (puts s)); cbn [snd objects];
    [reflexivity|]. now apply lookup_insert_ne.
Qed.

Lemma write_metadata_file_other bucket data_key data metadata c s other :
  other <> (bucket, data_key +:+ ".metadata.json") ->
  objects (snd (_write_metadata_file bucket data_key data metadata c s)) !! other
  = objects s !! other.
Proof.
  intros Hne. unfold _write_metadata_file. cbn [now].
  match goal with |- context [put_object ?b ?k ?o s] =>
    pose proof (put_object_other b k o s other Hne) as H;
    destruct (put_object b k o s) as [r s1] end.
  exact H.
Qed.

Lemma find_over_app {A} (P : A -> bool) (l1 l2 : list A) :
  find P (l1 ++ l2)
  = match find P l1 with Some x => Some x | None => find P l2 end.
Proof.
  induction l1 as [|x l1 IH]; [reflexivity|]. cbn [app find].
  destruct (P x); [reflexivity|exact IH].
Qed.

(** The tag stored under [name] after the caller's entries were added to
    the tags [d]: the value of the last entry stored as [name], or else
    what [d] has. *)
Lemma caller_tags_get name (m : pydict) : forall (d : list (string * string)),
  dict_get
    (fold_left
       (fun acc kv =>
          if Z.of_nat (String.length (fst kv))
             + Z.of_nat (String.length (str (snd kv))) <? 1024
          then dict_set acc (lower (spaces_to_underscores (fst kv)))
                        (str (snd kv))
          else acc) m d) name
  = match find (stored_as name) (rev m) with
    | Some kv => Some (str (snd kv))
    | None => dict_get d name
    end.
Proof.
  induction m as [|kv m IH]; intros d; [reflexivity|].
  cbn [fold_left rev]. rewrite IH, find_over_app.
  destruct (find (stored_as name) (rev m)); [reflexivity|].
  cbn [find]. unfold stored_as.
  destruct (_ <? 1024); cbn [andb]; [|reflexivity].
  destruct (String.eqb_spec (lower (spaces_to_underscores (fst kv))) name)
    as [<-|Hne].
  - apply dict_get_set_eq.
  - now apply dict_get_set_ne.
Qed.

Lemma s3_metadata_format_tag data format timestamp metadata :
  dict_get (s3_metadata data format timestamp metadata) "format"
  = Some (match caller_tag metadata "format" with
          | Some v => str v
          | None => if String.eqb format "parquet" then "json" else format
          end).
Proof.
  unfold s3_metadata, caller_tag.
  destruct metadata as [[|kv m]|]; try reflexivity.
  cbn [truthy]. rewrite caller_tags_get.
  destruct (find (stored_as "format") (rev (kv :: m))); reflexivity.
Qed.

(** C7, amended.  Asked for parquet, [write_data] does to the clock and
    to S3 what it does for json and returns the same: the key ends in
    [.json], the body is the JSON document of the records, the content
    type is [application/json], and the tags are those of json.  The
    format tag is [json] unless the caller's metadata has an entry that is
    stored under that name, whose value it then is. *)
Theorem write_data_parquet_falls_back_to_json :
  forall bucket data prefix metadata c s,
    let timestamp := strftime_Ymd_HMS (reading c (reads c)) in
    let s3_key := prefix +:+ "/data_" +:+ timestamp +:+ ".json" in
    let out := write_data bucket data prefix "parquet" metadata c s in
    let tags := s3_metadata data "parquet" timestamp metadata in
    out = write_data bucket data prefix "json" metadata c s
    /\ tags = s3_metadata data "json" timestamp metadata
    /\ dict_get tags "format"
       = Some (match caller_tag metadata "format" with
               | Some v => str v
               | None => "json"
               end)
    /\ match fault s (puts s) with
       | Some e => fst out = Raise e /\ objects (snd (snd out)) = objects s
       | None =>
           fst out = Ok s3_key
           /\ objects (snd (snd out)) !! (bucket, s3_key)
              = Some (S3Object
                        (utf8 (Json.dumps_indent 2 (PList (map PDict data))))
                        "application/json" tags (Some "AES256"))
       end.
Proof.
  intros bucket data prefix metadata c s. cbv zeta.
  rewrite !write_data_supported by tauto. cbv zeta.
  rewrite s3_metadata_parquet.
  change (extension "parquet") with "json". change (extension "json") with "json".
  change ("." +:+ "json") with ".json".
  simpl (String.eqb _ _).
  split; [reflexivity|]. split; [reflexivity|].
  split; [now rewrite s3_metadata_format_tag|].
  unfold put_object. destruct (fault s (puts s)) as [e|].
  - split; reflexivity.
  - split; [reflexivity|]. cbn [fst snd].
    rewrite write_metadata_file_other.
    + cbn [objects]. apply lookup_insert_eq.
    + intros H. injection H as H. symmetry in H. revert H.
      apply app_not_self. discriminate.
Qed.

(** C7, as stated, fails.  With a caller's metadata entry [Format], the
    object written for parquet carries that entry's value as its format
    tag, not [json]. *)
Lemma parquet_format_tag_can_be_the_callers :
  let out := write_data "bucket" [Sample.record1] "raw-data" "parquet"
                        (Some [("Format", PStr "avro")])
                        Sample.clock0 Sample.s3_empty in
  fst out = Ok "raw-data/data_20240101_120000.json"
  /\ (fun o => dict_get (user_metadata o) "format")
       <$> objects (snd (snd out)) !! ("bucket", "raw-data/data_20240101_120000.json")
     = Some (Some "avro")
  /\ "avro" <> "json".
Proof.
  cbv zeta. split; [reflexivity|]. split; [|discriminate].
  rewrite write_data_supported by tauto. cbv zeta.
  unfold _write_metadata_file, put_object. cbn [now Sample.s3_empty fault puts snd objects].
  rewrite lookup_insert_ne.
  - rewrite lookup_insert_eq. reflexivity.
  - intros H. discriminate H.
Qed.


(** A write that succeeds was asked for a supported encoding, and its key
    is the prefix, the timestamp to the second and the extension. *)
Lemma write_data_ok_key bucket data prefix format metadata c s key after :
  write_data bucket data prefix format metadata c s = (Ok key, after) ->
  (format = "json" \/ format = "csv" \/ format = "parquet")
  /\ key = prefix +:+ "/data_" +:+ strftime_Ymd_HMS (reading c (reads c))
              +:+ "." +:+ extension format.
Proof.
  intros H.
  assert (Hf : format = "json" \/ format = "csv" \/ format = "parquet").
  { destruct (String.eqb_spec format "json") as [|Hj]; [tauto|].
    destruct (String.eqb_spec format "csv") as [|Hc]; [tauto|].
    destruct (String.eqb_spec format "parquet") as [|Hp]; [tauto|].
    rewrite write_data_unsupported in H by assumption. discriminate H. }
  split; [exact Hf|].
  rewrite write_data_supported in H by exact Hf. cbv zeta in H.
  match type of H with context [put_object ?b ?k ?o s] =>
    destruct (put_object b k o s) as [[[]|e] s1] end; congruence.
Qed.

Lemma write_data_other bucket data prefix format metadata c s key after other :
  write_data bucket data prefix format metadata c s = (Ok key, after) ->
  other <> (bucket, key) ->
  other <> (bucket, key +:+ ".metadata.json") ->
  objects (snd after) !! other = objects s !! other.
Proof.
  intros H Hk Hm.
  destruct (write_data_ok_key _ _ _ _ _ _ _ _ _ H) as [Hf Ekey].
  rewrite write_data_supported in H by exact Hf. cbv zeta in H.
  rewrite <- Ekey in H.
  match type of H with context [put_object ?b ?k ?o s] =>
    pose proof (put_object_other b k o s other Hk) as Hput;
    destruct (put_object b k o s) as [[[]|e] s1] end; [|discriminate H].
  injection H as <-. rewrite write_metadata_file_other by exact Hm.
  exact Hput.
Qed.

Lemma extension_length format :
  (3 <= String.length (extension format) <= 4)%nat.
Proof. unfold extension. destruct (String.eqb format "csv"); simpl; lia. Qed.

(** C3, amended.  The key of a successful write is
    [prefix/data_<timestamp>.<extension>] with the timestamp rendered to
    the second.  Two writes under one prefix get the same key exactly when
    their timestamps agree to the second and their extensions agree; and a
    write made in another second leaves the object stored under the
    earlier key as it is. *)
Theorem object_key_distinct_by_second :
  forall bucket prefix data1 format1 metadata1 c1 s1 key1 after1
         data2 format2 metadata2 c2 s2 key2 after2,
    let t1 := reading c1 (reads c1) in
    let t2 := reading c2 (reads c2) in
    valid t1 -> valid t2 ->
    write_data bucket data1 prefix format1 metadata1 c1 s1 = (Ok key1, after1) ->
    write_data bucket data2 prefix format2 metadata2 c2 s2 = (Ok key2, after2) ->
    key1 = prefix +:+ "/data_" +:+ strftime_Ymd_HMS t1 +:+ "." +:+ extension format1
    /\ (key1 = key2 <->
        same_second t1 t2 /\ extension format1 = extension format2)
    /\ (~ same_second t1 t2 ->
        objects (snd after2) !! (bucket, key1) = objects s2 !! (bucket, key1)).
Proof.
  intros bucket prefix data1 format1 metadata1 c1 s1 key1 after1
         data2 format2 metadata2 c2 s2 key2 after2 t1 t2 V1 V2 W1 W2.
  destruct (write_data_ok_key _ _ _ _ _ _ _ _ _ W1) as [_ E1].
  destruct (write_data_ok_key _ _ _ _ _ _ _ _ _ W2) as [_ E2].
  fold t1 in E1. fold t2 in E2.
  assert (Hiff : key1 = key2 <->
                 same_second t1 t2 /\ extension format1 = extension format2).
  { rewrite E1, E2. split.
    - intros H. apply String.app_inj in H. apply String.app_inj in H.
      apply app_inj_length in H as [Et H];
        [|now rewrite !strftime_length by assumption].
      apply String.app_inj in H.
      split; [now apply strftime_inj|exact H].
    - intros [Hs He]. now rewrite (strftime_same_second _ _ Hs), He. }
  split; [exact E1|]. split; [exact Hiff|].
  intros Hdiff. apply (write_data_other _ _ _ _ _ _ _ _ _ _ W2).
  - intros H. injection H as H. apply Hiff in H. tauto.
  - intros H. injection H as H. apply (f_equal String.length) in H.
    rewrite E1, E2 in H. rewrite !length_app in H.
    rewrite !strftime_length in H by assumption.
    pose proof (extension_length format1). pose proof (extension_length format2).
    simpl in H. lia.
Qed.

Lemma object_key_distinct_by_second_witness :
  let first :=
    write_data "bucket" [Sample.record1] "raw-data" "json" None
               Sample.clock0 Sample.s3_empty in
  let second :=
    write_data "bucket" [Sample.record2] "raw-data" "csv" None
               Sample.clock1 (snd (snd first)) in
  let key1 := "raw-data/data_20240101_120000.json" in
  let key2 := "raw-data/data_20240101_120001.csv" in
  let t1 := reading Sample.clock0 0 in
  let t2 := reading Sample.clock1 0 in
  key1 = "raw-data" +:+ "/data_" +:+ strftime_Ymd_HMS t1 +:+ "." +:+ extension "json"
  /\ (key1 = key2 <-> same_second t1 t2 /\ extension "json" = extension "csv")
  /\ (~ same_second t1 t2 ->
      objects (snd (snd second)) !! ("bucket", key1)
      = objects (snd (snd first)) !! ("bucket", key1)).
Proof.
  cbv zeta.
  apply (object_key_distinct_by_second "bucket" "raw-data"
           [Sample.record1] "json" None Sample.clock0 Sample.s3_empty
           "raw-data/data_20240101_120000.json"
           (snd (write_data "bucket" [Sample.record1] "raw-data" "json" None
                            Sample.clock0 Sample.s3_empty))
           [Sample.record2] "csv" None Sample.clock1
           (snd (snd (write_data "bucket" [Sample.record1] "raw-data" "json" None
                                 Sample.clock0 Sample.s3_empty)))
           "raw-data/data_20240101_120001.csv"
           (snd (write_data "bucket" [Sample.record2] "raw-data" "csv" None
                   Sample.clock1
                   (snd (snd (write_data "bucket" [Sample.record1] "raw-data"
                                         "json" None Sample.clock0
                                         Sample.s3_empty)))))).
  - vm_compute. repeat split; discriminate.
  - vm_compute. repeat split; discriminate.
  - vm_compute. reflexivity.
  - vm_compute. reflexivity.
Defined.

(** C3, as stated, fails.  Two writes under one prefix within the same
    second, at different microseconds, get the same key, and the second
    replaces the object the first one stored. *)
Lemma same_second_writes_share_key :
  let first :=
    write_data "bucket" [Sample.record1] "raw-data" "json" None
               Sample.clock0 Sample.s3_empty in
  let second :=
    write_data "bucket" [Sample.record2] "raw-data" "json" None
               (fst (snd first)) (snd (snd first)) in
  let t1 := reading Sample.clock0 (reads Sample.clock0) in
  let t2 := reading (fst (snd first)) (reads (fst (snd first))) in
  let key := "raw-data/data_20240101_120000.json" in
  same_second t1 t2
  /\ microsecond t1 <> microsecond t2
  /\ fst first = Ok key
  /\ fst second = Ok key
  /\ body <$> objects (snd (snd first)) !! ("bucket", key)
     = Some (_to_json [Sample.record1])
  /\ body <$> objects (snd (snd second)) !! ("bucket", key)
     = Some (_to_json [Sample.record2])
  /\ _to_json [Sample.record1] <> _to_json [Sample.record2].
Proof.
  cbv zeta. vm_compute. repeat split; discriminate.
Qed.

End WriterFacts.
(** ** The API client *)

Section ClientFacts.
Import Text Py APIClient Claimed.

(** One call of the body of [fetch_data] makes one request and touches
    nothing else of the network. *)
Lemma fetch_data_once_effect self endpoint params n :
  snd (fetch_data_once self endpoint params n)
  = Net (server n) (S (requests_made n)) (timer n) (timer_reads n)
        (random53 n) (draws n) (slept n).
Proof.
  unfold fetch_data_once, Net.get.
  destruct (server n (requests_made n) _ params)
    as [m|m|status reason response_url payload]; try reflexivity.
  destruct (raise_for_status status reason response_url);
    [destruct payload|]; reflexivity.
Qed.

(** An error status, 4xx as well as 5xx, is raised as a
    [RequestException]. *)
Lemma raise_for_status_error status reason response_url :
  400 <= status < 600 ->
  exists msg, raise_for_status status reason response_url
              = Raise (RequestsHTTPError status msg).
Proof.
  intros H. unfold raise_for_status.
  destruct (Z.leb_spec 400 status); [|lia].
  destruct (Z.ltb_spec status 500); cbn [andb]; [eauto|].
  destruct (Z.leb_spec 500 status); [|lia].
  destruct (Z.ltb_spec status 600); [|lia]. cbn [andb]. eauto.
Qed.

Lemma next_wait_bounds k elapsed n :
  elapsed < max_time ->
  0 <= fst (next_wait k elapsed n) <= 2 ^ Z.of_nat k * 1000000
  /\ fst (next_wait k elapsed n) <= max_time - elapsed.
Proof.
  intros He. unfold next_wait, Net.random. cbn [fst].
  set (r := random53 n (draws n) mod 2 ^ 53).
  assert (Hr : 0 <= r < 2 ^ 53) by (apply Z.mod_pos_bound; lia).
  assert (Hp : 0 < 2 ^ Z.of_nat k) by (apply Z.pow_pos_nonneg; lia).
  assert (Hq : 0 <= 2 ^ Z.of_nat k * 1000000 * r / 2 ^ 53
               <= 2 ^ Z.of_nat k * 1000000).
  { split.
    - apply Z.div_pos; [|lia]. apply Z.mul_nonneg_nonneg; lia.
    - apply Z.div_le_upper_bound; [lia|].
      rewrite (Z.mul_comm (2 ^ 53)). apply Z.mul_le_mono_nonneg_l; lia. }
  lia.
Qed.

Lemma retry_S {A} (target : net -> result A * net) remaining k start n :
  retry target (S remaining) k start n =
  let '(now_, n1) := Net.read_timer n in
  let elapsed := now_ - start in
  match target n1 with
  | (Ok ret, n2) => (Ok ret, n2)
  | (Raise e, n2) =>
      if negb (is_request_exception e) then (Raise e, n2)
      else if max_time <=? elapsed then (Raise e, n2)
      else
        let '(seconds, n3) := next_wait k elapsed n2 in
        retry target remaining (S k) start (Net.sleep seconds n3)
  end.
Proof. reflexivity. Qed.

Lemma no_waits (Q : nat -> Z -> Prop) :
  forall i w, nth_error (@nil Z) i = Some w -> Q i w.
Proof. intros [|i] w; discriminate. Qed.

(** The retry loop around the body of [fetch_data]: it sleeps once before
    each further request, at most [remaining] times; the wait before
    retry [k + i] is at most [2 ^ (k + i)] seconds, is taken only while
    less than [max_time] has elapsed, and does not reach past it. *)
Lemma retry_fetch_spec self endpoint params : forall remaining k start n,
  let out := retry (fetch_data_once self endpoint params) remaining k start n in
  exists waits,
    slept (snd out) = rev waits ++ slept n
    /\ requests_made (snd out) = (requests_made n + S (List.length waits))%nat
    /\ (List.length waits <= remaining)%nat
    /\ forall i w, nth_error waits i = Some w ->
         let elapsed := timer n (timer_reads n + i)%nat - start in
         0 <= w <= 2 ^ Z.of_nat (k + i) * 1000000
         /\ elapsed < max_time /\ w <= max_time - elapsed.
Proof.
  induction remaining as [|remaining IH]; intros k start n; cbv zeta.
  - exists []. cbn [retry Net.read_timer].
    match goal with |- context [fetch_data_once ?a ?b ?c ?d] =>
      pose proof (fetch_data_once_effect a b c d) as E;
      destruct (fetch_data_once a b c d) as [[ret|e] n2] end;
      cbn [snd] in E; subst n2.
    + cbn. split; [reflexivity|]. split; [lia|]. split; [lia|]. apply no_waits.
    + destruct (is_request_exception e); cbn;
        (split; [reflexivity|]; split; [lia|]; split; [lia|]; apply no_waits).
  - cbn [retry Net.read_timer].
    match goal with |- context [fetch_data_once ?a ?b ?c ?d] =>
      pose proof (fetch_data_once_effect a b c d) as E;
      destruct (fetch_data_once a b c d) as [[ret|e] n2] end;
      cbn [snd] in E; subst n2.
    + exists []. cbn. split; [reflexivity|]. split; [lia|]. split; [lia|].
        apply no_waits.
    + destruct (is_request_exception e); cbn [negb].
      2:{ exists []. cbn. split; [reflexivity|]. split; [lia|]. split; [lia|].
        apply no_waits. }
      cbn [timer timer_reads].
      destruct (Z.leb_spec max_time (timer n (timer_reads n) - start)) as [Hle|Hlt].
      { exists []. cbn. split; [reflexivity|]. split; [lia|]. split; [lia|].
        apply no_waits. }
      match goal with |- context [next_wait k ?el ?m] =>
        pose proof (next_wait_bounds k el m Hlt) as Hw;
        destruct (next_wait k el m) as [seconds n3] eqn:Enw end.
      assert (En3 : n3 = Net (server n) (S (requests_made n)) (timer n)
                             (S (timer_reads n)) (random53 n) (S (draws n))
                             (slept n)).
      { unfold next_wait, Net.random in Enw. now injection Enw as _ <-. }
      subst n3. cbn [fst] in Hw.
      match goal with |- context [retry ?t remaining (S k) start ?m] =>
        destruct (IH (S k) start m) as (waits & Hs & Hr & Hl & Hws) end.
      exists (seconds :: waits). cbn [Net.sleep slept requests_made timer timer_reads] in *.
      split; [rewrite Hs; cbn [rev]; now rewrite <- app_assoc|].
      split; [rewrite Hr; cbn [List.length]; lia|].
      split; [cbn [List.length]; lia|].
      intros [|i] w Hiw; cbv zeta.
      * injection Hiw as <-. rewrite !Nat.add_0_r. lia.
      * specialize (Hws i w Hiw). cbv zeta in Hws.
        replace (timer_reads n + S i)%nat with (S (timer_reads n) + i)%nat by lia.
        replace (k + S i)%nat with (S k + i)%nat by lia. exact Hws.
Qed.

(** Whatever a request of [fetch_data] raises is a [RequestException]. *)
Lemma fetch_data_once_raises_request self endpoint params n e :
  fst (fetch_data_once self endpoint params n) = Raise e ->
  is_request_exception e = true.
Proof.
  unfold fetch_data_once, Net.get.
  destruct (server n (requests_made n) _ params)
    as [m|m|status reason response_url payload];
    cbn [fst]; try (intros H; injection H as <-; reflexivity).
  unfold raise_for_status.
  destruct ((400 <=? status) && (status <? 500));
    [cbn [fst]; intros H; injection H as <-; reflexivity|].
  destruct ((500 <=? status) && (status <? 600));
    [cbn [fst]; intros H; injection H as <-; reflexivity|].
  destruct payload; cbn [fst]; intros H; [discriminate H|].
  injection H as <-. reflexivity.
Qed.



(** A body that is not JSON is retried like the other failures: three
    requests, two sleeps, and the decode error of the last one. *)
Example unparseable_body_is_retried :
  let out := fetch_data (new "https://api.example.com/data") "" (PDict [])
               (Sample.net_of
                  (fun _ _ _ =>
                     Responded 200 "OK" "https://api.example.com/data"
                       (Unparseable "Expecting value: line 1 column 1 (char 0)"))) in
  fst out
  = Raise (RequestsJSONDecodeError "Expecting value: line 1 column 1 (char 0)")
  /\ requests_made (snd out) = 3%nat
  /\ List.length (slept (snd out)) = 2%nat.
Proof. cbv zeta. vm_compute. repeat split. Qed.

(** C5, as the code has it.  A page limit of zero is read as no limit at
    all: the loop runs as it does without [max_pages], and on a source
    with one page of data it fetches that page, where a limit of zero
    pages would have it fetch none. *)
Theorem max_pages_zero_is_no_limit :
  forall self endpoint page_size fuel n,
    fetch_paginated_data self endpoint page_size (Some 0) fuel n
    = fetch_paginated_data self endpoint page_size None fuel n
    /\ let out := fetch_paginated_data (new "https://api.example.com/data") ""
                    100 (Some 0) 3 (Sample.net_of Sample.one_page) in
       fst <$> out = Some (Ok [PDict [("id", PInt 1)]])
       /\ (fun r => requests_made (snd r)) <$> out = Some 2%nat.
Proof.
  intros self endpoint page_size fuel n. split.
  - unfold fetch_paginated_data. generalize (@nil pyval) as all_data.
    generalize 1 as page. revert n.
    induction fuel as [|fuel IH]; intros n page all_data; [reflexivity|].
    cbn [paginate past_limit Z.eqb negb andb].
    destruct (fetch_data self endpoint _ n) as [[data|e] n1]; [|reflexivity].
    destruct (negb (truthy data)); [reflexivity|].
    destruct (iterate data); [apply IH|reflexivity].
  - cbv zeta. vm_compute. split; reflexivity.
Qed.

End ClientFacts.
(** ** Pagination *)

Section PaginationFacts.
Import Text Py APIClient Claimed.

(** A request the server answers with status 200 and a parsed body
    succeeds at once: one request, no sleep, and the same server after. *)
Lemma fetch_data_ok self endpoint params n reason response_url data :
  server n (requests_made n)
         (url_of self endpoint) params
  = Responded 200 reason response_url (Parsed data) ->
  exists n',
    fetch_data self endpoint params n = (Ok (records_of data), n')
    /\ server n' = server n
    /\ requests_made n' = S (requests_made n)
    /\ slept n' = slept n.
Proof.
  intros H. unfold fetch_data, on_exception.
  cbn [Net.read_timer pred max_tries].
  rewrite retry_S. cbn [Net.read_timer]. cbv zeta.
  unfold fetch_data_once, Net.get. cbn [server requests_made].
  unfold url_of in H. rewrite H.
  cbn. eexists. split; [reflexivity|]. now repeat split.
Qed.

Lemma page_numbers_S first count :
  page_numbers first (S count) = first :: page_numbers (first + 1) count.
Proof.
  unfold page_numbers. cbn [seq map]. rewrite Z.add_0_r. f_equal.
  rewrite <- seq_shift, map_map. apply map_ext. intros i. lia.
Qed.

Lemma paginate_collects self endpoint page_size max_pages reason
    (pages : Z -> list pyval) (srv : nat -> url -> pyval -> http_outcome) :
  (forall i p, exists response_url,
     srv i (url_of self endpoint) (page_params p page_size)
     = Responded 200 reason response_url (Parsed (PList (pages p)))) ->
  forall count first fuel all_data n,
    server n = srv ->
    (forall p, first <= p < first + Z.of_nat count -> pages p <> []) ->
    pages (first + Z.of_nat count) = [] ->
    (forall p, first <= p <= first + Z.of_nat count ->
               past_limit max_pages p = false) ->
    (count < fuel)%nat ->
    exists n',
      paginate self endpoint page_size max_pages fuel all_data first n
      = Some (Ok (all_data ++ concat (map pages (page_numbers first count))), n')
      /\ requests_made n' = (requests_made n + count + 1)%nat.
Proof.
  intros Hsrv. induction count as [|count IH];
    intros first fuel all_data n Hn Hfull Hempty Hlimit Hfuel;
    (destruct fuel as [|fuel]; [lia|]); cbn [paginate];
    rewrite Hlimit by lia;
    destruct (Hsrv (requests_made n) first) as [response_url Hurl];
    (destruct (fetch_data_ok self endpoint
                 (PDict [("page", PInt first); ("per_page", PInt page_size)]) n
                 reason response_url (PList (pages first)))
       as (n1 & -> & Hs1 & Hr1 & _);
     [rewrite Hn; exact Hurl|]); cbn [records_of].
  - rewrite Z.add_0_r in Hempty. rewrite Hempty. cbn [truthy negb].
    exists n1. split; [|lia]. cbn. now rewrite app_nil_r.
  - assert (Hne : pages first <> []) by (apply Hfull; lia).
    destruct (pages first) as [|x l] eqn:Epage; [contradiction|].
    cbn [truthy negb iterate].
    destruct (IH (first + 1) fuel (all_data ++ x :: l) (Net.sleep 500000 n1))
      as (n' & -> & Hr'); try lia.
    + cbn [Net.sleep server]. congruence.
    + intros p Hp. apply Hfull. lia.
    + rewrite <- Hempty. f_equal. lia.
    + intros p Hp. apply Hlimit. lia.
    + exists n'. split.
      * rewrite page_numbers_S. cbn [map concat]. rewrite Epage.
        now rewrite <- app_assoc.
      * rewrite Hr'. cbn [Net.sleep requests_made]. lia.
Qed.

(** Pagination ends at the first empty page.  On a source that answers
    page [p] with the records [pages p], non-empty for the pages 1 to [N]
    and empty for page [N + 1], without a page limit or with one above
    [N], [fetch_paginated_data] returns the records of the pages 1 to [N]
    in their order, after [N + 1] requests: one per page of data, and the
    one that finds the empty page. *)
Theorem pagination_ends_at_empty_page :
  forall self endpoint page_size max_pages reason (pages : Z -> list pyval)
         (N fuel : nat) n,
    (forall i p, exists response_url,
       server n i (url_of self endpoint) (page_params p page_size)
       = Responded 200 reason response_url (Parsed (PList (pages p)))) ->
    (forall p, 1 <= p <= Z.of_nat N -> pages p <> []) ->
    pages (Z.of_nat N + 1) = [] ->
    (forall m, max_pages = Some m -> Z.of_nat N < m) ->
    (N < fuel)%nat ->
    exists n',
      fetch_paginated_data self endpoint page_size max_pages fuel n
      = Some (Ok (concat (map pages (page_numbers 1 N))), n')
      /\ requests_made n' = (requests_made n + N + 1)%nat.
Proof.
  intros self endpoint page_size max_pages reason pages N fuel n
         Hsrv Hfull Hempty Hlimit Hfuel.
  unfold fetch_paginated_data.
  destruct (paginate_collects self endpoint page_size max_pages reason pages
              (server n) Hsrv N 1 fuel [] n) as (n' & E & Hr);
    try assumption; try reflexivity.
  - intros p Hp. apply Hfull. lia.
  - rewrite <- Hempty. f_equal. lia.
  - intros p Hp. unfold past_limit. destruct max_pages as [m|]; [|reflexivity].
    specialize (Hlimit m eq_refl).
    destruct (Z.ltb_spec m p); [lia|]. now rewrite andb_false_r.
  - exists n'. split; [exact E|exact Hr].
Qed.

Lemma pagination_ends_at_empty_page_witness :
  exists n',
    fetch_paginated_data (new "https://api.example.com/data") "" 100 None 2
                         (Sample.net_of Sample.one_page)
    = Some (Ok (concat (map Sample.one_page_content (page_numbers 1 1))), n')
    /\ requests_made n'
       = (requests_made (Sample.net_of Sample.one_page) + 1 + 1)%nat.
Proof.
  apply (pagination_ends_at_empty_page (new "https://api.example.com/data") ""
           100 None "OK" Sample.one_page_content 1 2
           (Sample.net_of Sample.one_page)).
  - intros i p.
    exists (Sample.asked (BaseUrl "https://api.example.com/data")
                         (page_params p 100)).
    unfold Sample.one_page_content.
    destruct (Z.eqb_spec p 1) as [->|Hp]; [reflexivity|].
    destruct p as [|[q|q|]|q]; try reflexivity. contradiction.
  - intros p Hp. replace p with 1 by lia. discriminate.
  - reflexivity.
  - discriminate.
  - lia.
Defined.

Lemma fetch_data_requests self endpoint params n :
  (requests_made (snd (fetch_data self endpoint params n))
   <= requests_made n + 3)%nat.
Proof.
  unfold fetch_data, on_exception. cbn [Net.read_timer pred max_tries].
  match goal with |- context [retry ?t 2 0 ?st ?m] =>
    destruct (retry_fetch_spec self endpoint params 2 0 st m)
      as (waits & _ & Hr & Hl & _) end.
  cbv zeta in Hr. rewrite Hr. cbn [requests_made]. lia.
Qed.

Lemma paginate_within_limit self endpoint page_size m :
  0 < m ->
  forall j fuel all_data page n,
    page = m + 1 - Z.of_nat j -> (j < fuel)%nat ->
    exists out,
      paginate self endpoint page_size (Some m) fuel all_data page n = Some out
      /\ (requests_made (snd out) <= requests_made n + 3 * j)%nat.
Proof.
  intros Hm. induction j as [|j IH]; intros fuel all_data page n Hpage Hfuel;
    (destruct fuel as [|fuel]; [lia|]); cbn [paginate past_limit].
  - destruct (Z.eqb_spec m 0); [lia|]. destruct (Z.ltb_spec m page); [|lia].
    cbn [negb andb]. eexists. split; [reflexivity|]. cbn [snd]. lia.
  - destruct (Z.eqb_spec m 0); [lia|]. destruct (Z.ltb_spec m page); [lia|].
    cbn [negb andb].
    pose proof (fetch_data_requests self endpoint
                  (PDict [("page", PInt page); ("per_page", PInt page_size)]) n)
      as Hreq.
    destruct (fetch_data self endpoint _ n) as [[data|e] n1]; cbn [snd] in Hreq.
    2:{ eexists. split; [reflexivity|]. cbn [snd]. lia. }
    destruct (negb (truthy data)).
    { eexists. split; [reflexivity|]. cbn [snd]. lia. }
    destruct (iterate data) as [items|e].
    2:{ eexists. split; [reflexivity|]. cbn [snd]. lia. }
    destruct (IH fuel (all_data ++ items) (page + 1) (Net.sleep 500000 n1))
      as (out & -> & Hout); try lia.
    exists out. split; [reflexivity|].
    cbn [Net.sleep requests_made] in Hout. lia.
Qed.

(** With a positive page limit, pagination stops by itself: for any
    server, [fetch_paginated_data] returns within [max_pages + 1] turns of
    its loop, having asked for at most [max_pages] pages, three requests a
    page at most. *)
Theorem pagination_stops_at_positive_limit :
  forall self endpoint page_size m fuel n,
    0 < m -> (Z.to_nat m < fuel)%nat ->
    exists out,
      fetch_paginated_data self endpoint page_size (Some m) fuel n = Some out
      /\ (requests_made (snd out) <= requests_made n + 3 * Z.to_nat m)%nat.
Proof.
  intros self endpoint page_size m fuel n Hm Hfuel.
  apply (paginate_within_limit self endpoint page_size m Hm (Z.to_nat m));
    [lia|exact Hfuel].
Qed.

Lemma pagination_stops_at_positive_limit_witness :
  exists out,
    fetch_paginated_data (new "https://api.example.com/data") "" 100 (Some 1) 2
                         (Sample.net_of Sample.not_found_once) = Some out
    /\ (requests_made (snd out)
        <= requests_made (Sample.net_of Sample.not_found_once)
           + 3 * Z.to_nat 1)%nat.
Proof.
  apply (pagination_stops_at_positive_limit
           (new "https://api.example.com/data") "" 100 1 2
           (Sample.net_of Sample.not_found_once)); [lia|].
  change (Z.to_nat 1) with 1%nat. lia.
Defined.

End PaginationFacts.
(** ** The handler *)

Section HandlerFacts.
Import Text Py Handler.

(** C9. When the configuration names a bucket and the API client returns
    no record, the handler answers 204 with the message
    [No data to process]; the wall clock is not read and S3 is not
    touched, so nothing was processed or written, and the answer is not
    the 500 of a failure. *)
Theorem lambda_handler_no_data :
  forall event ctx w bucket_name n1,
    environ w !! "DATA_BUCKET_NAME" = Some bucket_name ->
    APIClient.fetch_data
      (APIClient.new (default default_endpoint (environ w !! "API_ENDPOINT")))
      "" (default (PDict []) (dict_get event "api_params")) (network w)
    = (Ok (PList []), n1) ->
    lambda_handler event ctx w
    = (Response 204
         ("{" +:+ dq +:+ "message" +:+ dq +:+ ": "
              +:+ dq +:+ "No data to process" +:+ dq +:+ "}"),
       World (environ w) (wall w) n1 (store w))
    /\ statusCode (fst (lambda_handler event ctx w)) <> 500.
Proof.
  intros event ctx w bucket_name n1 Hbucket Hfetch.
  assert (E : lambda_handler event ctx w
              = (Response 204
                   ("{" +:+ dq +:+ "message" +:+ dq +:+ ": "
                        +:+ dq +:+ "No data to process" +:+ dq +:+ "}"),
                 World (environ w) (wall w) n1 (store w))).
  { unfold lambda_handler. rewrite Hbucket, Hfetch. reflexivity. }
  split; [exact E|]. rewrite E. discriminate.
Qed.

Lemma lambda_handler_no_data_witness :
  let w := Sample.world0 Sample.no_data in
  let n1 := snd (APIClient.fetch_data (APIClient.new default_endpoint) ""
                   (PDict []) (network w)) in
  lambda_handler [("force_refresh", PBool false); ("api_params", PDict [])]
                 Sample.no_context w
  = (Response 204
       ("{" +:+ dq +:+ "message" +:+ dq +:+ ": "
            +:+ dq +:+ "No data to process" +:+ dq +:+ "}"),
     World (environ w) (wall w) n1 (store w))
  /\ statusCode
       (fst (lambda_handler
               [("force_refresh", PBool false); ("api_params", PDict [])]
               Sample.no_context w)) <> 500.
Proof.
  cbv zeta.
  apply (lambda_handler_no_data
           [("force_refresh", PBool false); ("api_params", PDict [])]
           Sample.no_context (Sample.world0 Sample.no_data) "bucket").
  - vm_compute. reflexivity.
  - vm_compute. reflexivity.
Defined.

End HandlerFacts.
(** ** Further properties of the writer and the handler *)

Section MoreFacts.
Import Text Py DT S3Writer Handler Claimed.

(** A refused metadata file does not fail the write.  When S3 accepts the
    data object and refuses the metadata file, [write_data] still returns
    the key, and the bucket holds the data object and no metadata file. *)
Theorem write_data_tolerates_metadata_failure :
  forall bucket data prefix format metadata c s e,
    format = "json" \/ format = "csv" \/ format = "parquet" ->
    fault s (puts s) = None ->
    fault s (S (puts s)) = Some e ->
    let timestamp := strftime_Ymd_HMS (reading c (reads c)) in
    let s3_key := prefix +:+ "/data_" +:+ timestamp +:+ "." +:+ extension format in
    let out := write_data bucket data prefix format metadata c s in
    fst out = Ok s3_key
    /\ is_Some (objects (snd (snd out)) !! (bucket, s3_key))
    /\ objects (snd (snd out)) !! (bucket, s3_key +:+ ".metadata.json")
       = objects s !! (bucket, s3_key +:+ ".metadata.json").
Proof.
  intros bucket data prefix format metadata c s e Hf Hdata Hmeta. cbv zeta.
  rewrite write_data_supported by exact Hf. cbv zeta.
  unfold _write_metadata_file, put_object. cbn [now].
  rewrite Hdata. cbn [fault puts]. rewrite Hmeta. cbn [fst snd objects].
  split; [reflexivity|]. split.
  - rewrite lookup_insert_eq. eauto.
  - apply lookup_insert_ne. intros H. injection H as H. revert H.
    apply not_eq_sym, app_not_self. discriminate.
Qed.

Lemma write_data_tolerates_metadata_failure_witness :
  let s := S3 (fun i => match i with
                        | 1%nat => Some (ClientError "AccessDenied")
                        | _ => None
                        end) 0 ∅ in
  let s3_key := "raw-data" +:+ "/data_"
                  +:+ strftime_Ymd_HMS (reading Sample.clock0 (reads Sample.clock0))
                  +:+ "." +:+ extension "json" in
  let out := write_data "bucket" [Sample.record1] "raw-data" "json" None
                        Sample.clock0 s in
  fst out = Ok s3_key
  /\ is_Some (objects (snd (snd out)) !! ("bucket", s3_key))
  /\ objects (snd (snd out)) !! ("bucket", s3_key +:+ ".metadata.json")
     = objects s !! ("bucket", s3_key +:+ ".metadata.json").
Proof.
  cbv zeta.
  apply (write_data_tolerates_metadata_failure "bucket" [Sample.record1]
           "raw-data" "json" None Sample.clock0
           (S3 (fun i => match i with
                         | 1%nat => Some (ClientError "AccessDenied")
                         | _ => None
                         end) 0 ∅)
           (ClientError "AccessDenied")); [tauto|reflexivity|reflexivity].
Defined.

(** Without a bucket name in the environment the handler answers 500 with
    a configuration error, and does nothing else: no request, no clock
    reading, no write. *)
Theorem lambda_handler_missing_bucket :
  forall event ctx w,
    environ w !! "DATA_BUCKET_NAME" = None ->
    lambda_handler event ctx w
    = (Response 500
         ("{" +:+ dq +:+ "error" +:+ dq +:+ ": " +:+ dq
              +:+ "Configuration error: 'DATA_BUCKET_NAME'" +:+ dq +:+ "}"),
       w).
Proof.
  intros event ctx w H. unfold lambda_handler. rewrite H. reflexivity.
Qed.

Lemma lambda_handler_missing_bucket_witness :
  let w := World ∅ Sample.clock0 (Sample.net_of Sample.no_data) Sample.s3_empty in
  lambda_handler [] Sample.no_context w
  = (Response 500
       ("{" +:+ dq +:+ "error" +:+ dq +:+ ": " +:+ dq
            +:+ "Configuration error: 'DATA_BUCKET_NAME'" +:+ dq +:+ "}"),
     w).
Proof.
  cbv zeta.
  apply (lambda_handler_missing_bucket [] Sample.no_context
           (World ∅ Sample.clock0 (Sample.net_of Sample.no_data) Sample.s3_empty)).
  reflexivity.
Defined.

End MoreFacts.

(** ** More on the data processor *)

Section ProcessorMore.
Import Text Py DT DataProcessor Claimed Noted.

Lemma process_record_accepted record c :
  accepted record = true ->
  exists r, _process_record record c = (Ok (Some r), advanced c 2)
            /\ r <> [].
Proof.
  destruct record as [| | | | | |[|kv source]]; try discriminate. intros _.
  unfold _process_record. cbn [truthy negb now]. eexists. split; [reflexivity|].
  unfold dict_of_items. cbn [app dict_update fold_left fst snd dict_set].
  generalize (_flatten_record (kv :: source) "" "_" ++
              [("data_quality_score",
                PFloat (_calculate_quality_score (kv :: source)));
               ("is_complete", PBool (_check_completeness (kv :: source)))]).
  intros items.
  assert (G : forall (d : pydict), d <> [] ->
              fold_left (fun acc kv0 => dict_set acc (fst kv0) (snd kv0)) items d
              <> []).
  { induction items as [|[k0 v0] items IH]; intros d Hd; [exact Hd|].
    cbn [fold_left]. apply IH. destruct d as [|[k1 v1] d]; cbn [dict_set fst snd];
      [|destruct (String.eqb k0 k1)]; discriminate. }
  apply G. discriminate.
Qed.

Lemma process_record_rejected record c :
  accepted record = false ->
  _process_record record c = (Ok None, c)
  \/ exists e, _process_record record c = (Raise e, c).
Proof.
  intros H. unfold _process_record.
  destruct record as [|b|n|x|s|items|[|kv source]]; try discriminate H;
    cbn [truthy negb]; try (left; reflexivity).
  - destruct b; cbn; eauto.
  - destruct (negb (n =? 0)); cbn; eauto.
  - destruct (negb (digits x =? 0)); cbn; eauto.
  - destruct (negb (String.eqb s "")); cbn; eauto.
  - destruct items; cbn; eauto.
Qed.

Lemma process_filter_accepted raw : forall c,
  process raw c = process (List.filter accepted raw) c.
Proof.
  induction raw as [|record rest IH]; intros c; [reflexivity|].
  cbn [List.filter]. destruct (accepted record) eqn:E.
  - rewrite !process_cons.
    destruct (_process_record record c) as [[[r|]|e] c1]; rewrite ?IH; reflexivity.
  - rewrite process_cons.
    destruct (process_record_rejected record c E) as [-> | [e ->]]; apply IH.
Qed.

Lemma process_all_accepted l : forall c,
  Forall (fun record => accepted record = true) l ->
  let out := fst (process l c) in
  List.length out = List.length l
  /\ snd (process l c) = advanced c (2 * List.length l)
  /\ forall i r, nth_error out i = Some r ->
       exists record,
         nth_error l i = Some record
         /\ fst (_process_record record (advanced c (2 * i))) = Ok (Some r).
Proof.
  induction l as [|record rest IH]; intros c Hl; cbv zeta.
  - cbn. split; [reflexivity|]. split; [now destruct c|].
    intros [|i] r; discriminate.
  - apply Forall_cons in Hl as [Hrecord Hrest].
    rewrite process_cons.
    destruct (process_record_accepted record c Hrecord) as (r & E & Hr).
    rewrite E.
    specialize (IH (advanced c 2) Hrest). cbv zeta in IH.
    destruct (process rest (advanced c 2)) as [processed_data c2].
    cbn [fst snd] in IH. destruct IH as (Hlen & Hclock & Hnth).
    assert (Ht : truthy (PDict r) = true) by (destruct r; [contradiction|reflexivity]).
    rewrite Ht. cbn [fst snd List.length]. split; [now rewrite Hlen|].
    split.
    { rewrite Hclock, advanced_advanced. f_equal. lia. }
    intros [|i] r' Hi.
    + injection Hi as <-. exists record. split; [reflexivity|].
      replace (advanced c (2 * 0)) with c by now destruct c.
      now rewrite E.
    + destruct (Hnth i r' Hi) as (record' & Hin & Hp).
      exists record'. split; [exact Hin|].
      rewrite advanced_advanced in Hp.
      now replace (2 * S i)%nat with (2 * i + 2)%nat by lia.
Qed.

(** [process] keeps exactly the records that are mappings with at least
    one field, whatever else the list holds: it returns one output per
    such record, in their order, reads the clock twice for each, and the
    output at position [i] is that of the [i]-th such record at the clock
    after [2 i] readings. *)
Theorem process_one_output_per_accepted_record : forall raw c,
  let kept := List.filter accepted raw in
  let out := fst (process raw c) in
  List.length out = List.length kept
  /\ snd (process raw c) = advanced c (2 * List.length kept)
  /\ forall i r, nth_error out i = Some r ->
       exists record,
         nth_error kept i = Some record
         /\ fst (_process_record record (advanced c (2 * i))) = Ok (Some r).
Proof.
  intros raw c. cbv zeta. rewrite process_filter_accepted.
  apply process_all_accepted. apply Forall_forall. intros record Hin.
  apply list_elem_of_In, List.filter_In in Hin. tauto.
Qed.

End ProcessorMore.
(** ** The fields of a processed record *)

Section OutputFields.
Import Text Py DT DataProcessor Claimed Noted.

Lemma dict_set_fresh {A} (d : list (string * A)) k v :
  ~ In k (dict_keys d) -> dict_set d k v = d ++ [(k, v)].
Proof.
  induction d as [|[k0 v0] d IH]; intros Hk; [reflexivity|].
  cbn [dict_set]. cbn [dict_keys map fst In] in Hk.
  destruct (String.eqb_spec k k0) as [->|Hne]; [tauto|].
  cbn [app]. f_equal. apply IH. unfold dict_keys. tauto.
Qed.

Lemma dict_update_fresh {A} (items : list (string * A)) : forall d,
  NoDup (dict_keys (d ++ items)) -> dict_update d items = d ++ items.
Proof.
  induction items as [|[k v] items IH]; intros d Hd.
  - now rewrite app_nil_r.
  - rewrite dict_update_cons.
    assert (Hk : ~ In k (dict_keys d)).
    { unfold dict_keys in *. rewrite map_app in Hd. cbn [map fst] in Hd.
      apply NoDup_app in Hd as (_ & Hd & _). intros Hin.
      apply (Hd k); [now apply list_elem_of_In|left]. }
    rewrite (dict_set_fresh d k v Hk).
    rewrite IH; rewrite <- app_assoc; [reflexivity|exact Hd].
Qed.

Lemma dict_of_items_nodup_id {A} (d : list (string * A)) :
  NoDup (dict_keys d) -> dict_of_items d = d.
Proof. intros Hd. unfold dict_of_items. now rewrite dict_update_fresh. Qed.

Lemma flat_items_of_flat sep record :
  Forall (fun v => scalar v = true) (dict_values record) ->
  flat_map (flat_item sep "") record = record.
Proof.
  induction record as [|[k v] record IH]; intros Hv; [reflexivity|].
  cbn [dict_values map snd] in Hv. apply Forall_cons in Hv as [Hs Hv].
  cbn [flat_map]. rewrite (IH Hv). unfold flat_item. cbn [fst snd String.eqb negb].
  destruct v; try reflexivity; discriminate Hs.
Qed.

Lemma flatten_record_flat record sep :
  NoDup (dict_keys record) ->
  Forall (fun v => scalar v = true) (dict_values record) ->
  _flatten_record record "" sep = record.
Proof.
  intros Hk Hv. unfold _flatten_record. rewrite flatten_value_dict.
  rewrite (flat_items_of_flat sep record Hv). now apply dict_of_items_nodup_id.
Qed.

Lemma flatten_record_nodup record parent_key sep :
  NoDup (dict_keys (_flatten_record record parent_key sep)).
Proof.
  unfold _flatten_record. rewrite flatten_value_dict. apply dict_of_items_nodup.
Qed.

(** Flattening leaves no nested value and no repeated key, and flattening
    its result again changes nothing. *)
Theorem flatten_record_is_idempotent : forall record parent_key sep,
  let flat := _flatten_record record parent_key sep in
  Forall (fun v => scalar v = true) (dict_values flat)
  /\ NoDup (dict_keys flat)
  /\ _flatten_record flat "" sep = flat.
Proof.
  intros record parent_key sep flat.
  assert (Hv : Forall (fun v => scalar v = true) (dict_values flat))
    by apply flatten_value_scalar.
  assert (Hk : NoDup (dict_keys flat)) by apply flatten_record_nodup.
  split; [exact Hv|]. split; [exact Hk|]. now apply flatten_record_flat.
Qed.

Lemma processed_record_fields source (head : pydict) score complete :
  let flat := _flatten_record source "" "_" in
  let r := dict_of_items
             (head ++ flat
              ++ [("data_quality_score", score); ("is_complete", complete)]) in
  dict_get r "data_quality_score" = Some score
  /\ dict_get r "is_complete" = Some complete
  /\ (forall k v, dict_get flat k = Some v -> ~ In k computed_last ->
                  dict_get r k = Some v)
  /\ (forall k, In k (dict_keys r) <->
                In k (dict_keys head) \/ In k (dict_keys flat)
                \/ In k computed_last).
Proof.
  intros flat r. subst r. unfold dict_of_items.
  rewrite !dict_update_app.
  set (d := dict_update (dict_update [] head) flat).
  cbn [dict_update fold_left fst snd].
  split; [|split; [|split]].
  - rewrite dict_get_set_ne by discriminate. apply dict_get_set_eq.
  - apply dict_get_set_eq.
  - intros k v Hget Hk. cbn [computed_last In] in Hk.
    rewrite !dict_get_set_ne by (intros <-; tauto).
    subst d. apply dict_get_update_in; [apply flatten_record_nodup|exact Hget].
  - intros k. rewrite !dict_set_keys. subst d. rewrite !dict_update_keys.
    cbn [dict_keys map In computed_last]. tauto.
Qed.

(** The fields of a processed record are [id], [created_at],
    [processed_at], those of the flattened raw record and the two computed
    last, and no other; every field of the flattened raw record is there
    with its value, those named [id], [created_at] and [processed_at]
    too, unless it is named as one of the two computed last. *)
Theorem flattened_fields_pass_through : forall record c r,
  fst (_process_record (PDict record) c) = Ok (Some r) ->
  let flat := _flatten_record record "" "_" in
  (forall k v, dict_get flat k = Some v -> ~ In k computed_last ->
               dict_get r k = Some v)
  /\ (forall k, In k (dict_keys r) <->
                In k ["id"; "created_at"; "processed_at"]
                \/ In k (dict_keys flat) \/ In k computed_last).
Proof.
  intros record c r H flat.
  destruct (_process_record (PDict record) c) as [res c1] eqn:E.
  cbn [fst] in H. subst res.
  apply process_record_some in E as (source & Hsrc & ->).
  injection Hsrc as <-.
  match goal with
  | |- context [dict_of_items (?head ++ _ ++ [(_, ?score); (_, ?complete)])] =>
      destruct (processed_record_fields record head score complete)
        as (_ & _ & Hpass & Hkeys)
  end.
  split; [exact Hpass|exact Hkeys].
Qed.

Lemma flattened_fields_pass_through_witness :
  let record := [("id", PInt 7); ("is_complete", PStr "yes");
                 ("address", PDict [("city", PStr "Cali")])] in
  exists r,
    fst (_process_record (PDict record) Sample.clock0) = Ok (Some r)
    /\ dict_get r "id" = Some (PInt 7)
    /\ dict_get r "address_city" = Some (PStr "Cali").
Proof.
  cbv zeta.
  set (record := [("id", PInt 7); ("is_complete", PStr "yes");
                  ("address", PDict [("city", PStr "Cali")])]).
  destruct (_process_record (PDict record) Sample.clock0) as [res c1] eqn:E.
  assert (Hres : exists r, res = Ok (Some r)).
  { vm_compute in E. injection E as <- _. eexists. reflexivity. }
  destruct Hres as [r ->]. exists r. split; [reflexivity|].
  assert (H : fst (_process_record (PDict record) Sample.clock0) = Ok (Some r))
    by now rewrite E.
  destruct (flattened_fields_pass_through record Sample.clock0 r H) as [Hpass _].
  split; apply Hpass; try reflexivity; cbn; intuition discriminate.
Defined.

(** [is_complete] of a processed record is the computed one, whatever
    fields the raw record has: true exactly when the raw record has a
    field [id] at its top level that is not [None]. *)
Theorem is_complete_tells_raw_id : forall record c r,
  fst (_process_record (PDict record) c) = Ok (Some r) ->
  dict_get r "is_complete"
  = Some (PBool (match dict_get record "id" with
                 | Some PNone | None => false
                 | Some _ => true
                 end)).
Proof.
  intros record c r H.
  destruct (_process_record (PDict record) c) as [res c1] eqn:E.
  cbn [fst] in H. subst res.
  apply process_record_some in E as (source & Hsrc & ->).
  injection Hsrc as <-.
  match goal with
  | |- context [dict_of_items (?head ++ _ ++ [(_, ?score); (_, ?complete)])] =>
      destruct (processed_record_fields record head score complete)
        as (_ & -> & _)
  end.
  unfold _check_completeness, required_fields, get_or_none. cbn [forallb].
  rewrite andb_true_r.
  destruct (dict_get record "id") as [[]|]; reflexivity.
Qed.

Lemma is_complete_tells_raw_id_witness :
  let record := [("name", PStr "Ana"); ("is_complete", PBool true)] in
  exists r,
    fst (_process_record (PDict record) Sample.clock0) = Ok (Some r)
    /\ dict_get r "is_complete" = Some (PBool false).
Proof.
  cbv zeta.
  set (record := [("name", PStr "Ana"); ("is_complete", PBool true)]).
  destruct (_process_record (PDict record) Sample.clock0) as [res c1] eqn:E.
  assert (Hres : exists r, res = Ok (Some r)).
  { vm_compute in E. injection E as <- _. eexists. reflexivity. }
  destruct Hres as [r ->]. exists r. split; [reflexivity|].
  assert (H : fst (_process_record (PDict record) Sample.clock0) = Ok (Some r))
    by now rewrite E.
  exact (is_complete_tells_raw_id record Sample.clock0 r H).
Defined.

End OutputFields.
(** ** Generated ids and the batch metadata *)

Section SortedKeys.
Import Text Py DT DataProcessor Claimed Noted.
Context {A : Type}.

Lemma key_le_trans : Transitive (@key_le A).
Proof. intros x y z. unfold key_le. apply transitivity. Qed.

Lemma ltb_false_le (s1 s2 : string) : String.ltb s1 s2 = false -> String.le s2 s1.
Proof.
  unfold String.ltb, String.le, String.leb. rewrite (String.compare_antisym s2 s1).
  destruct (String.compare s1 s2); cbn; intros H; try exact I; discriminate H.
Qed.

Lemma ltb_true_le (s1 s2 : string) : String.ltb s1 s2 = true -> String.le s1 s2.
Proof.
  unfold String.ltb, String.le, String.leb.
  destruct (String.compare s1 s2); cbn; intros H; try exact I; discriminate H.
Qed.

Lemma insert_by_key_perm (x : string * A) l : insert_by_key x l ≡ₚ x :: l.
Proof.
  induction l as [|y l IH]; [reflexivity|]. cbn [insert_by_key].
  destruct (String.ltb (fst y) (fst x)); [|reflexivity].
  rewrite IH. apply Permutation_swap.
Qed.

Lemma insert_by_key_sorted (x : string * A) l :
  Sorted key_le l -> Sorted key_le (insert_by_key x l).
Proof.
  induction l as [|y l IH]; intros Hl; cbn [insert_by_key].
  - repeat constructor.
  - destruct (String.ltb (fst y) (fst x)) eqn:E.
    + apply Sorted_inv in Hl as [Hl Hy]. constructor; [now apply IH|].
      destruct l as [|z l]; cbn [insert_by_key].
      * constructor. now apply ltb_true_le.
      * destruct (String.ltb (fst z) (fst x)); constructor.
        -- now inversion Hy.
        -- now apply ltb_true_le.
    + constructor; [exact Hl|]. constructor. now apply ltb_false_le.
Qed.

Lemma sort_by_key_perm (l : list (string * A)) : sort_by_key l ≡ₚ l.
Proof.
  induction l as [|x l IH]; [reflexivity|]. unfold sort_by_key. cbn [fold_right].
  rewrite insert_by_key_perm. now constructor.
Qed.

Lemma sort_by_key_sorted (l : list (string * A)) : Sorted key_le (sort_by_key l).
Proof.
  induction l as [|x l IH]; [constructor|]. now apply insert_by_key_sorted.
Qed.

Lemma nodup_keys_same_item (l : list (string * A)) x y :
  NoDup (map fst l) -> x ∈ l -> y ∈ l -> fst x = fst y -> x = y.
Proof.
  induction l as [|z l IH]; intros Hl Hx Hy Hxy; [inversion Hx|].
  cbn [map] in Hl. apply NoDup_cons in Hl as [Hz Hl].
  apply elem_of_cons in Hx as [->|Hx]; apply elem_of_cons in Hy as [->|Hy].
  - reflexivity.
  - exfalso. apply Hz. rewrite Hxy. now apply list_elem_of_fmap_2.
  - exfalso. apply Hz. rewrite <- Hxy. now apply list_elem_of_fmap_2.
  - now apply IH.
Qed.

(** Sorting by key gives the same list for any two orders of the same
    items, when no key is repeated. *)
Lemma sort_by_key_of_permutation (l1 l2 : list (string * A)) :
  NoDup (map fst l1) -> l1 ≡ₚ l2 -> sort_by_key l1 = sort_by_key l2.
Proof.
  intros Hl H12.
  apply (@Sorted_unique_strong _ key_le key_le_trans);
    [|apply sort_by_key_sorted|apply sort_by_key_sorted
     |now rewrite !sort_by_key_perm].
  intros x y Hx Hy Hxy Hyx.
  rewrite sort_by_key_perm in Hx. rewrite sort_by_key_perm, <- H12 in Hy.
  apply (nodup_keys_same_item l1); try assumption.
  unfold key_le in *. now apply (anti_symm String.le).
Qed.

End SortedKeys.

Section GeneratedId.
Import Text Py DT DataProcessor Claimed Noted.

(** The id generated for a record does not depend on the order of its
    fields. *)
Theorem generate_id_ignores_field_order : forall record1 record2,
  NoDup (dict_keys record1) ->
  record1 ≡ₚ record2 ->
  _generate_id record1 = _generate_id record2.
Proof.
  intros record1 record2 Hk Hp. unfold _generate_id, Json.dumps_sorted.
  cbn [Json.dumps_at].
  set (render := fun kv : string * pyval =>
                   (fst kv, Json.dumps_at true None 1 (snd kv))).
  assert (E : sort_by_key (map render record1) = sort_by_key (map render record2)).
  { apply sort_by_key_of_permutation.
    - rewrite map_map. exact Hk.
    - now apply Permutation_map. }
  now rewrite E.
Qed.

Lemma generate_id_ignores_field_order_witness :
  _generate_id [("name", PStr "Ana"); ("age", PInt 30)]
  = _generate_id [("age", PInt 30); ("name", PStr "Ana")].
Proof.
  apply generate_id_ignores_field_order.
  - apply (bool_decide_unpack _). vm_compute. exact I.
  - apply Permutation_swap.
Defined.

(** In the batch metadata the three computed entries are always the
    computed ones, whatever the caller's metadata holds under those names,
    and every other entry of the caller is kept. *)
Theorem add_metadata_computed_entries_win : forall data metadata c,
  NoDup (dict_keys metadata) ->
  let m := fst (add_metadata data metadata c) in
  dict_get m "record_count" = Some (PInt (Z.of_nat (List.length data)))
  /\ dict_get m "processing_timestamp"
     = Some (PStr (isoformat (reading c (reads c))))
  /\ dict_get m "schema_version" = Some (PStr "1.0.0")
  /\ (forall k, ~ In k metadata_computed -> dict_get m k = dict_get metadata k)
  /\ (forall k, In k (dict_keys m) <->
                In k (dict_keys metadata) \/ In k metadata_computed)
  /\ snd (add_metadata data metadata c) = advanced c 1.
Proof.
  intros data metadata c Hk m. subst m. unfold add_metadata. cbn [now fst snd].
  unfold dict_of_items. rewrite dict_update_app.
  fold (dict_of_items metadata). rewrite (dict_of_items_nodup_id metadata Hk).
  cbn [dict_update fold_left fst snd].
  repeat split.
  - rewrite !dict_get_set_ne by discriminate. apply dict_get_set_eq.
  - rewrite dict_get_set_ne by discriminate. apply dict_get_set_eq.
  - apply dict_get_set_eq.
  - intros k Hn. cbn [metadata_computed In] in Hn.
    now rewrite !dict_get_set_ne by (intros <-; tauto).
  - rewrite !dict_set_keys. cbn [metadata_computed In]. tauto.
  - rewrite !dict_set_keys. cbn [metadata_computed In]. tauto.
Qed.

Lemma add_metadata_computed_entries_win_witness :
  let m := fst (add_metadata [Sample.record1]
                  [("source", PStr "api"); ("record_count", PInt 99)]
                  Sample.clock0) in
  dict_get m "record_count" = Some (PInt 1)
  /\ dict_get m "source" = Some (PStr "api").
Proof.
  cbv zeta.
  assert (Hk : NoDup (dict_keys [("source", PStr "api"); ("record_count", PInt 99)])).
  { apply (bool_decide_unpack _). vm_compute. exact I. }
  destruct (add_metadata_computed_entries_win [Sample.record1] _ Sample.clock0 Hk)
    as (Hcount & _ & _ & Hother & _).
  split; [exact Hcount|].
  rewrite Hother; [reflexivity|]. cbn. intuition discriminate.
Defined.

End GeneratedId.
(** ** More on the S3 writer *)

Section WriterMore.
Import Text Py DT DataProcessor S3Writer Claimed Noted.

(** A successful [write_data] stores exactly two objects: the data under
    the returned key, encrypted, with the encoded records and the tags,
    and beside it the metadata file, a JSON document without tags or
    encryption setting whose [created_at] is the second clock reading; no
    other key of the store changes. *)
Theorem write_data_stores_two_objects :
  forall bucket data prefix format metadata c s,
    format = "json" \/ format = "csv" \/ format = "parquet" ->
    fault s (puts s) = None ->
    fault s (S (puts s)) = None ->
    let timestamp := strftime_Ymd_HMS (reading c (reads c)) in
    let s3_key := prefix +:+ "/data_" +:+ timestamp +:+ "." +:+ extension format in
    let out := write_data bucket data prefix format metadata c s in
    let after := objects (snd (snd out)) in
    fst out = Ok s3_key
    /\ after !! (bucket, s3_key)
       = Some (S3Object
                 (if String.eqb format "csv" then _to_csv_simple data
                  else _to_json data)
                 (if String.eqb format "csv" then "text/csv"
                  else "application/json")
                 (s3_metadata data format timestamp metadata)
                 (Some "AES256"))
    /\ after !! (bucket, s3_key +:+ ".metadata.json")
       = Some (S3Object
                 (utf8 (Json.dumps_indent 2
                          (PDict
                             [("data_file", PStr s3_key);
                              ("created_at",
                               PStr (isoformat (reading c (S (reads c)))));
                              ("record_count",
                               PInt (Z.of_nat (List.length data)));
                              ("schema", PDict (_infer_schema data));
                              ("custom_metadata", PDict (or_empty metadata))])))
                 "application/json" [] None)
    /\ (forall other,
          other <> (bucket, s3_key) ->
          other <> (bucket, s3_key +:+ ".metadata.json") ->
          after !! other = objects s !! other)
    /\ puts (snd (snd out)) = S (S (puts s))
    /\ fst (snd out) = advanced c 2.
Proof.
  intros bucket data prefix format metadata c s Hf Hdata Hmeta. cbv zeta.
  rewrite write_data_supported by exact Hf. cbv zeta.
  unfold _write_metadata_file, put_object. cbn [now].
  rewrite Hdata. cbn [fault puts]. rewrite Hmeta. cbn [fst snd objects puts reads reading].
  assert (Hne : forall key : string, (bucket, key +:+ ".metadata.json") <> (bucket, key)).
  { intros key H. injection H as H. revert H. apply app_not_self. discriminate. }
  split; [reflexivity|]. split; [|split; [|split; [|split]]].
  - rewrite lookup_insert_ne by apply Hne. now rewrite lookup_insert_eq.
  - now rewrite lookup_insert_eq.
  - intros other H1 H2. now rewrite !lookup_insert_ne by congruence.
  - reflexivity.
  - reflexivity.
Qed.

Lemma write_data_stores_two_objects_witness :
  let out := write_data "bucket" [Sample.record1] "raw-data" "csv" None
                        Sample.clock0 Sample.s3_empty in
  fst out = Ok "raw-data/data_20240101_120000.csv"
  /\ body <$> objects (snd (snd out)) !! ("bucket", "raw-data/data_20240101_120000.csv")
     = Some (utf8 ("id" +:+ nl +:+ "1"))
  /\ puts (snd (snd out)) = 2%nat.
Proof.
  cbv zeta.
  destruct (write_data_stores_two_objects "bucket" [Sample.record1] "raw-data"
              "csv" None Sample.clock0 Sample.s3_empty)
    as (Hkey & Hobj & _ & _ & Hputs & _);
    [right; left; reflexivity|reflexivity|reflexivity|].
  split; [exact Hkey|]. split; [|exact Hputs].
  change ("raw-data/data_20240101_120000.csv")
    with ("raw-data" +:+ "/data_"
            +:+ strftime_Ymd_HMS (reading Sample.clock0 (reads Sample.clock0))
            +:+ "." +:+ extension "csv").
  rewrite Hobj. reflexivity.
Defined.

(** When S3 refuses the data object, [write_data] raises that very
    exception after this one attempt: nothing is stored, the metadata file
    is not tried, and the clock was read once. *)
Theorem write_data_refused_put_raises :
  forall bucket data prefix format metadata c s e,
    format = "json" \/ format = "csv" \/ format = "parquet" ->
    fault s (puts s) = Some e ->
    let out := write_data bucket data prefix format metadata c s in
    fst out = Raise e
    /\ objects (snd (snd out)) = objects s
    /\ puts (snd (snd out)) = S (puts s)
    /\ fst (snd out) = advanced c 1.
Proof.
  intros bucket data prefix format metadata c s e Hf Hdata. cbv zeta.
  rewrite write_data_supported by exact Hf. cbv zeta.
  unfold put_object. rewrite Hdata. cbn [now fst snd objects puts].
  repeat split.
Qed.

Lemma write_data_refused_put_raises_witness :
  let out := write_data "bucket" [Sample.record1] "raw-data" "json" None
                        Sample.clock0 Scenario.s3_read_only in
  fst out = Raise (ClientError "AccessDenied")
  /\ objects (snd (snd out)) = ∅
  /\ puts (snd (snd out)) = 1%nat
  /\ fst (snd out) = advanced Sample.clock0 1.
Proof.
  cbv zeta.
  apply (write_data_refused_put_raises "bucket" [Sample.record1] "raw-data"
           "json" None Sample.clock0 Scenario.s3_read_only);
    [left; reflexivity|reflexivity].
Defined.

(** The CSV encoding takes its columns from the first record alone: two
    batches with the same first record whose later records agree on the
    fields of the first one are encoded alike, whatever other fields the
    later records have. *)
Theorem csv_columns_come_from_first_record :
  forall first rest1 rest2,
    Forall2 (fun record1 record2 =>
               forall h, In h (dict_keys first) ->
                         dict_get record1 h = dict_get record2 h)
            rest1 rest2 ->
    _to_csv_simple (first :: rest1) = _to_csv_simple (first :: rest2).
Proof.
  intros first rest1 rest2 H. unfold _to_csv_simple. do 2 f_equal.
  cbn [map]. do 2 f_equal.
  induction H as [|record1 record2 rest1 rest2 Hrec _ IH]; [reflexivity|].
  cbn [map]. rewrite IH. f_equal. f_equal.
  apply map_ext_in. intros h Hh. now rewrite (Hrec h Hh).
Qed.

Lemma csv_columns_come_from_first_record_witness :
  _to_csv_simple [[("id", PInt 1)]; [("id", PInt 2); ("name", PStr "Luis")]]
  = _to_csv_simple [[("id", PInt 1)]; [("id", PInt 2)]].
Proof.
  apply csv_columns_come_from_first_record.
  constructor; [|constructor].
  intros h [<-|[]]. reflexivity.
Defined.

Lemma lower_char_normal c :
  let c' := lower_char (if Ascii.eqb c " "%char then "_"%char else c) in
  Ascii.eqb " "%char c' = false /\ lower_char c' = c'.
Proof.
  destruct c as [[] [] [] [] [] [] [] []]; vm_compute; split; reflexivity.
Qed.

Lemma normalised_key k :
  let k' := lower (spaces_to_underscores k) in
  contains_char " " k' = false /\ lower k' = k'.
Proof.
  induction k as [|c k IH]; [split; reflexivity|].
  cbv zeta in *. unfold lower, spaces_to_underscores in *.
  cbn [map_chars contains_char].
  destruct (lower_char_normal c) as [-> ->]. destruct IH as [-> ->].
  split; reflexivity.
Qed.

(** The tags of the data object: [record_count], [format] and [timestamp]
    are always among them, no key is repeated, and every key is in
    lower case and has no space. *)
Theorem s3_metadata_keys_are_normalised :
  forall data format timestamp metadata,
    let tags := s3_metadata data format timestamp metadata in
    (forall k, In k ["record_count"; "format"; "timestamp"] ->
               In k (dict_keys tags))
    /\ NoDup (dict_keys tags)
    /\ Forall (fun k => contains_char " " k = false /\ lower k = k)
              (dict_keys tags).
Proof.
  intros data format timestamp metadata tags.
  set (good := fun d : list (string * string) =>
         (forall k, In k ["record_count"; "format"; "timestamp"] ->
                    In k (dict_keys d))
         /\ NoDup (dict_keys d)
         /\ Forall (fun k => contains_char " " k = false /\ lower k = k)
                   (dict_keys d)).
  change (good tags).
  set (base := dict_of_items
                 [("record_count", int_str (Z.of_nat (List.length data)));
                  ("format", if String.eqb format "parquet" then "json" else format);
                  ("timestamp", timestamp)]).
  assert (Hbase : good base).
  { subst good base. cbv beta. unfold dict_of_items.
    cbn [dict_update fold_left dict_set fst snd String.eqb Ascii.eqb Bool.eqb
         dict_keys map].
    split; [tauto|]. split.
    - apply (bool_decide_unpack _). vm_compute. exact I.
    - repeat constructor. }
  assert (Hfold : forall m d, good d ->
            good (fold_left
                    (fun acc kv =>
                       if Z.of_nat (String.length (fst kv))
                          + Z.of_nat (String.length (str (snd kv))) <? 1024
                       then dict_set acc (lower (spaces_to_underscores (fst kv)))
                                     (str (snd kv))
                       else acc) m d)).
  { induction m as [|[k v] m IH]; intros d Hd; [exact Hd|].
    cbn [fold_left fst snd]. apply IH.
    destruct (_ <? 1024); [|exact Hd].
    destruct Hd as (H3 & Hnd & Hall). subst good. cbv beta.
    split; [|split].
    - intros k0 Hk0. apply dict_set_keys. left. now apply H3.
    - now apply dict_set_nodup.
    - apply Forall_forall. intros k0 Hk0.
      apply list_elem_of_In, dict_set_keys in Hk0 as [Hk0 | <-].
      + rewrite Forall_forall in Hall. apply Hall. now apply list_elem_of_In.
      + apply normalised_key. }
  subst tags. unfold s3_metadata. fold base.
  destruct metadata as [m|]; [|exact Hbase].
  destruct (truthy (PDict m)); [|exact Hbase].
  now apply Hfold.
Qed.

Lemma fold_tags_last (m : pydict) k v (d : list (string * string)) :
  Z.of_nat (String.length k) + Z.of_nat (String.length (str v)) < 1024 ->
  dict_get
    (fold_left
       (fun acc kv =>
          if Z.of_nat (String.length (fst kv))
             + Z.of_nat (String.length (str (snd kv))) <? 1024
          then dict_set acc (lower (spaces_to_underscores (fst kv)))
                        (str (snd kv))
          else acc) (m ++ [(k, v)]) d)
    (lower (spaces_to_underscores k))
  = Some (str v).
Proof.
  intros Hshort. rewrite fold_left_app. cbn [fold_left fst snd].
  apply Z.ltb_lt in Hshort. rewrite Hshort. apply dict_get_set_eq.
Qed.

(** The caller's last metadata entry, when key and value together stay
    under 1024 characters, is always among the tags under its key in lower
    case with underscores for spaces, also where that is the name of a
    computed tag, which it then replaces. *)
Theorem s3_metadata_caller_entry_wins :
  forall data format timestamp m k v,
    Z.of_nat (String.length k) + Z.of_nat (String.length (str v)) < 1024 ->
    dict_get (s3_metadata data format timestamp (Some (m ++ [(k, v)])))
             (lower (spaces_to_underscores k))
    = Some (str v).
Proof.
  intros data format timestamp m k v Hshort. unfold s3_metadata.
  assert (Ht : truthy (PDict (m ++ [(k, v)])) = true)
    by (destruct m; reflexivity).
  rewrite Ht. now apply fold_tags_last.
Qed.

Lemma s3_metadata_caller_entry_wins_witness :
  dict_get (s3_metadata [Sample.record1] "json" "20240101_120000"
              (Some ([("source", PStr "api")] ++ [("Record Count", PInt 99)])))
           "record_count"
  = Some "99".
Proof.
  apply (s3_metadata_caller_entry_wins [Sample.record1] "json" "20240101_120000"
           [("source", PStr "api")] "Record Count" (PInt 99)).
  vm_compute. reflexivity.
Defined.

Lemma type_name_of_scalar v :
  scalar v = true ->
  In (type_name v) ["NoneType"; "bool"; "int"; "float"; "str"].
Proof. destruct v; cbn; intros H; try discriminate H; tauto. Qed.

(** The schema inferred for a batch that [process] returned names no
    mapping and no list: every field has one of the types [NoneType],
    [bool], [int], [float] and [str], and the fields are those of the
    first record of the batch. *)
Theorem schema_of_processed_batch_is_flat :
  forall raw c,
    let out := fst (process raw c) in
    let schema := _infer_schema out in
    Forall (fun t => exists name,
              t = PStr name
              /\ In name ["NoneType"; "bool"; "int"; "float"; "str"])
           (dict_values schema)
    /\ (forall k, In k (dict_keys schema) <->
                  exists first rest, out = first :: rest /\ In k (dict_keys first)).
Proof.
  intros raw c. cbv zeta.
  pose proof (process_output_from c raw 0) as H.
  replace (advanced c 0) with c in H by now destruct c.
  destruct (fst (process raw c)) as [|sample rest]; cbn [_infer_schema].
  - split; [constructor|]. intros k. split; [intros []|].
    intros (first & rest & Hout & _). discriminate Hout.
  - apply Forall_cons in H as [(_ & _ & _ & Hscalar & _) _]. split.
    + apply dict_of_items_values.
      unfold dict_values in *. rewrite map_map. cbn [snd].
      rewrite Forall_map in Hscalar. rewrite Forall_map.
      eapply List.Forall_impl; [|exact Hscalar].
      intros v Hv. cbv beta in *. eexists. split; [reflexivity|].
      now apply type_name_of_scalar.
    + intros k. rewrite dict_of_items_keys. unfold dict_keys. rewrite map_map.
      cbn [fst]. split.
      * intros Hk. exists sample, rest. split; [reflexivity|exact Hk].
      * intros (first & rest' & Hout & Hk). injection Hout as <- _. exact Hk.
Qed.

End WriterMore.
(** ** More on the API client *)

Section ClientMore.
Import Text Py APIClient Claimed Noted.





(** Against a server on which the request fails alike whenever it is
    made, the retry loop ends with that failure. *)
Lemma retry_same_failure self endpoint params e : forall remaining k start n,
  (forall m, server m = server n ->
     fst (fetch_data_once self endpoint params m) = Raise e) ->
  fst (retry (fetch_data_once self endpoint params) remaining k start n) = Raise e.
Proof.
  induction remaining as [|remaining IH]; intros k start n Hfail.
  - cbn [retry Net.read_timer].
    match goal with |- context [fetch_data_once ?a ?b ?c ?d] =>
      pose proof (Hfail d eq_refl) as R;
      destruct (fetch_data_once a b c d) as [res n2] end.
    cbn [fst] in R. subst res. destruct (negb (is_request_exception e)); reflexivity.
  - rewrite retry_S. cbn [Net.read_timer]. cbv zeta.
    match goal with |- context [fetch_data_once ?a ?b ?c ?d] =>
      pose proof (Hfail d eq_refl) as R;
      pose proof (fetch_data_once_effect a b c d) as E;
      destruct (fetch_data_once a b c d) as [res n2] end.
    cbn [fst snd] in R, E. subst res n2.
    destruct (negb (is_request_exception e)); [reflexivity|].
    destruct (max_time <=? _); [reflexivity|].
    match goal with |- context [next_wait k ?el ?m] =>
      destruct (next_wait k el m) as [seconds n3] eqn:Enw end.
    assert (En3 : server n3 = server n).
    { unfold next_wait, Net.random in Enw. now injection Enw as _ <-. }
    apply IH. intros m Hm. apply Hfail. cbn [Net.sleep server] in Hm. congruence.
Qed.

Lemma paginate_fails self endpoint page_size max_pages reason
    (pages : Z -> list pyval) (srv : nat -> url -> pyval -> http_outcome) e :
  forall count first fuel all_data n,
    server n = srv ->
    (forall i p, first <= p < first + Z.of_nat count ->
       exists response_url,
         srv i (url_of self endpoint) (page_params p page_size)
         = Responded 200 reason response_url (Parsed (PList (pages p)))) ->
    (forall p, first <= p < first + Z.of_nat count -> pages p <> []) ->
    (forall n', server n' = srv ->
       fst (fetch_data self endpoint
              (page_params (first + Z.of_nat count) page_size) n') = Raise e) ->
    (forall p, first <= p <= first + Z.of_nat count ->
               past_limit max_pages p = false) ->
    (count < fuel)%nat ->
    exists n',
      paginate self endpoint page_size max_pages fuel all_data first n
      = Some (Raise e, n').
Proof.
  induction count as [|count IH];
    intros first fuel all_data n Hn Hsrv Hfull Hbad Hlimit Hfuel;
    (destruct fuel as [|fuel]; [lia|]); cbn [paginate];
    rewrite Hlimit by lia.
  - specialize (Hbad n Hn). rewrite Z.add_0_r in Hbad. unfold page_params in Hbad.
    destruct (fetch_data self endpoint _ n) as [res n1].
    cbn [fst] in Hbad. subst res. now exists n1.
  - destruct (Hsrv (requests_made n) first ltac:(lia)) as [response_url Hurl].
    destruct (fetch_data_ok self endpoint
                (PDict [("page", PInt first); ("per_page", PInt page_size)]) n
                reason response_url (PList (pages first)))
      as (n1 & -> & Hs1 & Hr1 & _).
    { rewrite Hn. exact Hurl. }
    cbn [records_of].
    assert (Hne : pages first <> []) by (apply Hfull; lia).
    destruct (pages first) as [|x l] eqn:Epage; [contradiction|].
    cbn [truthy negb iterate].
    apply (IH (first + 1) fuel (all_data ++ x :: l) (Net.sleep 500000 n1)).
    + cbn [Net.sleep server]. congruence.
    + intros i p Hp. apply Hsrv. lia.
    + intros p Hp. apply Hfull. lia.
    + intros n' Hn'. replace (first + 1 + Z.of_nat count)
        with (first + Z.of_nat (S count)) by lia. now apply Hbad.
    + intros p Hp. apply Hlimit. lia.
    + lia.
Qed.

(** When a page cannot be fetched, [fetch_paginated_data] raises that
    failure and the records of the pages fetched before it are lost to the
    caller. *)
Theorem pagination_failure_discards_pages :
  forall self endpoint page_size max_pages reason (pages : Z -> list pyval)
         (N fuel : nat) n e,
    (forall i p, 1 <= p <= Z.of_nat N ->
       exists response_url,
         server n i (url_of self endpoint) (page_params p page_size)
         = Responded 200 reason response_url (Parsed (PList (pages p)))) ->
    (forall p, 1 <= p <= Z.of_nat N -> pages p <> []) ->
    (forall n', server n' = server n ->
       fst (fetch_data self endpoint
              (page_params (Z.of_nat N + 1) page_size) n') = Raise e) ->
    (forall m, max_pages = Some m -> Z.of_nat N < m) ->
    (N < fuel)%nat ->
    exists n',
      fetch_paginated_data self endpoint page_size max_pages fuel n
      = Some (Raise e, n').
Proof.
  intros self endpoint page_size max_pages reason pages N fuel n e
         Hsrv Hfull Hbad Hlimit Hfuel.
  unfold fetch_paginated_data.
  apply (paginate_fails self endpoint page_size max_pages reason pages
           (server n) e N 1 fuel [] n); try assumption; try reflexivity.
  - intros i p Hp. apply Hsrv. lia.
  - intros p Hp. apply Hfull. lia.
  - intros n' Hn'. replace (1 + Z.of_nat N) with (Z.of_nat N + 1) by lia.
    now apply Hbad.
  - intros p Hp. unfold past_limit. destruct max_pages as [m|]; [|reflexivity].
    specialize (Hlimit m eq_refl).
    destruct (Z.ltb_spec m p); [lia|]. now rewrite andb_false_r.
Qed.

Lemma pagination_failure_discards_pages_witness :
  exists n',
    fetch_paginated_data (new "https://api.example.com/data") "" 100 None 2
                         (Sample.net_of Scenario.broken_second_page)
    = Some (Raise (RequestsJSONDecodeError
                     "Expecting value: line 1 column 1 (char 0)"), n').
Proof.
  apply (pagination_failure_discards_pages (new "https://api.example.com/data") ""
           100 None "OK" Scenario.first_page_content 1 2
           (Sample.net_of Scenario.broken_second_page)).
  - intros i p Hp. replace p with 1 by lia. eexists. reflexivity.
  - intros p Hp. discriminate.
  - intros n' Hn'. unfold fetch_data, on_exception.
    cbn [Net.read_timer pred max_tries].
    apply retry_same_failure. intros m Hm. cbn [server] in Hm.
    unfold fetch_data_once, Net.get. rewrite Hm, Hn'. reflexivity.
  - discriminate.
  - lia.
Defined.

End ClientMore.
(** ** More on the handler *)

Section HandlerMore.
Import Text Py DT DataProcessor S3Writer APIClient Handler Claimed Noted.

Lemma text_app_assoc (a b c : string) : (a +:+ b) +:+ c = a +:+ (b +:+ c).
Proof.
  induction a as [|x a IH]; [reflexivity|]. rewrite !app_cons. now rewrite IH.
Qed.

Lemma write_data_raise_keeps_objects bucket data prefix format metadata c s e after :
  write_data bucket data prefix format metadata c s = (Raise e, after) ->
  objects (snd after) = objects s.
Proof.
  unfold write_data. cbn [now].
  destruct (String.eqb format "parquet" || String.eqb format "json").
  - unfold put_object. destruct (fault s (puts s)).
    + intros H. now injection H as _ <-.
    + unfold _write_metadata_file, put_object. cbn [now fault puts].
      destruct (fault s (S (puts s))); discriminate.
  - destruct (String.eqb format "csv").
    + unfold put_object. destruct (fault s (puts s)).
      * intros H. now injection H as _ <-.
      * unfold _write_metadata_file, put_object. cbn [now fault puts].
        destruct (fault s (S (puts s))); discriminate.
    + intros H. now injection H as _ <-.
Qed.

Lemma write_data_accepted bucket data prefix format metadata c s :
  format = "json" \/ format = "csv" \/ format = "parquet" ->
  fault s (puts s) = None ->
  let timestamp := strftime_Ymd_HMS (reading c (reads c)) in
  let s3_key := prefix +:+ "/data_" +:+ timestamp +:+ "." +:+ extension format in
  exists after,
    write_data bucket data prefix format metadata c s = (Ok s3_key, after)
    /\ objects (snd after) !! (bucket, s3_key)
       = Some (S3Object
                 (if String.eqb format "csv" then _to_csv_simple data
                  else _to_json data)
                 (if String.eqb format "csv" then "text/csv"
                  else "application/json")
                 (s3_metadata data format timestamp metadata)
                 (Some "AES256")).
Proof.
  intros Hf Hdata. cbv zeta.
  rewrite write_data_supported by exact Hf. cbv zeta.
  unfold _write_metadata_file, put_object. cbn [now].
  rewrite Hdata. cbn [fault puts].
  assert (Hne : forall key : string, (bucket, key +:+ ".metadata.json") <> (bucket, key)).
  { intros key H. injection H as H. revert H. apply app_not_self. discriminate. }
  destruct (fault s (S (puts s))); eexists; (split; [reflexivity|]);
    cbn [snd objects].
  - now rewrite lookup_insert_eq.
  - rewrite lookup_insert_ne by apply Hne. now rewrite lookup_insert_eq.
Qed.

Lemma fetch_data_once_raises self endpoint params n e :
  fst (fetch_data_once self endpoint params n) = Raise e ->
  match e with KeyError _ => False | _ => True end.
Proof.
  intros H. apply fetch_data_once_raises_request in H.
  destruct e; try exact I. discriminate H.
Qed.

Lemma retry_raises self endpoint params : forall remaining k start n e,
  fst (retry (fetch_data_once self endpoint params) remaining k start n) = Raise e ->
  match e with KeyError _ => False | _ => True end.
Proof.
  induction remaining as [|remaining IH]; intros k start n e.
  - cbn [retry Net.read_timer].
    match goal with |- context [fetch_data_once ?a ?b ?c ?d] =>
      pose proof (fetch_data_once_raises a b c d) as R;
      destruct (fetch_data_once a b c d) as [[ret|e0] n2] end;
      cbn [fst] in *; [discriminate|].
    destruct (negb (is_request_exception e0)); cbn [fst];
      intros H; injection H as <-; now apply R.
  - rewrite retry_S. cbn [Net.read_timer]. cbv zeta.
    match goal with |- context [fetch_data_once ?a ?b ?c ?d] =>
      pose proof (fetch_data_once_raises a b c d) as R;
      destruct (fetch_data_once a b c d) as [[ret|e0] n2] end;
      cbn [fst] in *; [discriminate|].
    destruct (negb (is_request_exception e0)); cbn [fst];
      [intros H; injection H as <-; now apply R|].
    destruct (max_time <=? _); cbn [fst];
      [intros H; injection H as <-; now apply R|].
    destruct (next_wait k _ n2) as [seconds n3]. apply IH.
Qed.

Lemma fetch_data_raises self endpoint params n e :
  fst (fetch_data self endpoint params n) = Raise e ->
  match e with KeyError _ => False | _ => True end.
Proof.
  unfold fetch_data, on_exception. cbn [Net.read_timer]. apply retry_raises.
Qed.

(** The handler after a fetch that returned a list with records: it
    processes them, reads the clock three times and writes the batch. *)
Lemma lambda_handler_after_fetch event ctx w bucket_name records n1 :
  environ w !! "DATA_BUCKET_NAME" = Some bucket_name ->
  fetch_data
    (new (default default_endpoint (environ w !! "API_ENDPOINT")))
    "" (default (PDict []) (dict_get event "api_params")) (network w)
  = (Ok (PList records), n1) ->
  records <> [] ->
  let api_endpoint := default default_endpoint (environ w !! "API_ENDPOINT") in
  let request_id := default "local-test" (aws_request_id ctx) in
  let output_format := default "parquet" (environ w !! "OUTPUT_FORMAT") in
  let processed_data := fst (process records (wall w)) in
  let c1 := snd (process records (wall w)) in
  let metadata :=
    fst (add_metadata processed_data
           [("source", PStr api_endpoint);
            ("extraction_time", PStr (isoformat (reading c1 (reads c1))));
            ("request_id", PStr request_id)] (advanced c1 1)) in
  let date := reading c1 (2 + reads c1) in
  let prefix := "raw-data/" +:+ ("year=" +:+ int_str (year date) +:+ "/month="
                                   +:+ zfill 2 (month date) +:+ "/day="
                                   +:+ zfill 2 (day date)) in
  lambda_handler event ctx w
  = match write_data bucket_name processed_data prefix output_format
            (Some metadata) (advanced c1 3) (store w) with
    | (Raise e, (c5, s1)) => (failed e, World (environ w) c5 n1 s1)
    | (Ok s3_key, (c5, s1)) =>
        (Response 200
           (Json.dumps
              (PDict
                 [("message", PStr "Data extraction completed successfully");
                  ("details",
                   PDict
                     [("records_processed",
                       PInt (Z.of_nat (List.length processed_data)));
                      ("s3_location",
                       PStr ("s3://" +:+ bucket_name +:+ "/" +:+ s3_key));
                      ("format", PStr output_format);
                      ("request_id", PStr request_id)])])),
         World (environ w) c5 n1 s1)
    end.
Proof.
  intros Hbucket Hfetch Hrecords. cbv zeta. unfold lambda_handler.
  rewrite Hbucket, Hfetch.
  destruct records as [|record rest]; [contradiction|].
  cbn [truthy negb len iterate].
  destruct (process (record :: rest) (wall w)) as [processed_data c1].
  cbn [fst snd]. reflexivity.
Qed.

(** Whatever the event, the environment and the outside world, the
    handler answers 200, 204 or 500, leaves the environment as it was, and
    unless it answers 200 the objects of the store are what they were. *)
Theorem lambda_handler_writes_only_on_success :
  forall event ctx w,
    let out := lambda_handler event ctx w in
    In (statusCode (fst out)) [200; 204; 500]
    /\ environ (snd out) = environ w
    /\ (statusCode (fst out) <> 200 ->
        objects (store (snd out)) = objects (store w)).
Proof.
  intros event ctx w. cbv zeta. unfold lambda_handler.
  assert (Hfailed : forall e, statusCode (failed e) = 500)
    by (intros []; reflexivity).
  destruct (environ w !! "DATA_BUCKET_NAME") as [bucket_name|];
    [|cbn; tauto].
  destruct (fetch_data _ "" _ (network w)) as [[raw_data|e] n1];
    [|cbn [fst snd environ store]; rewrite Hfailed; cbn; tauto].
  destruct (negb (truthy raw_data)); [cbn; tauto|].
  destruct (len raw_data) as [l|e];
    [|cbn [fst snd environ store]; rewrite Hfailed; cbn; tauto].
  destruct (iterate raw_data) as [records|e];
    [|cbn [fst snd environ store]; rewrite Hfailed; cbn; tauto].
  destruct (process records (wall w)) as [processed_data c1].
  cbn [now add_metadata Utils.get_partition_path].
  match goal with |- context [write_data ?b ?d ?p ?f ?m ?c ?s] =>
    pose proof (write_data_raise_keeps_objects b d p f m c s) as Hkeep;
    destruct (write_data b d p f m c s) as [[s3_key|e] [c5 s1]] end.
  - cbn. split; [tauto|]. split; [reflexivity|]. intros H. now contradiction H.
  - cbn [fst snd environ store]. rewrite Hfailed. specialize (Hkeep e _ eq_refl).
    cbn in *. tauto.
Qed.

Lemma lambda_handler_stores_batch :
  forall event ctx w bucket_name records n1,
    environ w !! "DATA_BUCKET_NAME" = Some bucket_name ->
    fetch_data
      (new (default default_endpoint (environ w !! "API_ENDPOINT")))
      "" (default (PDict []) (dict_get event "api_params")) (network w)
    = (Ok (PList records), n1) ->
    records <> [] ->
    let output_format := default "parquet" (environ w !! "OUTPUT_FORMAT") in
    output_format = "json" \/ output_format = "csv" \/ output_format = "parquet" ->
    fault (store w) (puts (store w)) = None ->
    let processed_data := fst (process records (wall w)) in
    let c1 := snd (process records (wall w)) in
    let date := reading c1 (2 + reads c1) in
    let stamp := strftime_Ymd_HMS (reading c1 (3 + reads c1)) in
    let s3_key :=
      "raw-data/year=" +:+ int_str (year date) +:+ "/month="
        +:+ zfill 2 (month date) +:+ "/day=" +:+ zfill 2 (day date)
        +:+ "/data_" +:+ stamp +:+ "." +:+ extension output_format in
    let out := lambda_handler event ctx w in
    fst out
    = Response 200
        (Json.dumps
           (PDict
              [("message", PStr "Data extraction completed successfully");
               ("details",
                PDict
                  [("records_processed",
                    PInt (Z.of_nat (List.length processed_data)));
                   ("s3_location",
                    PStr ("s3://" +:+ bucket_name +:+ "/" +:+ s3_key));
                   ("format", PStr output_format);
                   ("request_id",
                    PStr (default "local-test" (aws_request_id ctx)))])]))
    /\ network (snd out) = n1
    /\ body <$> objects (store (snd out)) !! (bucket_name, s3_key)
       = Some (if String.eqb output_format "csv"
               then _to_csv_simple processed_data
               else _to_json processed_data).
Proof.
  intros event ctx w bucket_name records n1 Hbucket Hfetch Hrecords
         output_format Hformat Hfault. cbv zeta.
  rewrite (lambda_handler_after_fetch event ctx w bucket_name records n1
             Hbucket Hfetch Hrecords). cbv zeta.
  fold output_format.
  set (c1 := snd (process records (wall w))).
  set (processed_data := fst (process records (wall w))).
  match goal with |- context [write_data ?b ?d ?p ?f ?m ?c ?s] =>
    destruct (write_data_accepted b d p f m c s Hformat Hfault)
      as ([c5 s1] & E & Hobj) end.
  cbv zeta in E, Hobj. cbn [advanced reading reads] in E, Hobj.
  assert (Ekey :
    ("raw-data/" +:+ ("year=" +:+ int_str (year (reading c1 (2 + reads c1)))
        +:+ "/month=" +:+ zfill 2 (month (reading c1 (2 + reads c1)))
        +:+ "/day=" +:+ zfill 2 (day (reading c1 (2 + reads c1)))))
      +:+ "/data_" +:+ strftime_Ymd_HMS (reading c1 (3 + reads c1))
      +:+ "." +:+ extension output_format
    = "raw-data/year=" +:+ int_str (year (reading c1 (2 + reads c1)))
        +:+ "/month=" +:+ zfill 2 (month (reading c1 (2 + reads c1)))
        +:+ "/day=" +:+ zfill 2 (day (reading c1 (2 + reads c1)))
        +:+ "/data_" +:+ strftime_Ymd_HMS (reading c1 (3 + reads c1))
        +:+ "." +:+ extension output_format).
  { change "raw-data/year=" with ("raw-data/" +:+ "year=").
    now rewrite !text_app_assoc. }
  rewrite Ekey in E, Hobj. rewrite E. cbn [fst snd network store].
  split; [reflexivity|]. split; [reflexivity|].
  cbn [snd] in Hobj. rewrite Hobj. reflexivity.
Qed.

(** A run that fetches records and is allowed to store the data object
    answers 200.  The body counts the processed records, names the object
    as [s3://bucket/raw-data/year=Y/month=MM/day=DD/data_STAMP.ext], where
    the date is the third clock reading after the processing and the stamp
    the fourth, and repeats the configured format as it is (by default
    [parquet]) though the object has the extension and the encoding the
    writer chose; the object holds the processed records. *)
Theorem lambda_handler_success :
  forall event ctx w bucket_name records n1,
    environ w !! "DATA_BUCKET_NAME" = Some bucket_name ->
    fetch_data
      (new (default default_endpoint (environ w !! "API_ENDPOINT")))
      "" (default (PDict []) (dict_get event "api_params")) (network w)
    = (Ok (PList records), n1) ->
    records <> [] ->
    let output_format := default "parquet" (environ w !! "OUTPUT_FORMAT") in
    output_format = "json" \/ output_format = "csv" \/ output_format = "parquet" ->
    fault (store w) (puts (store w)) = None ->
    let processed_data := fst (process records (wall w)) in
    let c1 := snd (process records (wall w)) in
    let date := reading c1 (2 + reads c1) in
    let stamp := strftime_Ymd_HMS (reading c1 (3 + reads c1)) in
    let s3_key :=
      "raw-data/year=" +:+ int_str (year date) +:+ "/month="
        +:+ zfill 2 (month date) +:+ "/day=" +:+ zfill 2 (day date)
        +:+ "/data_" +:+ stamp +:+ "." +:+ extension output_format in
    let out := lambda_handler event ctx w in
    fst out
    = Response 200
        (Json.dumps
           (PDict
              [("message", PStr "Data extraction completed successfully");
               ("details",
                PDict
                  [("records_processed",
                    PInt (Z.of_nat (List.length processed_data)));
                   ("s3_location",
                    PStr ("s3://" +:+ bucket_name +:+ "/" +:+ s3_key));
                   ("format", PStr output_format);
                   ("request_id",
                    PStr (default "local-test" (aws_request_id ctx)))])]))
    /\ network (snd out) = n1
    /\ body <$> objects (store (snd out)) !! (bucket_name, s3_key)
       = Some (if String.eqb output_format "csv"
               then _to_csv_simple processed_data
               else _to_json processed_data).
Proof.
  intros event ctx w bucket_name records n1 Hbucket Hfetch Hrecords
         output_format Hformat Hfault.
  now apply lambda_handler_stores_batch.
Qed.

Lemma lambda_handler_success_witness :
  let w := Sample.world0 Scenario.two_records in
  let out := lambda_handler [] Sample.no_context w in
  fst out
  = Response 200
      (Json.dumps
         (PDict
            [("message", PStr "Data extraction completed successfully");
             ("details",
              PDict
                [("records_processed", PInt 2);
                 ("s3_location",
                  PStr ("s3://bucket/raw-data/year=2024/month=01/day=01/"
                          +:+ "data_20240101_120000.json"));
                 ("format", PStr "parquet");
                 ("request_id", PStr "local-test")])]))
  /\ body <$> objects (store (snd out))
               !! ("bucket", "raw-data/year=2024/month=01/day=01/"
                               +:+ "data_20240101_120000.json")
     = Some (_to_json (fst (process Sample.ana_luis Sample.clock0))).
Proof.
  cbv zeta.
  destruct (lambda_handler_success [] Sample.no_context
              (Sample.world0 Scenario.two_records) "bucket" Sample.ana_luis
              (snd (fetch_data (new default_endpoint) "" (PDict [])
                      (Sample.net_of Scenario.two_records))))
    as (Hresp & _ & Hobj);
    [reflexivity|reflexivity|discriminate|right; right; reflexivity|reflexivity|].
  split; [rewrite Hresp; reflexivity|exact Hobj].
Defined.

(** With an [OUTPUT_FORMAT] the writer does not know, a run that fetched
    records answers 500 with the writer's message after the requests, the
    processing and four more clock readings, and stores nothing. *)
Theorem lambda_handler_unsupported_format :
  forall event ctx w bucket_name records n1 output_format,
    environ w !! "DATA_BUCKET_NAME" = Some bucket_name ->
    environ w !! "OUTPUT_FORMAT" = Some output_format ->
    output_format <> "json" -> output_format <> "csv" ->
    output_format <> "parquet" ->
    fetch_data
      (new (default default_endpoint (environ w !! "API_ENDPOINT")))
      "" (default (PDict []) (dict_get event "api_params")) (network w)
    = (Ok (PList records), n1) ->
    records <> [] ->
    lambda_handler event ctx w
    = (Response 500
         (Json.dumps
            (PDict [("error",
                     PStr ("Processing failed: Unsupported format: "
                             +:+ output_format))])),
       World (environ w) (advanced (snd (process records (wall w))) 4) n1
             (store w)).
Proof.
  intros event ctx w bucket_name records n1 output_format
         Hbucket Hformat Hj Hc Hp Hfetch Hrecords.
  rewrite (lambda_handler_after_fetch event ctx w bucket_name records n1
             Hbucket Hfetch Hrecords). cbv zeta.
  rewrite Hformat. cbn [default].
  rewrite write_data_unsupported by assumption.
  cbn [now advanced reading reads snd failed exn_str]. reflexivity.
Qed.

Lemma lambda_handler_unsupported_format_witness :
  let w := World {[ "DATA_BUCKET_NAME" := "bucket"; "OUTPUT_FORMAT" := "xml" ]}
                 Sample.clock0 (Sample.net_of Scenario.two_records)
                 Sample.s3_empty in
  let out := lambda_handler [] Sample.no_context w in
  statusCode (fst out) = 500
  /\ response_body (fst out)
     = "{" +:+ dq +:+ "error" +:+ dq +:+ ": " +:+ dq
           +:+ "Processing failed: Unsupported format: xml" +:+ dq +:+ "}"
  /\ store (snd out) = Sample.s3_empty.
Proof.
  cbv zeta.
  rewrite (lambda_handler_unsupported_format [] Sample.no_context
             (World {[ "DATA_BUCKET_NAME" := "bucket"; "OUTPUT_FORMAT" := "xml" ]}
                    Sample.clock0 (Sample.net_of Scenario.two_records)
                    Sample.s3_empty)
             "bucket" Sample.ana_luis
             (snd (fetch_data (new default_endpoint) "" (PDict [])
                     (Sample.net_of Scenario.two_records)))
             "xml");
    [|reflexivity|reflexivity|discriminate|discriminate|discriminate
     |reflexivity|discriminate].
  repeat split.
Defined.

(** When the records cannot be fetched the handler answers 500 with the
    body [{"error": "Processing failed: <the failure's text>"}], never as
    a configuration error, and touches neither the clock nor the store. *)
Theorem lambda_handler_fetch_failure :
  forall event ctx w bucket_name e n1,
    environ w !! "DATA_BUCKET_NAME" = Some bucket_name ->
    fetch_data
      (new (default default_endpoint (environ w !! "API_ENDPOINT")))
      "" (default (PDict []) (dict_get event "api_params")) (network w)
    = (Raise e, n1) ->
    lambda_handler event ctx w
    = (Response 500
         (Json.dumps
            (PDict [("error", PStr ("Processing failed: " +:+ exn_str e))])),
       World (environ w) (wall w) n1 (store w)).
Proof.
  intros event ctx w bucket_name e n1 Hbucket Hfetch.
  unfold lambda_handler. rewrite Hbucket, Hfetch.
  pose proof (fetch_data_raises _ _ _ _ e (f_equal fst Hfetch)) as He.
  destruct e; try reflexivity. contradiction He.
Qed.

Lemma lambda_handler_fetch_failure_witness :
  let w := Sample.world0 Scenario.unavailable in
  let out := lambda_handler [] Sample.no_context w in
  fst out
  = Response 500
      ("{" +:+ dq +:+ "error" +:+ dq +:+ ": " +:+ dq
           +:+ "Processing failed: 503 Server Error: Service Unavailable for url: "
           +:+ "https://jsonplaceholder.typicode.com/users" +:+ dq +:+ "}")
  /\ store (snd out) = Sample.s3_empty
  /\ requests_made (network (snd out)) = 3%nat.
Proof.
  cbv zeta.
  rewrite (lambda_handler_fetch_failure [] Sample.no_context
             (Sample.world0 Scenario.unavailable) "bucket"
             (RequestsHTTPError 503
                ("503 Server Error: Service Unavailable for url: "
                   +:+ "https://jsonplaceholder.typicode.com/users"))
             (snd (fetch_data (new default_endpoint) "" (PDict [])
                     (Sample.net_of Scenario.unavailable))));
    [|reflexivity|vm_compute; reflexivity].
  repeat split.
Defined.



End HandlerMore.
(** ** utils.py *)

Section UtilsFacts.
Import Text Py DT Utils Handler Claimed Noted.

Lemma int_str_value y : 0 <= y < 10000 -> decimal_value (int_str y) = y.
Proof.
  intros Hy.
  apply Z.eqb_eq.
  apply (forallb_below (fun y => decimal_value (int_str y) =? y) (Z.to_nat 10000));
    [vm_compute; reflexivity|lia].
Qed.

Lemma int_str_inj a b :
  0 <= a < 10000 -> 0 <= b < 10000 -> int_str a = int_str b -> a = b.
Proof.
  intros Ha Hb H. rewrite <- (int_str_value a Ha), <- (int_str_value b Hb).
  now rewrite H.
Qed.

(** Two moments get the same partition path exactly when they are on the
    same day: the path tells year, month and day apart. *)
Theorem partition_path_tells_the_day :
  forall c1 c2,
    let t1 := reading c1 (reads c1) in
    let t2 := reading c2 (reads c2) in
    valid t1 -> valid t2 ->
    (fst (get_partition_path c1) = fst (get_partition_path c2)
     <-> year t1 = year t2 /\ month t1 = month t2 /\ day t1 = day t2).
Proof.
  intros c1 c2 t1 t2
         (Hy1 & Hm1 & Hd1 & _) (Hy2 & Hm2 & Hd2 & _).
  unfold get_partition_path. cbn [now fst]. fold t1 t2.
  split; [|intros (-> & -> & ->); reflexivity].
  rewrite !zfill_2 by lia. intros H.
  apply app_inj_length in H as [_ H]; [|reflexivity].
  assert (Hlen : String.length (int_str (year t1))
                 = String.length (int_str (year t2))).
  { apply (f_equal String.length) in H. rewrite !length_app in H.
    cbn [String.length two_digits] in H. lia. }
  apply app_inj_length in H as [Ey H]; [|exact Hlen].
  apply app_inj_length in H as [_ H]; [|reflexivity].
  apply app_inj_length in H as [Em H]; [|reflexivity].
  apply app_inj_length in H as [_ Ed]; [|reflexivity].
  apply int_str_inj in Ey; [|lia..].
  apply two_digits_inj in Em, Ed; [|lia..].
  repeat split; assumption.
Qed.

Lemma partition_path_tells_the_day_witness :
  fst (get_partition_path Sample.clock0) = fst (get_partition_path Sample.clock1)
  <-> 2024 = 2024 /\ 1 = 1 /\ 1 = 1.
Proof.
  apply (partition_path_tells_the_day Sample.clock0 Sample.clock1);
    cbn; unfold valid; cbn; lia.
Defined.

(** [validate_environment] accepts an environment exactly when
    [DATA_BUCKET_NAME] is set to a non-empty value, and otherwise raises
    the one [ValueError] that names it, also for an empty value; what it
    returns are the bucket name, and the endpoint, the format and the log
    level with their defaults, the endpoint's being the handler's. *)
Theorem validate_environment_needs_a_bucket_name :
  forall env,
    ((exists cfg, validate_environment env = Ok cfg)
     <-> exists bucket, env !! "DATA_BUCKET_NAME" = Some bucket /\ bucket <> "")
    /\ ((forall cfg, validate_environment env <> Ok cfg) ->
        validate_environment env
        = Raise (ValueError
                   "Missing required environment variables: ['DATA_BUCKET_NAME']"))
    /\ (forall cfg, validate_environment env = Ok cfg ->
        dict_keys cfg
        = ["DATA_BUCKET_NAME"; "API_ENDPOINT"; "OUTPUT_FORMAT"; "LOG_LEVEL"]
        /\ dict_get cfg "DATA_BUCKET_NAME" = env !! "DATA_BUCKET_NAME"
        /\ dict_get cfg "API_ENDPOINT"
           = Some (default default_endpoint (env !! "API_ENDPOINT"))
        /\ dict_get cfg "OUTPUT_FORMAT"
           = Some (default "parquet" (env !! "OUTPUT_FORMAT"))
        /\ dict_get cfg "LOG_LEVEL" = Some (default "INFO" (env !! "LOG_LEVEL"))).
Proof.
  intros env. unfold validate_environment, required_vars. cbn [List.filter].
  destruct (env !! "DATA_BUCKET_NAME") as [bucket|] eqn:E.
  - cbn [truthy]. destruct (String.eqb_spec bucket "") as [->|Hne]; cbn.
    + split; [|split].
      * split; [intros [cfg H]; discriminate H|].
        intros (b & Hb & Hn). injection Hb as <-. contradiction.
      * reflexivity.
      * intros cfg H. discriminate H.
    + split; [|split].
      * split; [|eauto]. intros _. exists bucket. now split.
      * intros H. exfalso. eapply H. reflexivity.
      * intros cfg H. injection H as <-. cbn. repeat split.
  - cbn. split; [|split].
    + split; [intros [cfg H]; discriminate H|].
      intros (b & Hb & _). discriminate Hb.
    + reflexivity.
    + intros cfg H. discriminate H.
Qed.

End UtilsFacts.
(** ** Payload shapes *)

Section PayloadShapes.
Import Text Py DT DataProcessor S3Writer APIClient Handler Claimed Noted.

(** A first answer with a decoded body and a status outside 400..599 ends
    [fetch_data] after that one request, without any sleep.  What it
    returns is the body itself when that is a list, the [data], else the
    [results], else the [items] entry of a mapping that has one, whatever
    that entry is, a one-record list holding a mapping that has none of
    them, and the empty list for any other body; so the result is a list
    unless a mapping carried something else under one of the three
    names. *)
Theorem fetch_data_unwraps_payload :
  forall self endpoint params n status reason response_url data,
    server n (requests_made n) (url_of self endpoint) params
    = Responded status reason response_url (Parsed data) ->
    ~ 400 <= status < 600 ->
    let out := fetch_data self endpoint params n in
    fst out = Ok (records_of data)
    /\ requests_made (snd out) = S (requests_made n)
    /\ slept (snd out) = slept n
    /\ (is_list data = true -> records_of data = data)
    /\ (forall d, data = PDict d ->
          records_of data
          = match dict_get d "data", dict_get d "results", dict_get d "items" with
            | Some v, _, _ | None, Some v, _ | None, None, Some v => v
            | None, None, None => PList [data]
            end)
    /\ (is_list data = false -> is_dict data = false -> records_of data = PList [])
    /\ (is_list (records_of data) = false ->
        exists d, data = PDict d
                  /\ (dict_has d "data" || dict_has d "results"
                      || dict_has d "items") = true).
Proof.
  intros self endpoint params n status reason response_url data Hsrv Hstatus.
  cbv zeta.
  unfold fetch_data, on_exception. cbn [Net.read_timer pred max_tries].
  rewrite retry_S. cbn [Net.read_timer]. cbv zeta.
  unfold fetch_data_once, Net.get. cbn [server requests_made].
  unfold url_of in Hsrv. rewrite Hsrv. unfold raise_for_status.
  destruct (Z.leb_spec 400 status), (Z.ltb_spec status 500),
           (Z.leb_spec 500 status), (Z.ltb_spec status 600); try lia;
    cbn [andb fst snd requests_made slept];
    (split; [reflexivity|]); (split; [reflexivity|]); (split; [reflexivity|]);
    (split; [destruct data; try discriminate; reflexivity|]);
    (split; [intros d ->; cbn [records_of];
             destruct (dict_get d "data"), (dict_get d "results"),
                      (dict_get d "items"); reflexivity|]);
    (split; [destruct data; try discriminate; reflexivity|]);
    (destruct data as [| | | | | |d]; try discriminate;
     intros Hshape; exists d; split; [reflexivity|]; unfold dict_has;
     cbn [records_of] in Hshape;
     destruct (dict_get d "data"), (dict_get d "results"), (dict_get d "items");
     try reflexivity; discriminate Hshape).
Qed.

Lemma fetch_data_unwraps_payload_witness :
  let srv : nat -> url -> pyval -> http_outcome :=
    fun _ _ _ =>
      Responded 200 "OK" "https://api.example.com/data"
        (Parsed (PDict [("items", PList []); ("data", PInt 5)])) in
  fst (fetch_data (new "https://api.example.com/data") "" (PDict [])
         (Sample.net_of srv))
  = Ok (PInt 5).
Proof.
  cbv zeta.
  destruct (fetch_data_unwraps_payload (new "https://api.example.com/data") ""
              (PDict [])
              (Sample.net_of
                 (fun _ _ _ =>
                    Responded 200 "OK" "https://api.example.com/data"
                      (Parsed (PDict [("items", PList []); ("data", PInt 5)]))))
              200 "OK" "https://api.example.com/data"
              (PDict [("items", PList []); ("data", PInt 5)]))
    as (H & _); [reflexivity|lia|exact H].
Defined.

(** When the fetch returns a number or a boolean that is not falsy, as
    a [data] entry of the payload can be, the handler answers 500 with the
    [TypeError] of [len] and touches neither the clock nor the store. *)
Theorem lambda_handler_rejects_unsized_payload :
  forall event ctx w bucket_name raw_data n1,
    environ w !! "DATA_BUCKET_NAME" = Some bucket_name ->
    fetch_data
      (new (default default_endpoint (environ w !! "API_ENDPOINT")))
      "" (default (PDict []) (dict_get event "api_params")) (network w)
    = (Ok raw_data, n1) ->
    truthy raw_data = true ->
    In (type_name raw_data) ["bool"; "int"; "float"] ->
    lambda_handler event ctx w
    = (Response 500
         (Json.dumps
            (PDict [("error",
                     PStr ("Processing failed: object of type '"
                             +:+ type_name raw_data +:+ "' has no len()"))])),
       World (environ w) (wall w) n1 (store w)).
Proof.
  intros event ctx w bucket_name raw_data n1 Hbucket Hfetch Htruthy Htype.
  unfold lambda_handler. rewrite Hbucket, Hfetch, Htruthy. cbn [negb].
  destruct raw_data; cbn in Htype; try (exfalso; intuition discriminate);
    reflexivity.
Qed.

Lemma lambda_handler_rejects_unsized_payload_witness :
  let srv : nat -> url -> pyval -> http_outcome :=
    fun _ _ _ =>
      Responded 200 "OK" default_endpoint (Parsed (PDict [("data", PInt 5)])) in
  let out := lambda_handler [] Sample.no_context (Sample.world0 srv) in
  statusCode (fst out) = 500
  /\ response_body (fst out)
     = "{" +:+ dq +:+ "error" +:+ dq +:+ ": " +:+ dq
           +:+ "Processing failed: object of type 'int' has no len()"
           +:+ dq +:+ "}"
  /\ store (snd out) = Sample.s3_empty.
Proof.
  cbv zeta.
  rewrite (lambda_handler_rejects_unsized_payload [] Sample.no_context
             (Sample.world0
                (fun _ _ _ =>
                   Responded 200 "OK" default_endpoint
                     (Parsed (PDict [("data", PInt 5)]))))
             "bucket" (PInt 5)
             (snd (fetch_data (new default_endpoint) "" (PDict [])
                     (Sample.net_of
                        (fun _ _ _ =>
                           Responded 200 "OK" default_endpoint
                             (Parsed (PDict [("data", PInt 5)])))))));
    [|reflexivity|reflexivity|reflexivity|cbn; tauto].
  repeat split.
Defined.

End PayloadShapes.
